(** * Moducate backend: role / approval state and its propagation

    A shallow embedding of the Cloud Functions of the assessment-moderation
    backend (utils/db.js, utils/auth.js, users/api.js, users/onCreate.js,
    users/onUpdate.js, assessments/api.js) and the properties of the
    role/approval state machine across the two stores: the document store
    and the identity provider's claims.

    JavaScript objects are finite maps from property names to values,
    [async] code is sequenced in a state-and-exception monad over a world
    made of the document store, the identity provider, the server clock and
    the list of committed writes.  Console output is not modelled. *)

From Stdlib Require Import ZArith String List Bool.
From stdpp Require Import base gmap strings pretty list fin_maps option.

Local Open Scope string_scope.
Local Open Scope list_scope.
Local Open Scope Z_scope.

(* ===================================================================== *)
(** ** JavaScript values *)
(* ===================================================================== *)

Module Js.

(** The values that flow through the functions: JSON scalars, a claims
    object (role-name to boolean, as built by the claims code), the
    [FieldValue.serverTimestamp()] sentinel and the timestamp the store
    writes in its place.  Numbers are integers. *)
Inductive jsval :=
  | JUndefined
  | JNull
  | JBool (b : bool)
  | JNum (n : Z)
  | JStr (s : string)
  | JClaims (c : gmap string bool)
  | JServerTimestamp
  | JTime (t : Z).

#[global] Instance jsval_eq_dec : EqDecision jsval.
Proof. solve_decision. Defined.

#[global] Instance jsval_inhabited : Inhabited jsval := populate JUndefined.

(** ToBoolean. *)
Definition truthy (v : jsval) : bool :=
  match v with
  | JUndefined | JNull => false
  | JBool b => b
  | JNum n => negb (n =? 0)
  | JStr s => negb (String.eqb s EmptyString)
  | JClaims _ | JServerTimestamp | JTime _ => true
  end.

(** [a === b].  Objects are equal only to themselves; every comparison in
    the sources has a primitive on one side or compares values read from
    two different snapshots, so two objects never are the same reference. *)
Definition strict_eq (a b : jsval) : bool :=
  match a, b with
  | JUndefined, JUndefined => true
  | JNull, JNull => true
  | JBool x, JBool y => Bool.eqb x y
  | JNum x, JNum y => x =? y
  | JStr x, JStr y => String.eqb x y
  | _, _ => false
  end.

Definition strict_neq (a b : jsval) : bool := negb (strict_eq a b).

(** [a || b] on values. *)
Definition or_else (a b : jsval) : jsval := if truthy a then a else b.

(** [o.k]: a missing property reads as [undefined]. *)
Definition prop (o : gmap string jsval) (k : string) : jsval :=
  default JUndefined (o !! k).

(** [arr.includes(v)] for an array of strings. *)
Definition includes (arr : list string) (v : jsval) : bool :=
  match v with
  | JStr s => bool_decide (s ∈ arr)
  | _ => false
  end.

(** Template-literal rendering of the values the sources interpolate. *)
Definition to_string (v : jsval) : string :=
  match v with
  | JStr s => s
  | JUndefined => "undefined"
  | JNull => "null"
  | JBool true => "true"
  | JBool false => "false"
  | JNum n => pretty n
  | JClaims _ | JServerTimestamp | JTime _ => "[object Object]"
  end.

(** [arr.join(sep)]. *)
Fixpoint join (sep : string) (arr : list string) : string :=
  match arr with
  | [] => EmptyString
  | [x] => x
  | x :: rest => x +:+ sep +:+ join sep rest
  end.

End Js.
Export Js.

Abbreviation obj := (gmap string jsval).
Abbreviation claims := (gmap string bool).
Notation "o .[ k ]" := (prop o k) (at level 1, left associativity, format "o .[ k ]").

(* ===================================================================== *)
(** ** The world: document store, identity provider, clock, write log *)
(* ===================================================================== *)

Inductive code :=
  | Unauthenticated | PermissionDenied | InvalidArgument
  | FailedPrecondition | Internal.

#[global] Instance code_eq_dec : EqDecision code.
Proof. solve_decision. Defined.

(** What a function can throw: [functions.https.HttpsError(code, message)]
    or a plain [Error(message)] (also what the SDK raises). *)
Inductive exn :=
  | HttpsError (c : code) (msg : string)
  | JsError (msg : string).

#[global] Instance exn_eq_dec : EqDecision exn.
Proof. solve_decision. Defined.

(** [error.message]. *)
Definition message (e : exn) : string :=
  match e with
  | HttpsError _ m => m
  | JsError m => m
  end.

Record identity := Identity {
  id_email : jsval;
  id_displayName : jsval;
  id_claims : option claims
}.

#[global] Instance identity_eq_dec : EqDecision identity.
Proof. solve_decision. Defined.

(** A document reference: collection name and document id. *)
Record docref := DocRef { ref_collection : string; ref_id : string }.

(** Committed writes, in the order they were committed. *)
Inductive effect :=
  | DocSet (r : docref) (data : obj)
  | DocUpdate (r : docref) (patch : obj)
  | UserCreated (uid : string)
  | ClaimsSet (uid : string) (c : claims).

#[global] Instance docref_eq_dec : EqDecision docref.
Proof. solve_decision. Defined.
#[global] Instance effect_eq_dec : EqDecision effect.
Proof. solve_decision. Defined.

Record World := mkWorld {
  firestore : gmap string (gmap string obj);
  identities : gmap string identity;
  clock : Z;
  effects : list effect
}.

(** The documents of a collection; a collection never written is empty. *)
Definition collection (w : World) (c : string) : gmap string obj :=
  default ∅ (firestore w !! c).

Definition users (w : World) : gmap string obj := collection w "users".

(** The claims attached to an identity, if any. *)
Definition claims_of (w : World) (uid : string) : option claims :=
  i ← identities w !! uid; id_claims i.

(* ===================================================================== *)
(** ** The monad of [async] functions *)
(* ===================================================================== *)

Inductive outcome (A : Type) :=
  | Returned (a : A)
  | Thrown (e : exn).
Arguments Returned {A} a.
Arguments Thrown {A} e.

(** A computation runs in a world and leaves a world, also when it throws:
    writes committed before an exception stay committed. *)
Definition M (A : Type) : Type := World → outcome A * World.

Definition ret {A} (a : A) : M A := λ w, (Returned a, w).
Definition throw {A} (e : exn) : M A := λ w, (Thrown e, w).
Definition bind {A B} (m : M A) (k : A → M B) : M B :=
  λ w, match m w with
       | (Returned a, w') => k a w'
       | (Thrown e, w') => (Thrown e, w')
       end.
(** [try { m } catch (error) { h error }]. *)
Definition try_catch {A} (m : M A) (h : exn → M A) : M A :=
  λ w, match m w with
       | (Returned a, w') => (Returned a, w')
       | (Thrown e, w') => h e w'
       end.

Notation "'let*' x ':=' m 'in' k" := (bind m (λ x, k))
  (at level 10, x name, m at level 100, k at level 200).
Notation "m ';;;' k" := (bind m (λ _, k))
  (at level 100, k at level 200, right associativity).

(** [if (c) throw e;] *)
Definition throw_if (c : bool) (e : exn) : M unit :=
  if c then throw e else ret tt.

Definition result {A} (m : M A) (w : World) : outcome A := fst (m w).
Definition exec {A} (m : M A) (w : World) : World := snd (m w).

(* ===================================================================== *)
(** ** The collaborators: Firestore and the identity provider *)
(* ===================================================================== *)

(** The two services are outside the repository; they are modelled by the
    interface the functions consume: per-document get / set / update / add,
    equality queries over a collection, and for the identity provider user
    creation and attachment of a claims record (which replaces the record
    attached before). *)
Module Sdk.

(** [db.collection(c).doc(id)]: the id must be a non-empty string. *)
Definition doc (c : string) (id : jsval) : M docref :=
  match id with
  | JStr s =>
      if String.eqb s EmptyString then
        throw (JsError "Value for argument documentPath is not a valid resource path. Path must be a non-empty string.")
      else ret (DocRef c s)
  | _ => throw (JsError "Value for argument documentPath is not a valid resource path. Path must be a non-empty string.")
  end.

(** [ref.get()]: [None] is a snapshot with [exists == false]. *)
Definition get (r : docref) : M (option obj) :=
  λ w, (Returned (collection w (ref_collection r) !! ref_id r), w).

(** The store refuses [undefined] as a field value. *)
Definition storable (data : obj) : Prop :=
  map_Forall (λ _ v, v ≠ JUndefined) data.

#[global] Instance storable_dec data : Decision (storable data).
Proof. unfold storable. apply _. Defined.

(** The server puts its commit time where the sentinel stands. *)
Definition stamp (t : Z) (v : jsval) : jsval :=
  match v with
  | JServerTimestamp => JTime t
  | _ => v
  end.

Definition put_doc (r : docref) (d : obj) (w : World) : gmap string (gmap string obj) :=
  <[ref_collection r := <[ref_id r := d]> (collection w (ref_collection r))]> (firestore w).

Definition commit (fs : gmap string (gmap string obj)) (e : effect) (w : World) : World :=
  {| firestore := fs; identities := identities w;
     clock := clock w + 1; effects := effects w ++ [e] |}.

(** [ref.set(data)]: creates the document or replaces it whole. *)
Definition set (r : docref) (data : obj) : M unit :=
  λ w, if decide (storable data) then
         let d := stamp (clock w) <$> data in
         (Returned tt, commit (put_doc r d w) (DocSet r d) w)
       else (Thrown (JsError "Cannot use undefined as a Firestore value."), w).

(** [ref.update(patch)]: the document must exist; the fields of the patch
    are written over it and the other fields stay. *)
Definition update (r : docref) (patch : obj) : M unit :=
  λ w, if decide (storable patch) then
         match collection w (ref_collection r) !! ref_id r with
         | Some old =>
             let p := stamp (clock w) <$> patch in
             (Returned tt, commit (put_doc r (p ∪ old) w) (DocUpdate r p) w)
         | None => (Thrown (JsError "NOT_FOUND: No document to update"), w)
         end
       else (Thrown (JsError "Cannot use undefined as a Firestore value."), w).

(** [db.collection(c).add(data)]: a document under an id the store
    generates, here [autoId]; the store never reuses an id. *)
Definition add (c : string) (autoId : string) (data : obj) : M docref :=
  λ w, if decide (storable data) then
         if decide (autoId ≠ EmptyString ∧ collection w c !! autoId = None) then
           let d := stamp (clock w) <$> data in
           let r := DocRef c autoId in
           (Returned r, commit (put_doc r d w) (DocSet r d) w)
         else (Thrown (JsError "ALREADY_EXISTS: Document already exists"), w)
       else (Thrown (JsError "Cannot use undefined as a Firestore value."), w).

(** A query condition [{ field, operator, value }].  The callers of this
    repository only use the operator ['==']. *)
Inductive operator := OpEq.
Record condition := Condition {
  field : string; op : operator; value : jsval
}.

Definition satisfies (d : obj) (c : condition) : bool :=
  match op c with
  | OpEq => bool_decide (d !! field c = Some (value c))
  end.

(** A query: a collection with the [where] filters chained so far. *)
Record query := Query { q_collection : string; q_filters : list condition }.

(** [query.where(field, operator, value)]. *)
Definition where_ (q : query) (c : condition) : M query :=
  if decide (value c = JUndefined) then
    throw (JsError "Cannot use undefined as a Firestore value.")
  else ret (Query (q_collection q) (q_filters q ++ [c])).

(** [query.get()]: the documents meeting every filter, with their ids. *)
Definition run (q : query) : M (list (string * obj)) :=
  λ w, (Returned (filter (λ kd, forallb (satisfies kd.2) (q_filters q) = true)
                         (map_to_list (collection w (q_collection q)))), w).

(** [admin.auth().setCustomUserClaims(uid, claims)]. *)
Definition setCustomUserClaims (uid : jsval) (c : claims) : M unit :=
  λ w, match uid with
       | JStr s =>
           match identities w !! s with
           | Some i =>
               (Returned tt,
                {| firestore := firestore w;
                   identities := <[s := Identity (id_email i) (id_displayName i) (Some c)]> (identities w);
                   clock := clock w;
                   effects := effects w ++ [ClaimsSet s c] |})
           | None => (Thrown (JsError "There is no user record corresponding to the provided identifier."), w)
           end
       | _ => (Thrown (JsError "The uid must be a non-empty string with at most 128 characters."), w)
       end.

Definition is_string (v : jsval) : bool :=
  match v with JStr _ => true | _ => false end.

Definition long_enough (v : jsval) : bool :=
  match v with JStr s => (6 <=? Z.of_nat (String.length s)) | _ => false end.

Definition email_taken (w : World) (email : jsval) : Prop :=
  map_Exists (λ _ i, id_email i = email) (identities w).

#[global] Instance email_taken_dec w email : Decision (email_taken w email).
Proof. unfold email_taken. apply _. Defined.

(** [admin.auth().createUser({email, password, displayName, ...})]: a new
    identity under a uid the provider generates, here [newUid]; refused
    for a malformed argument or an address already registered.  The syntax
    of the address is not checked. *)
Definition createUser (newUid : string) (email password displayName : jsval) : M string :=
  λ w, if negb (is_string email && long_enough password && is_string displayName) then
         (Thrown (JsError "The user properties are invalid."), w)
       else if decide (email_taken w email) then
         (Thrown (JsError "The email address is already in use by another account."), w)
       else if decide (newUid ≠ EmptyString ∧ identities w !! newUid = None) then
         (Returned newUid,
          {| firestore := firestore w;
             identities := <[newUid := Identity email displayName None]> (identities w);
             clock := clock w;
             effects := effects w ++ [UserCreated newUid] |})
       else (Thrown (JsError "The user with the provided uid already exists."), w).

End Sdk.

(* ===================================================================== *)
(** ** utils/db.js *)
(* ===================================================================== *)

Definition getDocById (collection : string) (id : jsval) : M obj :=
  try_catch
    (let* r := Sdk.doc collection id in
     let* doc := Sdk.get r in
     match doc with
     | None =>
         throw (JsError ("Document not found in " +:+ collection +:+ " with ID: " +:+ to_string id))
     | Some data => ret (data ∪ {["id" := JStr (ref_id r)]})
     end)
    (λ error, throw error).

(** [autoId] is the id the store generates when [id] is not given. *)
Definition createDoc (autoId : string) (collection : string) (data : obj) (id : jsval) : M docref :=
  try_catch
    (if truthy id then
       let* docRef := Sdk.doc collection id in
       Sdk.set docRef data ;;;
       ret docRef
     else
       let* docRef := Sdk.add collection autoId data in
       ret docRef)
    (λ error, throw error).

Definition updateDoc (collection : string) (id : jsval) (data : obj) : M docref :=
  try_catch
    (let* docRef := Sdk.doc collection id in
     let* doc := Sdk.get docRef in
     throw_if (negb (bool_decide (is_Some doc)))
       (JsError ("Document not found in " +:+ collection +:+ " with ID: " +:+ to_string id)) ;;;
     Sdk.update docRef data ;;;
     ret docRef)
    (λ error, throw error).

Definition queryDocs (collection : string) (conditions : list Sdk.condition) : M (list obj) :=
  try_catch
    (let* query := foldl (λ q condition, let* q' := q in Sdk.where_ q' condition)
                     (ret (Sdk.Query collection [])) conditions in
     let* snapshot := Sdk.run query in
     ret ((λ kd, kd.2 ∪ {["id" := JStr kd.1]}) <$> snapshot))
    (λ error, throw error).

(* ===================================================================== *)
(** ** utils/auth.js *)
(* ===================================================================== *)

(** [requiredRoles] is one role name or an array of them. *)
Inductive roles_arg :=
  | OneRole (r : string)
  | RoleArray (rs : list string).

Definition verifyUserRole (userId : jsval) (requiredRoles : roles_arg) : M bool :=
  try_catch
    (let* user := getDocById "users" userId in
     let roles := match requiredRoles with
                  | RoleArray rs => rs
                  | OneRole r => [r]
                  end in
     let hasRole := includes roles user.["role"] in
     let isApproved := strict_eq user.["approved"] (JBool true)
                       || strict_eq user.["role"] (JStr "admin") in
     ret (hasRole && isApproved))
    (λ error, ret false).

Definition isUserApproved (userId : jsval) : M bool :=
  try_catch
    (let* user := getDocById "users" userId in
     ret (strict_eq user.["approved"] (JBool true)
          || strict_eq user.["role"] (JStr "admin")))
    (λ error, ret false).

Definition createUserRecord (autoId : string) (userId : jsval) (userData : obj) : M docref :=
  try_catch
    (let displayName := userData.["displayName"] in
     let email := userData.["email"] in
     let role := userData.["role"] in
     let userRole := or_else role (JStr "lecturer") in
     let isAdmin := strict_eq userRole (JStr "admin") in
     let approved := isAdmin in
     let userDoc : obj :=
       {[ "displayName" := displayName;
          "email" := email;
          "role" := userRole;
          "approved" := JBool approved;
          "active" := JBool true;
          "createdAt" := JServerTimestamp;
          "updatedAt" := JServerTimestamp ]} in
     createDoc autoId "users" userDoc userId)
    (λ error, throw error).

(* ===================================================================== *)
(** ** Callable functions and triggers: what they receive *)
(* ===================================================================== *)

(** [context.auth]: the caller's uid and decoded token. *)
Record auth_info := AuthInfo { uid : string; token : obj }.
Record context := Context { auth : option auth_info }.

(** Reading the properties of the request payload, which may be [null]. *)
Definition properties (data : option obj) : M obj :=
  match data with
  | Some d => ret d
  | None => throw (JsError "Cannot read properties of null")
  end.

(** [arr.forEach(k => { o[k] = f(k) })] on an object of booleans. *)
Definition forEach_assign (arr : list string) (f : string → bool) (o : claims) : claims :=
  foldl (λ acc k, <[k := f k]> acc) o arr.

(** A user-document update event: [context.params.userId] and the data
    of the snapshots before and after the change. *)
Record update_event := UpdateEvent {
  upd_userId : string; upd_before : obj; upd_after : obj
}.

(** A user-document creation event. *)
Record create_event := CreateEvent {
  crt_userId : string; crt_data : obj
}.

(* ===================================================================== *)
(** ** users/api.js *)
(* ===================================================================== *)

Definition approveUser (data : option obj) (context : context) : M obj :=
  try_catch
    (match auth context with
     | None =>
         throw (HttpsError Unauthenticated "You must be logged in to approve users.")
     | Some caller =>
         let isAdmin := (token caller).["admin"] in
         throw_if (negb (truthy isAdmin))
           (HttpsError PermissionDenied "Only admins can approve users.") ;;;
         let* d := properties data in
         let userId := d.["userId"] in
         let approved := d.["approved"] in
         throw_if (negb (truthy userId) || strict_eq approved JUndefined)
           (HttpsError InvalidArgument "User ID and approval status are required.") ;;;
         updateDoc "users" userId
           {[ "approved" := approved; "updatedAt" := JServerTimestamp ]} ;;;
         (if truthy approved then
            let* user := getDocById "users" userId in
            let role := or_else user.["role"] (JStr "lecturer") in
            let customClaims : claims :=
              {[ "admin" := strict_eq role (JStr "admin");
                 "moderator" := strict_eq role (JStr "moderator");
                 "lecturer" := strict_eq role (JStr "lecturer");
                 "approved" := true ]} in
            Sdk.setCustomUserClaims userId customClaims
          else ret tt) ;;;
         ret ({[ "success" := JBool true;
                 "message" := JStr (if truthy approved
                                    then "User approved successfully"
                                    else "User rejected successfully") ]} : obj)
     end)
    (λ error, throw (HttpsError Internal (message error))).

Definition updateUserRole (data : option obj) (context : context) : M obj :=
  try_catch
    (match auth context with
     | None =>
         throw (HttpsError Unauthenticated "You must be logged in to update user roles.")
     | Some caller =>
         let isAdmin := (token caller).["admin"] in
         throw_if (negb (truthy isAdmin))
           (HttpsError PermissionDenied "Only admins can update user roles.") ;;;
         let* d := properties data in
         let userId := d.["userId"] in
         let role := d.["role"] in
         throw_if (negb (truthy userId) || negb (truthy role))
           (HttpsError InvalidArgument "User ID and role are required.") ;;;
         let validRoles := ["admin"; "moderator"; "lecturer"] in
         throw_if (negb (includes validRoles role))
           (HttpsError InvalidArgument ("Role must be one of: " +:+ join ", " validRoles)) ;;;
         updateDoc "users" userId
           {[ "role" := role; "updatedAt" := JServerTimestamp ]} ;;;
         let customClaims := forEach_assign validRoles (λ r, strict_eq (JStr r) role) ∅ in
         Sdk.setCustomUserClaims userId customClaims ;;;
         ret ({[ "success" := JBool true;
                 "message" := JStr ("User role updated to " +:+ to_string role +:+ " successfully") ]} : obj)
     end)
    (λ error, throw (HttpsError Internal (message error))).

(** [newUid] is the uid the identity provider generates. *)
Definition createFirstAdmin (newUid : string) (data : option obj) (context : context) : M obj :=
  try_catch
    (throw_if (negb (bool_decide (is_Some data)))
       (HttpsError InvalidArgument "No data provided") ;;;
     let* d := properties data in
     let email := d.["email"] in
     let password := d.["password"] in
     let displayName := d.["displayName"] in
     throw_if (negb (truthy email) || negb (truthy password) || negb (truthy displayName))
       (HttpsError InvalidArgument "Email, password, and display name are required.") ;;;
     let* adminUsers := queryDocs "users" [Sdk.Condition "role" Sdk.OpEq (JStr "admin")] in
     throw_if (0 <? Z.of_nat (length adminUsers))
       (HttpsError FailedPrecondition "An admin user already exists. Cannot create the first admin.") ;;;
     let* userRecord_uid := Sdk.createUser newUid email password displayName in
     let customClaims : claims :=
       {[ "admin" := true; "moderator" := false; "lecturer" := false; "approved" := true ]} in
     Sdk.setCustomUserClaims (JStr userRecord_uid) customClaims ;;;
     (let* r := Sdk.doc "users" (JStr userRecord_uid) in
      Sdk.set r
        {[ "displayName" := displayName;
           "email" := email;
           "role" := JStr "admin";
           "approved" := JBool true;
           "active" := JBool true;
           "customClaims" := JClaims customClaims;
           "createdAt" := JServerTimestamp;
           "updatedAt" := JServerTimestamp ]}) ;;;
     ret ({[ "success" := JBool true;
             "message" := JStr "First admin user created successfully";
             "userId" := JStr userRecord_uid ]} : obj))
    (λ error, throw (HttpsError Internal (message error))).

(* ===================================================================== *)
(** ** users/onUpdate.js and users/onCreate.js *)
(* ===================================================================== *)

Definition onUserUpdate (event : update_event) : M unit :=
  try_catch
    (let userId := upd_userId event in
     let beforeData := upd_before event in
     let afterData := upd_after event in
     (if strict_neq beforeData.["role"] afterData.["role"] then
        let validRoles := ["admin"; "moderator"; "lecturer"] in
        let customClaims :=
          forEach_assign validRoles (λ role, strict_eq (JStr role) afterData.["role"]) ∅ in
        Sdk.setCustomUserClaims (JStr userId) customClaims ;;;
        let* r := Sdk.doc "users" (JStr userId) in
        Sdk.update r
          {[ "customClaims" := JClaims customClaims; "updatedAt" := JServerTimestamp ]}
      else ret tt) ;;;
     ret tt)
    (λ error, ret tt).

Definition onUserCreate (event : create_event) : M unit :=
  try_catch
    (let userId := crt_userId event in
     let userData := crt_data event in
     let isAdmin := strict_eq userData.["role"] (JStr "admin") in
     let approved := isAdmin in
     let validRoles := ["admin"; "moderator"; "lecturer"] in
     let customClaims :=
       forEach_assign validRoles (λ role, strict_eq (JStr role) userData.["role"]) ∅ in
     let* customClaims :=
       (if isAdmin then
          let customClaims := <["approved" := true]> customClaims in
          Sdk.setCustomUserClaims (JStr userId) customClaims ;;;
          ret customClaims
        else ret customClaims) in
     (let* r := Sdk.doc "users" (JStr userId) in
      Sdk.update r
        {[ "approved" := JBool approved;
           "customClaims" := (if isAdmin then JClaims customClaims else JNull);
           "updatedAt" := JServerTimestamp ]}) ;;;
     ret tt)
    (λ error, ret tt).

(* ===================================================================== *)
(** ** assessments/api.js *)
(* ===================================================================== *)

(** [autoId] is the id the store generates for the new assessment. *)
Definition createAssessment (autoId : string) (data : option obj) (context : context) : M obj :=
  try_catch
    (match auth context with
     | None =>
         throw (HttpsError Unauthenticated "You must be logged in to create an assessment.")
     | Some caller =>
         let userId := uid caller in
         let* isLecturer := verifyUserRole (JStr userId) (RoleArray ["lecturer"; "admin"]) in
         throw_if (negb isLecturer)
           (HttpsError PermissionDenied "Only lecturers can create assessments.") ;;;
         let* d := properties data in
         let title := d.["title"] in
         let description := d.["description"] in
         let content := d.["content"] in
         let type := d.["type"] in
         throw_if (negb (truthy title) || negb (truthy content) || negb (truthy type))
           (HttpsError InvalidArgument "Title, content, and type are required.") ;;;
         let assessmentData : obj :=
           {[ "title" := title;
              "description" := or_else description (JStr EmptyString);
              "content" := content;
              "type" := type;
              "status" := JStr "draft";
              "lecturerId" := JStr userId;
              "moderatorId" := JNull;
              "feedback" := JNull;
              "createdAt" := JServerTimestamp;
              "updatedAt" := JServerTimestamp ]} in
         let* docRef := createDoc autoId "assessments" assessmentData JNull in
         ret ({[ "success" := JBool true;
                 "message" := JStr "Assessment created successfully";
                 "assessmentId" := JStr (ref_id docRef) ]} : obj)
     end)
    (λ error, throw (HttpsError Internal (message error))).

Definition moderateAssessment (data : option obj) (context : context) : M obj :=
  try_catch
    (match auth context with
     | None =>
         throw (HttpsError Unauthenticated "You must be logged in to moderate an assessment.")
     | Some caller =>
         let userId := uid caller in
         let* isModerator := verifyUserRole (JStr userId) (RoleArray ["moderator"; "admin"]) in
         throw_if (negb isModerator)
           (HttpsError PermissionDenied "Only moderators can moderate assessments.") ;;;
         let* d := properties data in
         let assessmentId := d.["assessmentId"] in
         let status := d.["status"] in
         let feedback := d.["feedback"] in
         throw_if (negb (truthy assessmentId) || negb (truthy status))
           (HttpsError InvalidArgument "Assessment ID and status are required.") ;;;
         let validStatuses := ["approved"; "rejected"; "pending_changes"] in
         throw_if (negb (includes validStatuses status))
           (HttpsError InvalidArgument ("Status must be one of: " +:+ join ", " validStatuses)) ;;;
         let updateData : obj :=
           {[ "status" := status;
              "moderatorId" := JStr userId;
              "updatedAt" := JServerTimestamp ]} in
         let updateData :=
           if truthy feedback then <["feedback" := feedback]> updateData else updateData in
         updateDoc "assessments" assessmentId updateData ;;;
         ret ({[ "success" := JBool true;
                 "message" := JStr ("Assessment " +:+ to_string status +:+ " successfully") ]} : obj)
     end)
    (λ error, throw (HttpsError Internal (message error))).

(* ===================================================================== *)
(** ** Running computations *)
(* ===================================================================== *)

Section monad_facts.
Context {A B : Type}.

Lemma bind_returned (m : M A) (k : A → M B) w a w' :
  m w = (Returned a, w') → bind m k w = k a w'.
Proof. intros H. unfold bind. by rewrite H. Qed.

Lemma bind_thrown (m : M A) (k : A → M B) w e w' :
  m w = (Thrown e, w') → bind m k w = (Thrown e, w').
Proof. intros H. unfold bind. by rewrite H. Qed.

Lemma try_returned (m : M A) (h : exn → M A) w a w' :
  m w = (Returned a, w') → try_catch m h w = (Returned a, w').
Proof. intros H. unfold try_catch. by rewrite H. Qed.

Lemma try_thrown (m : M A) (h : exn → M A) w e w' :
  m w = (Thrown e, w') → try_catch m h w = h e w'.
Proof. intros H. unfold try_catch. by rewrite H. Qed.

Lemma bind_ret (a : A) (k : A → M B) w : bind (ret a) k w = k a w.
Proof. done. Qed.

Lemma bind_throw e (k : A → M B) w : bind (throw e) k w = (Thrown e, w).
Proof. done. Qed.

Lemma bind_assoc {C} (m : M A) (f : A → M B) (g : B → M C) w :
  bind (bind m f) g w = bind m (λ x, bind (f x) g) w.
Proof. unfold bind. by destruct (m w) as [[a|e] w']. Qed.

(** [catch (error) { throw error; }] changes nothing. *)
Lemma try_rethrow (m : M A) w : try_catch m (λ error, throw error) w = m w.
Proof. unfold try_catch, throw. by destruct (m w) as [[a|e] w']. Qed.
End monad_facts.

Lemma throw_if_true e w : throw_if true e w = (Thrown e, w).
Proof. done. Qed.

Lemma throw_if_false e w : throw_if false e w = (Returned tt, w).
Proof. done. Qed.

(** The document stored under an id handed to the store: an id that is
    not a non-empty string names no document. *)
Definition stored (w : World) (c : string) (id : jsval) : option obj :=
  match id with
  | JStr s => if String.eqb s EmptyString then None else collection w c !! s
  | _ => None
  end.

Definition stored_user (w : World) (userId : jsval) : option obj :=
  stored w "users" userId.

Lemma stored_Some w c id d :
  stored w c id = Some d →
  ∃ s, id = JStr s ∧ s ≠ EmptyString ∧ String.eqb s EmptyString = false
       ∧ collection w c !! s = Some d.
Proof.
  destruct id as [| | | |s| | |]; simpl; try discriminate.
  destruct (String.eqb s EmptyString) eqn:E; [discriminate|].
  intros H. exists s. split_and!; try done.
  intros ->. by rewrite String.eqb_refl in E.
Qed.

Lemma doc_returned c s w :
  String.eqb s EmptyString = false → Sdk.doc c (JStr s) w = (Returned (DocRef c s), w).
Proof. intros E. unfold Sdk.doc. by rewrite E. Qed.

Lemma doc_cases c id w :
  (∃ s, id = JStr s ∧ String.eqb s EmptyString = false
        ∧ Sdk.doc c id w = (Returned (DocRef c s), w))
  ∨ ((∀ w' c', stored w' c' id = None) ∧ ∃ e, Sdk.doc c id w = (Thrown e, w)).
Proof.
  destruct id as [| | | |s| | |]; simpl; try (right; split; [done | by eauto]).
  destruct (String.eqb s EmptyString) eqn:E.
  - right. split; [done | by eauto].
  - left. by exists s.
Qed.

(** *** utils/db.js *)

Lemma getDocById_found c id w d :
  stored w c id = Some d →
  getDocById c id w = (Returned (d ∪ {["id" := id]}), w).
Proof.
  intros (s & -> & _ & E & Hd)%stored_Some.
  unfold getDocById. rewrite try_rethrow.
  rewrite (bind_returned _ _ _ _ _ (doc_returned c s w E)).
  unfold bind, Sdk.get. simpl. by rewrite Hd.
Qed.

Lemma getDocById_missing c id w :
  stored w c id = None → ∃ e, getDocById c id w = (Thrown e, w).
Proof.
  intros Hs. unfold getDocById. rewrite try_rethrow.
  destruct (doc_cases c id w) as [(s & -> & E & Hdoc) | [_ [e He]]].
  - rewrite (bind_returned _ _ _ _ _ Hdoc).
    simpl in Hs. rewrite E in Hs.
    unfold bind, Sdk.get. simpl. rewrite Hs. unfold throw. eauto.
  - rewrite (bind_thrown _ _ _ _ _ He). eauto.
Qed.

(** Reading never changes the world. *)
Lemma getDocById_pure c id w : (getDocById c id w).2 = w.
Proof.
  destruct (stored w c id) as [d|] eqn:E.
  - by rewrite (getDocById_found _ _ _ _ E).
  - destruct (getDocById_missing _ _ _ E) as [e ->]. done.
Qed.

Lemma prop_with_id (d : obj) (id : jsval) (k : string) :
  k ≠ "id" → (d ∪ {["id" := id]}).[k] = d.[k].
Proof.
  intros Hk. unfold prop. rewrite lookup_union.
  rewrite lookup_singleton_ne by done. by destruct (d !! k).
Qed.

(* ===================================================================== *)
(** ** Role and approval authority *)
(* ===================================================================== *)

Definition role_names (r : roles_arg) : list string :=
  match r with
  | RoleArray rs => rs
  | OneRole r => [r]
  end.

(** The access rule in the words of the specification: the user's role is
    one of the required roles, and the user is approved or is an admin. *)
Definition access_granted (user : obj) (requiredRoles : roles_arg) : Prop :=
  (∃ r, user.["role"] = JStr r ∧ r ∈ role_names requiredRoles)
  ∧ (user.["approved"] = JBool true ∨ user.["role"] = JStr "admin").

Lemma strict_eq_bool_true v : strict_eq v (JBool true) = true ↔ v = JBool true.
Proof.
  destruct v as [| |[]| | | | |]; simpl; split; congruence.
Qed.

Lemma strict_eq_str v s : strict_eq v (JStr s) = true ↔ v = JStr s.
Proof.
  destruct v as [| | | |s'| | |]; simpl; try (split; congruence).
  rewrite String.eqb_eq. split; congruence.
Qed.

Lemma strict_eq_str_l v s : strict_eq (JStr s) v = true ↔ v = JStr s.
Proof.
  destruct v as [| | | |s'| | |]; simpl; try (split; congruence).
  rewrite String.eqb_eq. split; congruence.
Qed.

Lemma includes_true arr v : includes arr v = true ↔ ∃ s, v = JStr s ∧ s ∈ arr.
Proof.
  destruct v as [| | | |s| | |]; simpl;
    try (split; [discriminate | by intros (? & [=] & _)]).
  rewrite bool_decide_eq_true. split; [eauto|]. by intros (? & [= <-] & ?).
Qed.

Lemma verifyUserRole_found userId requiredRoles w user :
  stored_user w userId = Some user →
  verifyUserRole userId requiredRoles w =
    (Returned (includes (role_names requiredRoles) user.["role"]
               && (strict_eq user.["approved"] (JBool true)
                   || strict_eq user.["role"] (JStr "admin"))), w).
Proof.
  intros Hu. unfold verifyUserRole.
  erewrite try_returned; [done|].
  rewrite (bind_returned _ _ _ _ _ (getDocById_found _ _ _ _ Hu)).
  rewrite !prop_with_id by done. by destruct requiredRoles.
Qed.

Lemma verifyUserRole_missing userId requiredRoles w :
  stored_user w userId = None →
  verifyUserRole userId requiredRoles w = (Returned false, w).
Proof.
  intros Hu. unfold verifyUserRole.
  destruct (getDocById_missing _ _ _ Hu) as [e He].
  erewrite try_thrown; [done|]. by rewrite (bind_thrown _ _ _ _ _ He).
Qed.

Lemma access_check_true user requiredRoles :
  includes (role_names requiredRoles) user.["role"]
  && (strict_eq user.["approved"] (JBool true) || strict_eq user.["role"] (JStr "admin"))
  = true
  ↔ access_granted user requiredRoles.
Proof.
  rewrite andb_true_iff, orb_true_iff, includes_true,
    strict_eq_bool_true, strict_eq_str.
  unfold access_granted. split.
  - intros [? ?]. eauto.
  - by intros [? ?].
Qed.

Lemma access_granted_verify userId requiredRoles w user :
  stored_user w userId = Some user →
  access_granted user requiredRoles →
  verifyUserRole userId requiredRoles w = (Returned true, w).
Proof.
  intros Huser Hacc. rewrite (verifyUserRole_found _ _ _ _ Huser).
  f_equal. f_equal. by apply access_check_true.
Qed.

(** C2. [verifyUserRole] always returns a boolean and leaves the world as it
    is; the boolean is [true] exactly when the user is stored, its role is
    one of the required roles, and it is approved or an admin; when the
    lookup fails the answer is [false], never an exception. *)
Theorem verifyUserRole_iff (userId : jsval) (requiredRoles : roles_arg) (w : World) :
  ∃ b : bool,
    verifyUserRole userId requiredRoles w = (Returned b, w)
    ∧ (b = true ↔ ∃ user, stored_user w userId = Some user
                          ∧ access_granted user requiredRoles)
    ∧ (stored_user w userId = None → b = false).
Proof.
  destruct (stored_user w userId) as [user|] eqn:Hu.
  - eexists. split; [by apply verifyUserRole_found|]. split; [|done].
    rewrite access_check_true. split.
    + eauto.
    + by intros (? & [= <-] & ?).
  - exists false. split; [by apply verifyUserRole_missing|].
    split; [|done]. split; [done|]. by intros (? & ? & _).
Qed.

(* ===================================================================== *)
(** ** Writes and what they leave in the world *)
(* ===================================================================== *)

(** The world after document [r] has been written with content [d]. *)
Definition doc_written (r : docref) (d : obj) (e : effect) (w : World) : World :=
  Sdk.commit (Sdk.put_doc r d w) e w.

(** The world after claims [c] have been attached to identity [s]. *)
Definition claims_attached (s : string) (c : claims) (w : World) : World :=
  match identities w !! s with
  | Some i =>
      {| firestore := firestore w;
         identities := <[s := Identity (id_email i) (id_displayName i) (Some c)]> (identities w);
         clock := clock w;
         effects := effects w ++ [ClaimsSet s c] |}
  | None => w
  end.

Lemma collection_doc_written r d e w c :
  collection (doc_written r d e w) c =
    if decide (ref_collection r = c) then <[ref_id r := d]> (collection w c)
    else collection w c.
Proof.
  unfold doc_written, Sdk.commit, Sdk.put_doc, collection. simpl.
  case_decide as Hc.
  - subst c. by rewrite lookup_insert_eq.
  - by rewrite lookup_insert_ne.
Qed.

Lemma users_doc_written s d e w :
  users (doc_written (DocRef "users" s) d e w) = <[s := d]> (users w).
Proof. unfold users. by rewrite collection_doc_written. Qed.

Lemma identities_doc_written r d e w :
  identities (doc_written r d e w) = identities w.
Proof. done. Qed.

Lemma effects_doc_written r d e w :
  effects (doc_written r d e w) = effects w ++ [e].
Proof. done. Qed.

Lemma clock_doc_written r d e w : clock (doc_written r d e w) = clock w + 1.
Proof. done. Qed.

Lemma firestore_claims_attached s c w :
  firestore (claims_attached s c w) = firestore w.
Proof. unfold claims_attached. by destruct (identities w !! s). Qed.

Lemma collection_claims_attached s c w k :
  collection (claims_attached s c w) k = collection w k.
Proof. unfold collection. by rewrite firestore_claims_attached. Qed.

Lemma users_claims_attached s c w : users (claims_attached s c w) = users w.
Proof. apply collection_claims_attached. Qed.

Lemma clock_claims_attached s c w : clock (claims_attached s c w) = clock w.
Proof. unfold claims_attached. by destruct (identities w !! s). Qed.

Lemma claims_of_attached s c w :
  is_Some (identities w !! s) → claims_of (claims_attached s c w) s = Some c.
Proof.
  intros [i Hi]. unfold claims_of, claims_attached. rewrite Hi. simpl.
  by rewrite lookup_insert_eq.
Qed.

Lemma identity_kept_attached s c w s' :
  is_Some (identities (claims_attached s c w) !! s') ↔ is_Some (identities w !! s').
Proof.
  unfold claims_attached. destruct (identities w !! s) as [i|] eqn:Hi; [|done].
  simpl. destruct (decide (s = s')) as [<-|Hne].
  - rewrite lookup_insert_eq, Hi. split; eauto.
  - by rewrite lookup_insert_ne.
Qed.

Lemma effects_claims_attached s c w :
  is_Some (identities w !! s) →
  effects (claims_attached s c w) = effects w ++ [ClaimsSet s c].
Proof. intros [i Hi]. unfold claims_attached. by rewrite Hi. Qed.

Lemma setCustomUserClaims_returned s c w :
  is_Some (identities w !! s) →
  Sdk.setCustomUserClaims (JStr s) c w = (Returned tt, claims_attached s c w).
Proof.
  intros [i Hi]. unfold Sdk.setCustomUserClaims, claims_attached. by rewrite Hi.
Qed.

Lemma setCustomUserClaims_thrown s c w :
  identities w !! s = None →
  Sdk.setCustomUserClaims (JStr s) c w =
    (Thrown (JsError "There is no user record corresponding to the provided identifier."), w).
Proof. intros Hi. unfold Sdk.setCustomUserClaims. by rewrite Hi. Qed.

(** The patch as the store keeps it, and the world after an update. *)
Definition stamped (w : World) (patch : obj) : obj := Sdk.stamp (clock w) <$> patch.

Definition doc_updated (r : docref) (patch old : obj) (w : World) : World :=
  doc_written r (stamped w patch ∪ old) (DocUpdate r (stamped w patch)) w.

Lemma update_returned c s patch old w :
  Sdk.storable patch →
  collection w c !! s = Some old →
  Sdk.update (DocRef c s) patch w = (Returned tt, doc_updated (DocRef c s) patch old w).
Proof.
  intros Hp Hold. unfold Sdk.update. simpl.
  rewrite decide_True by done. by rewrite Hold.
Qed.

Lemma update_thrown c s patch w :
  collection w c !! s = None →
  ∃ e, Sdk.update (DocRef c s) patch w = (Thrown e, w).
Proof.
  intros Hnone. unfold Sdk.update. simpl.
  case_decide; rewrite ?Hnone; eauto.
Qed.

Lemma updateDoc_returned c id patch old w :
  Sdk.storable patch →
  stored w c id = Some old →
  ∃ s, id = JStr s ∧ s ≠ EmptyString ∧
    updateDoc c id patch w =
      (Returned (DocRef c s), doc_updated (DocRef c s) patch old w).
Proof.
  intros Hp (s & -> & Hne & E & Hold)%stored_Some.
  exists s. split_and!; try done.
  unfold updateDoc. rewrite try_rethrow.
  rewrite (bind_returned _ _ _ _ _ (doc_returned c s w E)).
  unfold bind at 1. unfold Sdk.get at 1. simpl. rewrite Hold.
  rewrite bool_decide_eq_true_2 by eauto. simpl. rewrite bind_ret.
  by rewrite (bind_returned _ _ _ _ _ (update_returned c s patch old w Hp Hold)).
Qed.

Lemma updateDoc_thrown c id patch w :
  stored w c id = None → ∃ e, updateDoc c id patch w = (Thrown e, w).
Proof.
  intros Hs. unfold updateDoc. rewrite try_rethrow.
  destruct (doc_cases c id w) as [(s & -> & E & Hdoc) | [_ [e He]]].
  - rewrite (bind_returned _ _ _ _ _ Hdoc).
    simpl in Hs. rewrite E in Hs.
    unfold bind at 1. unfold Sdk.get at 1. simpl. rewrite Hs.
    rewrite bool_decide_eq_false_2 by (by intros [? ?]). simpl.
    rewrite bind_throw. eauto.
  - rewrite (bind_thrown _ _ _ _ _ He). eauto.
Qed.

Lemma stored_doc_written c s d e w :
  s ≠ EmptyString →
  stored (doc_written (DocRef c s) d e w) c (JStr s) = Some d.
Proof.
  intros Hne. simpl. rewrite (proj2 (String.eqb_neq s EmptyString) Hne).
  rewrite collection_doc_written. simpl. rewrite decide_True by done.
  by rewrite lookup_insert_eq.
Qed.

Lemma stored_claims_attached s c w k id :
  stored (claims_attached s c w) k id = stored w k id.
Proof. unfold stored. by rewrite collection_claims_attached. Qed.

(** A patch only changes the fields it names. *)
Lemma prop_patch_other (patch old : obj) (k : string) :
  patch !! k = None → (patch ∪ old).[k] = old.[k].
Proof. intros Hk. unfold prop. by rewrite lookup_union_r. Qed.

Lemma prop_patch (patch old : obj) (k : string) v :
  patch !! k = Some v → (patch ∪ old).[k] = v.
Proof. intros Hk. unfold prop. by rewrite (lookup_union_Some_l _ _ _ _ Hk). Qed.

Lemma stamped_lookup w (patch : obj) k :
  stamped w patch !! k = Sdk.stamp (clock w) <$> patch !! k.
Proof. unfold stamped. by rewrite lookup_fmap. Qed.

(* ===================================================================== *)
(** ** users/api.js: how the callables run *)
(* ===================================================================== *)

(** The caller is signed in and its token carries a truthy [admin] claim. *)
Definition admin_caller (context : context) : Prop :=
  ∃ caller, auth context = Some caller ∧ truthy (token caller).["admin"] = true.

Lemma truthy_nonempty s : s ≠ EmptyString → truthy (JStr s) = true.
Proof. intros Hne. simpl. by rewrite (proj2 (String.eqb_neq s EmptyString) Hne). Qed.

Lemma strict_eq_undefined v : strict_eq v JUndefined = true ↔ v = JUndefined.
Proof. destruct v; simpl; split; congruence. Qed.

Lemma strict_eq_undefined_false v : v ≠ JUndefined → strict_eq v JUndefined = false.
Proof. intros Hv. by destruct v. Qed.

Lemma storable_insert k v (m : obj) :
  v ≠ JUndefined → Sdk.storable m → Sdk.storable (<[k := v]> m).
Proof. intros Hv Hm. by apply map_Forall_insert_2. Qed.

Lemma storable_singleton k v : v ≠ JUndefined → Sdk.storable ({[k := v]} : obj).
Proof. intros Hv. by apply map_Forall_singleton. Qed.

Ltac storable :=
  repeat first [ apply storable_singleton | apply storable_insert ];
  try done.

(** [approveUser] *)

Definition approve_patch (approved : jsval) : obj :=
  {[ "approved" := approved; "updatedAt" := JServerTimestamp ]}.

(** The claims record [approveUser] builds for a stored role. *)
Definition approval_claims (stored_role : jsval) : claims :=
  let role := or_else stored_role (JStr "lecturer") in
  {[ "admin" := strict_eq role (JStr "admin");
     "moderator" := strict_eq role (JStr "moderator");
     "lecturer" := strict_eq role (JStr "lecturer");
     "approved" := true ]}.

Definition approve_response (approved : jsval) : obj :=
  {[ "success" := JBool true;
     "message" := JStr (if truthy approved
                        then "User approved successfully"
                        else "User rejected successfully") ]}.

Lemma approve_patch_role w v : stamped w (approve_patch v) !! "role" = None.
Proof. by rewrite stamped_lookup. Qed.

Lemma approveUser_run data context w d old :
  admin_caller context →
  data = Some d →
  stored_user w d.["userId"] = Some old →
  d.["approved"] ≠ JUndefined →
  ∃ s, d.["userId"] = JStr s ∧ s ≠ EmptyString ∧
    let w1 := doc_updated (DocRef "users" s) (approve_patch d.["approved"]) old w in
    approveUser data context w =
      if truthy d.["approved"] then
        if decide (is_Some (identities w !! s)) then
          (Returned (approve_response d.["approved"]),
           claims_attached s (approval_claims old.["role"]) w1)
        else
          (Thrown (HttpsError Internal
                     "There is no user record corresponding to the provided identifier."), w1)
      else (Returned (approve_response d.["approved"]), w1).
Proof.
  intros (caller & Hauth & Hadmin) -> Hold Happ.
  destruct (updateDoc_returned "users" d.["userId"] (approve_patch d.["approved"]) old w)
    as (s & Hs & Hne & Hupd); [by storable | done |].
  exists s. split_and!; try done. simpl.
  unfold approveUser. rewrite Hauth, Hadmin. simpl.
  set (w1 := doc_updated _ _ _ _) in *.
  unfold try_catch. rewrite bind_ret. unfold properties. rewrite bind_ret.
  rewrite Hs at 1. rewrite (truthy_nonempty s Hne).
  rewrite (strict_eq_undefined_false _ Happ). simpl. rewrite bind_ret.
  fold (approve_patch d.["approved"]).
  rewrite (bind_returned _ _ _ _ _ Hupd).
  assert (Hst : stored w1 "users" d.["userId"] = Some (stamped w (approve_patch d.["approved"]) ∪ old)).
  { rewrite Hs. by apply stored_doc_written. }
  destruct (truthy d.["approved"]) eqn:Htr.
  2:{ rewrite bind_ret. unfold approve_response. by rewrite Htr. }
  rewrite bind_assoc.
  rewrite (bind_returned _ _ _ _ _ (getDocById_found _ _ _ _ Hst)).
  rewrite prop_with_id by done.
  rewrite (prop_patch_other _ _ _ (approve_patch_role w _)).
  fold (approval_claims old.["role"]). rewrite Hs.
  case_decide as Hid.
  - rewrite (bind_returned _ _ _ _ _ (setCustomUserClaims_returned s _ w1 Hid)).
    unfold approve_response. by rewrite Htr.
  - apply eq_None_not_Some in Hid.
    by rewrite (bind_thrown _ _ _ _ _ (setCustomUserClaims_thrown s _ w1 Hid)).
Qed.

(** Every call either meets the conditions of [approveUser_run] or is
    refused before anything is written. *)
Lemma approveUser_cases data context w :
  (admin_caller context
   ∧ ∃ d old, data = Some d ∧ stored_user w d.["userId"] = Some old
              ∧ d.["approved"] ≠ JUndefined)
  ∨ ∃ msg, approveUser data context w = (Thrown (HttpsError Internal msg), w).
Proof.
  unfold approveUser, try_catch.
  destruct (auth context) as [caller|] eqn:Hauth; [|by eauto].
  destruct (truthy (token caller).["admin"]) eqn:Hadmin; [|by eauto].
  simpl. rewrite bind_ret.
  destruct data as [d|]; [|by eauto].
  unfold properties. rewrite bind_ret.
  destruct (negb (truthy d.["userId"]) || strict_eq d.["approved"] JUndefined) eqn:Hargs;
    [by eauto|].
  simpl. rewrite bind_ret.
  apply orb_false_elim in Hargs as [_ Happ].
  destruct (stored_user w d.["userId"]) as [old|] eqn:Hold.
  - left. split; [by exists caller|]. exists d, old. split_and!; try done.
    intros Hu. by rewrite Hu in Happ.
  - destruct (updateDoc_thrown "users" d.["userId"]
                {[ "approved" := d.["approved"]; "updatedAt" := JServerTimestamp ]} w Hold)
      as [e He].
    rewrite (bind_thrown _ _ _ _ _ He). eauto.
Qed.

Lemma users_doc_updated s patch old w :
  users (doc_updated (DocRef "users" s) patch old w) = <[s := stamped w patch ∪ old]> (users w).
Proof. apply users_doc_written. Qed.

Lemma identities_claims_attached s c w i :
  identities w !! s = Some i →
  identities (claims_attached s c w) =
    <[s := Identity (id_email i) (id_displayName i) (Some c)]> (identities w).
Proof. intros Hi. unfold claims_attached. by rewrite Hi. Qed.

Lemma identities_claims_skipped s c w :
  identities w !! s = None → claims_attached s c w = w.
Proof. intros Hi. unfold claims_attached. by rewrite Hi. Qed.

(** A document without its timestamp fields. *)
Definition timeless (d : obj) : obj := delete "createdAt" (delete "updatedAt" d).

Lemma timeless_lookup (d : obj) k :
  timeless d !! k = if decide (k = "createdAt" ∨ k = "updatedAt") then None else d !! k.
Proof.
  unfold timeless. rewrite !lookup_delete.
  destruct (decide ("createdAt" = k)), (decide ("updatedAt" = k)),
    (decide (k = "createdAt" ∨ k = "updatedAt")); naive_solver.
Qed.

Lemma approve_patch_lookup w v k :
  stamped w (approve_patch v) !! k =
    if decide (k = "approved") then Some (Sdk.stamp (clock w) v)
    else if decide (k = "updatedAt") then Some (JTime (clock w))
    else None.
Proof.
  rewrite stamped_lookup. unfold approve_patch.
  destruct (decide (k = "approved")) as [->|H1].
  { by rewrite lookup_insert_eq. }
  rewrite lookup_insert_ne by done.
  destruct (decide (k = "updatedAt")) as [->|H2].
  { by rewrite lookup_singleton_eq. }
  by rewrite lookup_singleton_ne.
Qed.

(** Approving again rewrites the same fields with the same values; only
    [updatedAt] moves. *)
Lemma timeless_approve_again w1 w2 old :
  timeless (stamped w2 (approve_patch (JBool true))
            ∪ (stamped w1 (approve_patch (JBool true)) ∪ old))
  = timeless (stamped w1 (approve_patch (JBool true)) ∪ old).
Proof.
  apply map_eq. intros k. rewrite !timeless_lookup.
  case_decide as Hk; [done|].
  rewrite !lookup_union, !approve_patch_lookup.
  destruct (decide (k = "approved")); [by destruct (old !! k)|].
  destruct (decide (k = "updatedAt")); [naive_solver|].
  by destruct (old !! k).
Qed.

(* ===================================================================== *)
(** ** A small deployment to run the functions on *)
(* ===================================================================== *)

Module Demo.

Definition user_doc (name role : string) (approved : bool) : obj :=
  {[ "displayName" := JStr name;
     "email" := JStr (name +:+ "@campus.example");
     "role" := JStr role;
     "approved" := JBool approved;
     "active" := JBool true;
     "createdAt" := JTime 1;
     "updatedAt" := JTime 1 ]}.

Definition account (name : string) (c : option claims) : identity :=
  Identity (JStr (name +:+ "@campus.example")) (JStr name) c.

Definition draft : obj :=
  {[ "title" := JStr "Algebra exam";
     "description" := JStr EmptyString;
     "content" := JStr "Q1 ...";
     "type" := JStr "exam";
     "status" := JStr "draft";
     "lecturerId" := JStr "lee";
     "moderatorId" := JNull;
     "feedback" := JNull;
     "createdAt" := JTime 2;
     "updatedAt" := JTime 2 ]}.

(** An admin, an approved moderator, an approved lecturer whose claims were
    attached on approval, and a lecturer still waiting for approval. *)
Definition campus : World :=
  {| firestore :=
       {[ "users" := {[ "root" := user_doc "root" "admin" true;
                        "mo" := user_doc "mo" "moderator" true;
                        "lee" := user_doc "lee" "lecturer" true;
                        "luc" := user_doc "luc" "lecturer" false ]};
          "assessments" := {[ "x1" := draft ]} ]};
     identities :=
       {[ "root" := account "root"
                      (Some {[ "admin" := true; "moderator" := false;
                               "lecturer" := false; "approved" := true ]});
          "mo" := account "mo"
                    (Some {[ "admin" := false; "moderator" := true;
                             "lecturer" := false; "approved" := true ]});
          "lee" := account "lee"
                     (Some {[ "admin" := false; "moderator" := false;
                              "lecturer" := true; "approved" := true ]});
          "luc" := account "luc" None ]};
     clock := 100;
     effects := [] |}.

(** The same deployment before any admin exists. *)
Definition fresh_campus : World :=
  {| firestore := {[ "users" := {[ "luc" := user_doc "luc" "lecturer" false ]} ]};
     identities := {[ "luc" := account "luc" None ]};
     clock := 100;
     effects := [] |}.

Definition as_user (id : string) (tok : obj) : context :=
  Context (Some (AuthInfo id tok)).

Definition as_root : context := as_user "root" {[ "admin" := JBool true ]}.

End Demo.

(* ===================================================================== *)
(** ** approveUser: revocation and idempotence *)
(* ===================================================================== *)

(** C10. [approveUser(u, false)] by an admin on an existing user succeeds,
    stores [approved: false] in the user document, commits that one
    document write and nothing else, and leaves every identity, with the
    claims attached to it, exactly as it was. *)
Theorem approveUser_false_keeps_claims
    (data : option obj) (context : context) (w : World) (d old : obj) :
  admin_caller context →
  data = Some d →
  stored_user w d.["userId"] = Some old →
  d.["approved"] = JBool false →
  let w' := exec (approveUser data context) w in
  result (approveUser data context) w = Returned (approve_response (JBool false))
  ∧ (∃ doc, stored_user w' d.["userId"] = Some doc ∧ doc.["approved"] = JBool false)
  ∧ (∃ r patch, effects w' = effects w ++ [DocUpdate r patch])
  ∧ identities w' = identities w
  ∧ (∀ uid, claims_of w' uid = claims_of w uid).
Proof.
  intros Hadmin Hdata Hold Happ.
  destruct (approveUser_run data context w d old) as (s & Hs & Hne & Hrun);
    try done.
  { by rewrite Happ. }
  simpl in Hrun. rewrite Happ in Hrun. simpl in Hrun.
  unfold exec, result. rewrite Hrun. simpl.
  split_and!; try done.
  - eexists. split.
    + rewrite Hs. unfold stored_user, doc_updated. by apply stored_doc_written.
    + apply prop_patch. by rewrite approve_patch_lookup.
  - by eexists _, _.
Qed.

(** For instance, revoking the approved lecturer of the demo deployment
    leaves the claims attached on approval in place. *)
Lemma approveUser_false_keeps_claims_witness :
  let data := Some ({[ "userId" := JStr "lee"; "approved" := JBool false ]} : obj) in
  claims_of (exec (approveUser data Demo.as_root) Demo.campus) "lee"
  = Some {[ "admin" := false; "moderator" := false; "lecturer" := true; "approved" := true ]}.
Proof.
  intros data.
  destruct (approveUser_false_keeps_claims data Demo.as_root Demo.campus
              {[ "userId" := JStr "lee"; "approved" := JBool false ]}
              (Demo.user_doc "lee" "lecturer" true))
    as (_ & _ & _ & _ & Hclaims).
  - exists (AuthInfo "root" {[ "admin" := JBool true ]}). split; reflexivity.
  - reflexivity.
  - vm_compute. reflexivity.
  - reflexivity.
  - rewrite Hclaims. vm_compute. reflexivity.
Defined.

(** C8. Idempotence of approval.  Calling [approveUser(u, true)] a second
    time right after the first gives the same answer to the caller, leaves
    the same user documents up to their timestamp fields, and leaves the
    same identities with the same claims attached. *)
Theorem approveUser_idempotent
    (data : option obj) (context : context) (w : World) (d : obj) :
  data = Some d →
  d.["approved"] = JBool true →
  let once := approveUser data context w in
  let twice := approveUser data context once.2 in
  twice.1 = once.1
  ∧ timeless <$> users twice.2 = timeless <$> users once.2
  ∧ identities twice.2 = identities once.2.
Proof.
  intros Hdata Happ.
  destruct (approveUser_cases data context w)
    as [(Hadmin & d' & old & Hd' & Hold & Hdef) | [msg Hthrown]].
  2:{ simpl. rewrite Hthrown. simpl. by rewrite Hthrown. }
  assert (d' = d) as -> by congruence.
  destruct (approveUser_run data context w d old) as (s & Hs & Hne & Hrun);
    try done.
  simpl in *. rewrite Happ in Hrun. simpl in Hrun.
  set (w1 := doc_updated (DocRef "users" s) (approve_patch (JBool true)) old w) in *.
  set (old1 := stamped w (approve_patch (JBool true)) ∪ old).
  assert (Hrole : old1.["role"] = old.["role"]).
  { apply prop_patch_other, approve_patch_role. }
  assert (Hst1 : stored_user w1 d.["userId"] = Some old1).
  { rewrite Hs. by apply stored_doc_written. }
  destruct (decide (is_Some (identities w !! s))) as [[i Hi]|Hid];
    rewrite Hrun; simpl.
  - set (w1' := claims_attached s (approval_claims old.["role"]) w1).
    destruct (approveUser_run data context w1' d old1) as (s' & Hs' & _ & Hrun');
      try done.
    { unfold stored_user, w1'. by rewrite stored_claims_attached. }
    assert (s' = s) as -> by congruence.
    simpl in Hrun'. rewrite Happ in Hrun'. simpl in Hrun'.
    assert (Hi' : identities w1' !! s
                  = Some (Identity (id_email i) (id_displayName i)
                            (Some (approval_claims old.["role"])))).
    { unfold w1'. rewrite (identities_claims_attached _ _ _ i) by done.
      by rewrite lookup_insert_eq. }
    rewrite decide_True in Hrun' by eauto.
    rewrite Hrun'. simpl. split_and!; [done| |].
    + rewrite users_claims_attached, users_doc_updated.
      unfold w1'. rewrite users_claims_attached. unfold w1.
      rewrite users_doc_updated. fold old1.
      rewrite !fmap_insert, insert_insert_eq.
      f_equal. apply timeless_approve_again.
    + erewrite identities_claims_attached by exact Hi'. simpl.
      rewrite Hrole. unfold w1'.
      rewrite (identities_claims_attached _ _ _ i) by done.
      by rewrite insert_insert_eq.
  - apply eq_None_not_Some in Hid.
    destruct (approveUser_run data context w1 d old1) as (s' & Hs' & _ & Hrun');
      try done.
    assert (s' = s) as -> by congruence.
    simpl in Hrun'. rewrite Happ in Hrun'. simpl in Hrun'.
    rewrite decide_False in Hrun' by (by intros [? ?]; simplify_eq).
    rewrite Hrun'. simpl. split_and!; [done| |done].
    rewrite users_doc_updated. unfold w1. rewrite users_doc_updated. fold old1.
    rewrite !fmap_insert, insert_insert_eq.
    f_equal. apply timeless_approve_again.
Qed.

(** For instance, approving the waiting lecturer of the demo deployment
    twice. *)
Lemma approveUser_idempotent_witness :
  let data := Some ({[ "userId" := JStr "luc"; "approved" := JBool true ]} : obj) in
  let once := approveUser data Demo.as_root Demo.campus in
  let twice := approveUser data Demo.as_root once.2 in
  once.1 = Returned (approve_response (JBool true))
  ∧ twice.1 = once.1
  ∧ timeless <$> users twice.2 = timeless <$> users once.2
  ∧ identities twice.2 = identities once.2.
Proof.
  intros data once twice. split.
  - vm_compute. reflexivity.
  - apply (approveUser_idempotent data Demo.as_root Demo.campus
             {[ "userId" := JStr "luc"; "approved" := JBool true ]});
      reflexivity.
Defined.

(* ===================================================================== *)
(** ** The user-update reaction *)
(* ===================================================================== *)

Definition validRoles : list string := ["admin"; "moderator"; "lecturer"].

(** The role flags the role-change paths build: one flag per valid role. *)
Definition role_flags (role : jsval) : claims :=
  forEach_assign validRoles (λ r, strict_eq (JStr r) role) ∅.

Definition mirror_patch (c : claims) : obj :=
  {[ "customClaims" := JClaims c; "updatedAt" := JServerTimestamp ]}.

Lemma mirror_patch_storable c : Sdk.storable (mirror_patch c).
Proof. unfold mirror_patch. by storable. Qed.

Lemma mirror_patch_lookup w c k :
  stamped w (mirror_patch c) !! k =
    if decide (k = "customClaims") then Some (JClaims c)
    else if decide (k = "updatedAt") then Some (JTime (clock w))
    else None.
Proof.
  rewrite stamped_lookup. unfold mirror_patch.
  destruct (decide (k = "customClaims")) as [->|H1].
  { by rewrite lookup_insert_eq. }
  rewrite lookup_insert_ne by done.
  destruct (decide (k = "updatedAt")) as [->|H2].
  { by rewrite lookup_singleton_eq. }
  by rewrite lookup_singleton_ne.
Qed.

(** What the reaction leaves behind, in every case: nothing when the role
    did not change or the identity is unknown; otherwise the claims are
    attached, and then the mirror is written if the document is there. *)
Definition after_onUserUpdate (event : update_event) (w : World) : World :=
  let userId := upd_userId event in
  let c := role_flags (upd_after event).["role"] in
  if strict_neq (upd_before event).["role"] (upd_after event).["role"] then
    if decide (is_Some (identities w !! userId)) then
      let w1 := claims_attached userId c w in
      match stored w1 "users" (JStr userId) with
      | Some old => doc_updated (DocRef "users" userId) (mirror_patch c) old w1
      | None => w1
      end
    else w
  else w.

Lemma onUserUpdate_run event w :
  onUserUpdate event w = (Returned tt, after_onUserUpdate event w).
Proof.
  unfold onUserUpdate, after_onUserUpdate, try_catch.
  destruct (strict_neq _ _); [|done].
  fold validRoles. fold (role_flags (upd_after event).["role"]).
  set (c := role_flags _). fold (mirror_patch c).
  rewrite bind_assoc.
  case_decide as Hid.
  2:{ apply eq_None_not_Some in Hid.
      by rewrite (bind_thrown _ _ _ _ _ (setCustomUserClaims_thrown _ c w Hid)). }
  rewrite (bind_returned _ _ _ _ _ (setCustomUserClaims_returned _ c w Hid)).
  set (w1 := claims_attached _ c w). rewrite bind_assoc.
  destruct (doc_cases "users" (JStr (upd_userId event)) w1)
    as [(s & [= <-] & E & Hdoc) | [Hnone [e He]]].
  2:{ rewrite (bind_thrown _ _ _ _ _ He). by rewrite Hnone. }
  rewrite (bind_returned _ _ _ _ _ Hdoc).
  simpl. rewrite E.
  destruct (collection w1 "users" !! upd_userId event) as [old|] eqn:Hold.
  - by rewrite (bind_returned _ _ _ _ _
                  (update_returned _ _ _ _ _ (mirror_patch_storable c) Hold)).
  - destruct (update_thrown "users" (upd_userId event) (mirror_patch c) w1 Hold)
      as [e He].
    by rewrite (bind_thrown _ _ _ _ _ He).
Qed.

Definition primitive (v : jsval) : bool :=
  match v with
  | JClaims _ | JServerTimestamp | JTime _ => false
  | _ => true
  end.

Lemma strict_eq_refl v : primitive v = true → strict_eq v v = true.
Proof.
  destruct v as [| |b|n|s| | |]; simpl; try done.
  - by destruct b.
  - intros _. apply Z.eqb_refl.
  - intros _. apply String.eqb_refl.
Qed.

(** C9. When the reaction fires on a role change for a stored user whose
    identity exists, it attaches the claims and then commits one document
    write whose fields are [customClaims] and [updatedAt] only: every
    other field of the document, the role in particular, and every other
    document stay as they were.  Running the reaction again on the update
    that write produced (before: the document as it was, after: the
    document as written) changes nothing: no claims are attached, no
    document is written. *)
Theorem onUserUpdate_settles (event : update_event) (w : World) (current : obj) :
  strict_neq (upd_before event).["role"] (upd_after event).["role"] = true →
  is_Some (identities w !! upd_userId event) →
  upd_userId event ≠ EmptyString →
  users w !! upd_userId event = Some current →
  primitive current.["role"] = true →
  let userId := upd_userId event in
  let w' := exec (onUserUpdate event) w in
  ∃ written patch,
    users w' !! userId = Some written
    ∧ effects w' = effects w ++ [ClaimsSet userId (role_flags (upd_after event).["role"]);
                                 DocUpdate (DocRef "users" userId) patch]
    ∧ dom patch = {[ "customClaims"; "updatedAt" ]}
    ∧ (∀ k, k ≠ "customClaims" → k ≠ "updatedAt" → written !! k = current !! k)
    ∧ written.["role"] = current.["role"]
    ∧ (∀ id, id ≠ userId → users w' !! id = users w !! id)
    ∧ onUserUpdate (UpdateEvent userId current written) w' = (Returned tt, w').
Proof.
  intros Hchanged Hid Hne Hcur Hprim userId w'.
  unfold w', exec. rewrite onUserUpdate_run. simpl.
  unfold after_onUserUpdate. rewrite Hchanged. rewrite decide_True by done.
  fold userId. set (c := role_flags _). set (w1 := claims_attached userId c w).
  assert (Hst : stored w1 "users" (JStr userId) = Some current).
  { unfold w1. rewrite stored_claims_attached. simpl.
    by rewrite (proj2 (String.eqb_neq userId EmptyString) Hne). }
  rewrite Hst.
  exists (stamped w1 (mirror_patch c) ∪ current), (stamped w1 (mirror_patch c)).
  assert (Hframe : ∀ k, k ≠ "customClaims" → k ≠ "updatedAt" →
            (stamped w1 (mirror_patch c) ∪ current) !! k = current !! k).
  { intros k H1 H2. rewrite lookup_union_r; [done|].
    rewrite mirror_patch_lookup. by rewrite !decide_False. }
  assert (Hrole : (stamped w1 (mirror_patch c) ∪ current).["role"] = current.["role"]).
  { unfold prop. by rewrite Hframe. }
  split_and!.
  - rewrite users_doc_updated. by rewrite lookup_insert_eq.
  - unfold doc_updated. rewrite effects_doc_written. unfold w1.
    rewrite effects_claims_attached by done. by rewrite <- app_assoc.
  - unfold stamped, mirror_patch. rewrite dom_fmap_L, dom_insert_L, dom_singleton_L.
    done.
  - done.
  - done.
  - intros id Hid'. rewrite users_doc_updated, lookup_insert_ne by done.
    unfold w1. by rewrite users_claims_attached.
  - rewrite onUserUpdate_run. f_equal.
    unfold after_onUserUpdate. simpl. unfold strict_neq.
    by rewrite Hrole, strict_eq_refl.
Qed.

(** For instance, the lecturer of the demo deployment made a moderator:
    the claims become [{admin: false, moderator: true, lecturer: false}]
    and the update the reaction causes does not fire it again. *)
Lemma onUserUpdate_settles_witness :
  let before := Demo.user_doc "lee" "lecturer" true in
  let after := <["role" := JStr "moderator"]> before in
  let w := doc_written (DocRef "users" "lee") after
             (DocUpdate (DocRef "users" "lee") {[ "role" := JStr "moderator" ]})
             Demo.campus in
  let w' := exec (onUserUpdate (UpdateEvent "lee" before after)) w in
  claims_of w' "lee" = Some {[ "admin" := false; "moderator" := true; "lecturer" := false ]}
  ∧ ∃ written, users w' !! "lee" = Some written
      ∧ written.["role"] = JStr "moderator"
      ∧ onUserUpdate (UpdateEvent "lee" after written) w' = (Returned tt, w').
Proof.
  intros before after w w'. split; [vm_compute; reflexivity|].
  destruct (onUserUpdate_settles (UpdateEvent "lee" before after) w after)
    as (written & patch & Hw & _ & _ & _ & Hrole & _ & Hagain).
  - reflexivity.
  - vm_compute. eauto.
  - discriminate.
  - vm_compute. reflexivity.
  - reflexivity.
  - exists written. split; [exact Hw|]. split; [|exact Hagain].
    rewrite Hrole. reflexivity.
Defined.

(* ===================================================================== *)
(** ** updateUserRole *)
(* ===================================================================== *)

Definition role_patch (role : jsval) : obj :=
  {[ "role" := role; "updatedAt" := JServerTimestamp ]}.

Definition role_response (role : jsval) : obj :=
  {[ "success" := JBool true;
     "message" := JStr ("User role updated to " +:+ to_string role +:+ " successfully") ]}.

Lemma role_patch_lookup w role k :
  stamped w (role_patch role) !! k =
    if decide (k = "role") then Some (Sdk.stamp (clock w) role)
    else if decide (k = "updatedAt") then Some (JTime (clock w))
    else None.
Proof.
  rewrite stamped_lookup. unfold role_patch.
  destruct (decide (k = "role")) as [->|H1].
  { by rewrite lookup_insert_eq. }
  rewrite lookup_insert_ne by done.
  destruct (decide (k = "updatedAt")) as [->|H2].
  { by rewrite lookup_singleton_eq. }
  by rewrite lookup_singleton_ne.
Qed.

Lemma includes_truthy arr v :
  EmptyString ∉ arr → includes arr v = true → truthy v = true ∧ v ≠ JUndefined.
Proof.
  intros Harr (s & -> & Hs)%includes_true. split; [|done].
  apply truthy_nonempty. by intros ->.
Qed.

Lemma validRoles_nonempty : EmptyString ∉ validRoles.
Proof. unfold validRoles. by repeat (apply not_elem_of_cons; split; [done|]); apply not_elem_of_nil. Qed.

Lemma updateUserRole_run data context w d old :
  admin_caller context →
  data = Some d →
  stored_user w d.["userId"] = Some old →
  includes validRoles d.["role"] = true →
  ∃ s, d.["userId"] = JStr s ∧ s ≠ EmptyString ∧
    let w1 := doc_updated (DocRef "users" s) (role_patch d.["role"]) old w in
    updateUserRole data context w =
      if decide (is_Some (identities w !! s)) then
        (Returned (role_response d.["role"]),
         claims_attached s (role_flags d.["role"]) w1)
      else
        (Thrown (HttpsError Internal
                   "There is no user record corresponding to the provided identifier."), w1).
Proof.
  intros (caller & Hauth & Hadmin) -> Hold Hrole.
  destruct (includes_truthy _ _ validRoles_nonempty Hrole) as [Htr Hdef].
  destruct (updateDoc_returned "users" d.["userId"] (role_patch d.["role"]) old w)
    as (s & Hs & Hne & Hupd); [by storable | done |].
  exists s. split_and!; try done. simpl.
  unfold updateUserRole. rewrite Hauth, Hadmin. simpl.
  set (w1 := doc_updated _ _ _ _) in *.
  unfold try_catch. rewrite bind_ret. unfold properties. rewrite bind_ret.
  rewrite Hs at 1. rewrite (truthy_nonempty s Hne), Htr. simpl. rewrite bind_ret.
  fold validRoles. rewrite Hrole. simpl. rewrite bind_ret.
  fold (role_patch d.["role"]).
  rewrite (bind_returned _ _ _ _ _ Hupd).
  fold (role_flags d.["role"]). rewrite Hs.
  case_decide as Hid.
  - by rewrite (bind_returned _ _ _ _ _ (setCustomUserClaims_returned s _ w1 Hid)).
  - apply eq_None_not_Some in Hid.
    by rewrite (bind_thrown _ _ _ _ _ (setCustomUserClaims_thrown s _ w1 Hid)).
Qed.

(** The role flags never carry an [approved] flag, whatever the role. *)
Lemma role_flags_lookup role k :
  role_flags role !! k =
    if bool_decide (k ∈ validRoles) then Some (strict_eq (JStr k) role) else None.
Proof.
  unfold role_flags, forEach_assign, validRoles. simpl.
  destruct (decide (k = "lecturer")) as [->|H1].
  { by rewrite lookup_insert_eq. }
  rewrite lookup_insert_ne by done.
  destruct (decide (k = "moderator")) as [->|H2].
  { by rewrite lookup_insert_eq. }
  rewrite lookup_insert_ne by done.
  destruct (decide (k = "admin")) as [->|H3].
  { by rewrite lookup_insert_eq. }
  rewrite lookup_insert_ne, lookup_empty by done.
  rewrite bool_decide_eq_false_2; [done|].
  rewrite !elem_of_cons, elem_of_nil. naive_solver.
Qed.

Lemma role_flags_no_approved role : role_flags role !! "approved" = None.
Proof. by rewrite role_flags_lookup. Qed.

(** For a valid role exactly one flag is set, the one of that role. *)
Lemma role_flags_one role r :
  role ∈ validRoles →
  role_flags (JStr role) !! r = Some true ↔ r = role.
Proof.
  intros Hrole. rewrite role_flags_lookup.
  case_bool_decide as Hr.
  - simpl. split.
    + by intros [= ?%String.eqb_eq].
    + intros ->. by rewrite String.eqb_refl.
  - split; [done|]. by intros ->.
Qed.

(* ===================================================================== *)
(** ** The user-create reaction *)
(* ===================================================================== *)

Definition create_patch (approved : bool) (mirror : jsval) : obj :=
  {[ "approved" := JBool approved;
     "customClaims" := mirror;
     "updatedAt" := JServerTimestamp ]}.

Lemma create_patch_lookup w approved mirror k :
  mirror ≠ JServerTimestamp →
  stamped w (create_patch approved mirror) !! k =
    if decide (k = "approved") then Some (JBool approved)
    else if decide (k = "customClaims") then Some mirror
    else if decide (k = "updatedAt") then Some (JTime (clock w))
    else None.
Proof.
  intros Hm. rewrite stamped_lookup. unfold create_patch.
  destruct (decide (k = "approved")) as [->|H1].
  { by rewrite lookup_insert_eq. }
  rewrite lookup_insert_ne by done.
  destruct (decide (k = "customClaims")) as [->|H2].
  { rewrite lookup_insert_eq. by destruct mirror. }
  rewrite lookup_insert_ne by done.
  destruct (decide (k = "updatedAt")) as [->|H3].
  { by rewrite lookup_singleton_eq. }
  by rewrite lookup_singleton_ne.
Qed.

(** The claims record of a new admin: the role flags and [approved]. *)
Definition admin_creation_claims (role : jsval) : claims :=
  <["approved" := true]> (role_flags role).

(** What the reaction leaves behind, in every case. *)
Definition after_onUserCreate (event : create_event) (w : World) : World :=
  let userId := crt_userId event in
  let role := (crt_data event).["role"] in
  let write (c : jsval) (w1 : World) :=
    match stored w1 "users" (JStr userId) with
    | Some old =>
        doc_updated (DocRef "users" userId)
          (create_patch (strict_eq role (JStr "admin")) c) old w1
    | None => w1
    end in
  if strict_eq role (JStr "admin") then
    if decide (is_Some (identities w !! userId)) then
      write (JClaims (admin_creation_claims role))
            (claims_attached userId (admin_creation_claims role) w)
    else w
  else write JNull w.

(** [db.collection('users').doc(userId).update(patch)] *)
Lemma user_write_returned userId patch old w :
  Sdk.storable patch →
  stored w "users" (JStr userId) = Some old →
  (let* r := Sdk.doc "users" (JStr userId) in Sdk.update r patch) w
  = (Returned tt, doc_updated (DocRef "users" userId) patch old w).
Proof.
  intros Hp (s & [= <-] & _ & E & Hold)%stored_Some.
  rewrite (bind_returned _ _ _ _ _ (doc_returned "users" userId w E)).
  by apply update_returned.
Qed.

Lemma user_write_thrown userId patch w :
  stored w "users" (JStr userId) = None →
  ∃ e, (let* r := Sdk.doc "users" (JStr userId) in Sdk.update r patch) w = (Thrown e, w).
Proof.
  intros Hnone.
  destruct (doc_cases "users" (JStr userId) w)
    as [(s & [= <-] & E & Hdoc) | [_ [e He]]].
  - rewrite (bind_returned _ _ _ _ _ Hdoc). simpl in Hnone. rewrite E in Hnone.
    by apply update_thrown.
  - rewrite (bind_thrown _ _ _ _ _ He). eauto.
Qed.

Lemma create_patch_storable approved mirror :
  mirror ≠ JUndefined → Sdk.storable (create_patch approved mirror).
Proof. intros Hm. unfold create_patch. by storable. Qed.

Lemma onUserCreate_run event w :
  onUserCreate event w = (Returned tt, after_onUserCreate event w).
Proof.
  unfold onUserCreate, after_onUserCreate, try_catch.
  fold validRoles. fold (role_flags (crt_data event).["role"]).
  destruct (strict_eq (crt_data event).["role"] (JStr "admin")) eqn:Hadm.
  - fold (admin_creation_claims (crt_data event).["role"]).
    set (c := admin_creation_claims _).
    rewrite !bind_assoc. case_decide as Hid.
    2:{ apply eq_None_not_Some in Hid.
        by rewrite (bind_thrown _ _ _ _ _ (setCustomUserClaims_thrown _ c w Hid)). }
    rewrite (bind_returned _ _ _ _ _ (setCustomUserClaims_returned _ c w Hid)).
    rewrite bind_ret.
    fold (create_patch true (JClaims c)).
    destruct (stored _ "users" _) as [old|] eqn:Hold.
    + assert (Hp : Sdk.storable (create_patch true (JClaims c)))
        by by apply create_patch_storable.
      by rewrite (bind_returned _ _ _ _ _ (user_write_returned _ _ _ _ Hp Hold)).
    + destruct (user_write_thrown _ (create_patch true (JClaims c)) _ Hold) as [e He].
      by rewrite (bind_thrown _ _ _ _ _ He).
  - rewrite bind_ret.
    fold (create_patch false JNull).
    destruct (stored _ "users" _) as [old|] eqn:Hold.
    + assert (Hp : Sdk.storable (create_patch false JNull))
        by by apply create_patch_storable.
      by rewrite (bind_returned _ _ _ _ _ (user_write_returned _ _ _ _ Hp Hold)).
    + destruct (user_write_thrown _ (create_patch false JNull) _ Hold) as [e He].
      by rewrite (bind_thrown _ _ _ _ _ He).
Qed.

(* ===================================================================== *)
(** ** Queries and the first-admin bootstrap *)
(* ===================================================================== *)

(** The documents of a collection that meet a list of conditions. *)
Definition matching (w : World) (c : string) (conds : list Sdk.condition) :
    list (string * obj) :=
  filter (λ kd, forallb (Sdk.satisfies kd.2) conds = true) (map_to_list (collection w c)).

Lemma queryDocs_one c cond w :
  Sdk.value cond ≠ JUndefined →
  queryDocs c [cond] w
  = (Returned ((λ kd, kd.2 ∪ {["id" := JStr kd.1]}) <$> matching w c [cond]), w).
Proof.
  intros Hv. unfold queryDocs. rewrite try_rethrow. simpl.
  rewrite bind_assoc, bind_ret. unfold Sdk.where_ at 1.
  rewrite decide_False by done. by rewrite bind_ret.
Qed.

(** Some user document has role ["admin"]. *)
Definition admin_exists (w : World) : Prop :=
  ∃ id doc, users w !! id = Some doc ∧ doc !! "role" = Some (JStr "admin").

Definition role_is_admin : Sdk.condition := Sdk.Condition "role" Sdk.OpEq (JStr "admin").

Lemma matching_admin w kd :
  kd ∈ matching w "users" [role_is_admin]
  ↔ users w !! kd.1 = Some kd.2 ∧ kd.2 !! "role" = Some (JStr "admin").
Proof.
  unfold matching. rewrite list_elem_of_filter. destruct kd as [k d].
  rewrite elem_of_map_to_list. simpl. unfold Sdk.satisfies. simpl.
  rewrite andb_true_r, bool_decide_eq_true. unfold users. naive_solver.
Qed.

Lemma admin_exists_matching w :
  admin_exists w ↔ matching w "users" [role_is_admin] ≠ [].
Proof.
  split.
  - intros (id & doc & Hd & Hr) Hnil.
    assert (Hin : (id, doc) ∈ matching w "users" [role_is_admin])
      by by apply matching_admin.
    rewrite Hnil in Hin. by apply elem_of_nil in Hin.
  - destruct (matching w "users" [role_is_admin]) as [|kd l] eqn:Hm; [done|].
    intros _. exists kd.1, kd.2. apply matching_admin. rewrite Hm. apply list_elem_of_here.
Qed.

Definition first_admin_claims : claims :=
  {[ "admin" := true; "moderator" := false; "lecturer" := false; "approved" := true ]}.

Definition first_admin_doc (d : obj) : obj :=
  {[ "displayName" := d.["displayName"];
     "email" := d.["email"];
     "role" := JStr "admin";
     "approved" := JBool true;
     "active" := JBool true;
     "customClaims" := JClaims first_admin_claims;
     "createdAt" := JServerTimestamp;
     "updatedAt" := JServerTimestamp ]}.

Definition first_admin_response (newUid : string) : obj :=
  {[ "success" := JBool true;
     "message" := JStr "First admin user created successfully";
     "userId" := JStr newUid ]}.

(** The payload names an address, a password and a display name. *)
Definition complete (d : obj) : Prop :=
  truthy d.["email"] = true ∧ truthy d.["password"] = true
  ∧ truthy d.["displayName"] = true.

(** The identity provider accepts the new account. *)
Definition acceptable (newUid : string) (d : obj) (w : World) : Prop :=
  Sdk.is_string d.["email"] = true
  ∧ Sdk.long_enough d.["password"] = true
  ∧ Sdk.is_string d.["displayName"] = true
  ∧ ¬ Sdk.email_taken w d.["email"]
  ∧ newUid ≠ EmptyString ∧ identities w !! newUid = None.

(** The world after the provider has created identity [newUid]. *)
Definition identity_created (newUid : string) (d : obj) (w : World) : World :=
  {| firestore := firestore w;
     identities := <[newUid := Identity d.["email"] d.["displayName"] None]> (identities w);
     clock := clock w;
     effects := effects w ++ [UserCreated newUid] |}.

Lemma createFirstAdmin_refused newUid data context w d :
  data = Some d → complete d → admin_exists w →
  createFirstAdmin newUid data context w
  = (Thrown (HttpsError Internal
               "An admin user already exists. Cannot create the first admin."), w).
Proof.
  intros -> (He & Hp & Hn) Hadm.
  unfold createFirstAdmin, try_catch. simpl. rewrite !bind_ret.
  rewrite He, Hp, Hn. simpl. rewrite bind_ret.
  fold role_is_admin.
  rewrite (bind_returned _ _ _ _ _ (queryDocs_one "users" role_is_admin w ltac:(done))).
  rewrite length_fmap.
  apply admin_exists_matching in Hadm.
  destruct (matching w "users" [role_is_admin]) as [|kd l]; [done|].
  done.
Qed.

Lemma first_admin_doc_storable d :
  complete d → Sdk.storable (first_admin_doc d).
Proof.
  intros (He & _ & Hn). unfold first_admin_doc. storable.
  - intros Hu. by rewrite Hu in Hn.
  - intros Hu. by rewrite Hu in He.
Qed.

Lemma createFirstAdmin_run newUid data context w d :
  data = Some d → complete d → ¬ admin_exists w → acceptable newUid d w →
  let w1 := identity_created newUid d w in
  let w2 := claims_attached newUid first_admin_claims w1 in
  let doc := stamped w2 (first_admin_doc d) in
  createFirstAdmin newUid data context w
  = (Returned (first_admin_response newUid),
     doc_written (DocRef "users" newUid) doc (DocSet (DocRef "users" newUid) doc) w2).
Proof.
  intros -> Hc Hnoadm (Hs1 & Hs2 & Hs3 & Hfree & Hne & Hnew).
  pose proof Hc as (He & Hp & Hn).
  unfold createFirstAdmin, try_catch. simpl. rewrite !bind_ret.
  rewrite He, Hp, Hn. simpl. rewrite bind_ret.
  fold role_is_admin.
  rewrite (bind_returned _ _ _ _ _ (queryDocs_one "users" role_is_admin w ltac:(done))).
  rewrite length_fmap.
  assert (Hnil : matching w "users" [role_is_admin] = []).
  { destruct (matching w "users" [role_is_admin]) eqn:Hm; [done|].
    destruct Hnoadm. apply admin_exists_matching. by rewrite Hm. }
  rewrite Hnil. simpl. rewrite bind_ret.
  assert (Hcreate : Sdk.createUser newUid d.["email"] d.["password"] d.["displayName"] w
                    = (Returned newUid, identity_created newUid d w)).
  { unfold Sdk.createUser. rewrite Hs1, Hs2, Hs3. simpl.
    rewrite decide_False by done. by rewrite decide_True. }
  rewrite (bind_returned _ _ _ _ _ Hcreate).
  fold first_admin_claims. fold (first_admin_doc d).
  set (w1 := identity_created newUid d w).
  assert (Hid : is_Some (identities w1 !! newUid)).
  { unfold w1, identity_created. simpl. rewrite lookup_insert_eq. eauto. }
  rewrite (bind_returned _ _ _ _ _ (setCustomUserClaims_returned _ first_admin_claims w1 Hid)).
  set (w2 := claims_attached newUid first_admin_claims w1).
  rewrite bind_assoc.
  rewrite (bind_returned _ _ _ _ _
             (doc_returned "users" newUid w2 (proj2 (String.eqb_neq _ _) Hne))).
  unfold bind, Sdk.set.
  rewrite decide_True by by apply first_admin_doc_storable.
  done.
Qed.

Lemma first_admin_doc_lookup w d k v :
  first_admin_doc d !! k = Some v → v ≠ JServerTimestamp →
  stamped w (first_admin_doc d) !! k = Some v.
Proof. intros Hk Hv. rewrite stamped_lookup, Hk. by destruct v. Qed.

(** On success the bootstrap leaves an identity with the admin claims and
    a user document with role ["admin"], [approved: true] and the same
    claims as mirror. *)
Lemma createFirstAdmin_creates newUid data context w d :
  data = Some d → complete d → ¬ admin_exists w → acceptable newUid d w →
  let w' := exec (createFirstAdmin newUid data context) w in
  result (createFirstAdmin newUid data context) w = Returned (first_admin_response newUid)
  ∧ claims_of w' newUid = Some first_admin_claims
  ∧ ∃ doc, users w' !! newUid = Some doc
      ∧ doc.["role"] = JStr "admin"
      ∧ doc.["approved"] = JBool true
      ∧ doc.["customClaims"] = JClaims first_admin_claims.
Proof.
  intros Hd Hc Hno Hacc. unfold exec, result.
  rewrite (createFirstAdmin_run newUid data context w d Hd Hc Hno Hacc). simpl.
  split_and!; [done| |].
  - unfold claims_of. simpl.
    rewrite (identities_claims_attached _ _ _ (Identity d.["email"] d.["displayName"] None))
      by (simpl; by rewrite lookup_insert_eq).
    by rewrite lookup_insert_eq.
  - eexists. split; [by rewrite users_doc_written, lookup_insert_eq|].
    unfold prop.
    split_and!; by erewrite first_admin_doc_lookup.
Qed.

(** C5. With an admin already stored, [createFirstAdmin] raises
    ['failed-precondition'] inside its [try] block, and its own [catch]
    turns that into ['internal']: on the demo deployment the caller
    receives [Internal] with the message of the precondition failure, not
    [FailedPrecondition].  Nothing is created. *)
Theorem createFirstAdmin_precondition_becomes_internal :
  let data := Some ({[ "email" := JStr "eve@campus.example";
                       "password" := JStr "correct horse";
                       "displayName" := JStr "Eve" ]} : obj) in
  admin_exists Demo.campus
  ∧ createFirstAdmin "eve" data (Context None) Demo.campus
    = (Thrown (HttpsError Internal
                 "An admin user already exists. Cannot create the first admin."),
       Demo.campus)
  ∧ ∀ msg, result (createFirstAdmin "eve" data (Context None)) Demo.campus
           ≠ Thrown (HttpsError FailedPrecondition msg).
Proof.
  intros data.
  assert (Hadm : admin_exists Demo.campus).
  { exists "root", (Demo.user_doc "root" "admin" true). split; reflexivity. }
  assert (Hrun := createFirstAdmin_refused "eve" data (Context None) Demo.campus _
                    eq_refl (conj eq_refl (conj eq_refl eq_refl)) Hadm).
  split_and!; [done|done|].
  intros msg. unfold result. by rewrite Hrun.
Qed.

(** The same for a payload without the required fields: the
    ['invalid-argument'] error reaches the caller as ['internal']. *)
Lemma createFirstAdmin_missing_becomes_internal newUid context w :
  createFirstAdmin newUid None context w
  = (Thrown (HttpsError Internal "No data provided"), w).
Proof. done. Qed.

(* ===================================================================== *)
(** ** Registration *)
(* ===================================================================== *)

Definition user_record (userData : obj) : obj :=
  let userRole := or_else userData.["role"] (JStr "lecturer") in
  {[ "displayName" := userData.["displayName"];
     "email" := userData.["email"];
     "role" := userRole;
     "approved" := JBool (strict_eq userRole (JStr "admin"));
     "active" := JBool true;
     "createdAt" := JServerTimestamp;
     "updatedAt" := JServerTimestamp ]}.

Lemma createUserRecord_returned autoId userId userData w r w' :
  createUserRecord autoId userId userData w = (Returned r, w') →
  ref_collection r = "users"
  ∧ w' = doc_written r (stamped w (user_record userData))
           (DocSet r (stamped w (user_record userData))) w.
Proof.
  unfold createUserRecord. rewrite try_rethrow. fold (user_record userData).
  unfold createDoc. rewrite try_rethrow.
  destruct (truthy userId).
  - destruct (doc_cases "users" userId w) as [(s & -> & E & Hdoc) | [_ [e He]]].
    2:{ by rewrite (bind_thrown _ _ _ _ _ He). }
    rewrite (bind_returned _ _ _ _ _ Hdoc).
    unfold bind, Sdk.set. case_decide; [|done]. by intros [= <- <-].
  - unfold bind, Sdk.add. case_decide; [|done]. case_decide; [|done].
    by intros [= <- <-].
Qed.

Lemma or_else_not_timestamp v s : or_else v (JStr s) = JServerTimestamp → v = JServerTimestamp.
Proof. unfold or_else. by destruct (truthy v). Qed.

Lemma user_record_fields w userData :
  userData.["role"] ≠ JServerTimestamp →
  let doc := stamped w (user_record userData) in
  doc.["role"] = or_else userData.["role"] (JStr "lecturer")
  ∧ doc.["approved"] = JBool (strict_eq doc.["role"] (JStr "admin")).
Proof.
  intros Hts.
  assert (Hrole : (stamped w (user_record userData)).["role"]
                  = or_else userData.["role"] (JStr "lecturer")).
  { unfold prop at 1. rewrite stamped_lookup. unfold user_record.
    rewrite !lookup_insert_ne by done. rewrite lookup_insert_eq. simpl.
    destruct (or_else userData.["role"] (JStr "lecturer")) eqn:Hor; try done.
    by apply or_else_not_timestamp in Hor. }
  simpl. split; [done|]. rewrite Hrole.
  unfold prop at 1. rewrite stamped_lookup. unfold user_record.
  rewrite !lookup_insert_ne by done. by rewrite lookup_insert_eq.
Qed.

(* ===================================================================== *)
(** ** The invariant: an admin is approved *)
(* ===================================================================== *)

(** [role == "admin"] implies [approved == true], on one document. *)
Definition admin_approved (doc : obj) : Prop :=
  doc.["role"] = JStr "admin" → doc.["approved"] = JBool true.

#[global] Instance admin_approved_dec doc : Decision (admin_approved doc).
Proof. unfold admin_approved. apply _. Defined.

(** The invariant on every stored user. *)
Definition users_invariant (w : World) : Prop :=
  map_Forall (λ _ doc, admin_approved doc) (users w).

#[global] Instance users_invariant_dec w : Decision (users_invariant w).
Proof. unfold users_invariant. apply _. Defined.

(** An admin promotes the lecturer who waits for approval: the call
    succeeds and the stored document has role ["admin"] and
    [approved: false].  An admin revokes the approval of an admin: the
    call succeeds and again an admin is stored unapproved. *)
Lemma admin_left_unapproved :
  let promote := Some ({[ "userId" := JStr "luc"; "role" := JStr "admin" ]} : obj) in
  let revoke := Some ({[ "userId" := JStr "root"; "approved" := JBool false ]} : obj) in
  let w1 := exec (updateUserRole promote Demo.as_root) Demo.campus in
  let w2 := exec (approveUser revoke Demo.as_root) Demo.campus in
  users_invariant Demo.campus
  ∧ (result (updateUserRole promote Demo.as_root) Demo.campus
       = Returned (role_response (JStr "admin"))
     ∧ (∃ doc, users w1 !! "luc" = Some doc
          ∧ doc.["role"] = JStr "admin" ∧ doc.["approved"] = JBool false)
     ∧ ¬ users_invariant w1)
  ∧ (result (approveUser revoke Demo.as_root) Demo.campus
       = Returned (approve_response (JBool false))
     ∧ (∃ doc, users w2 !! "root" = Some doc
          ∧ doc.["role"] = JStr "admin" ∧ doc.["approved"] = JBool false)
     ∧ ¬ users_invariant w2).
Proof.
  intros promote revoke w1 w2.
  split; [by apply (bool_decide_unpack _); vm_compute|].
  split; (split; [by vm_compute|]).
  - assert (Hdoc : ∃ doc, users w1 !! "luc" = Some doc
               ∧ doc.["role"] = JStr "admin" ∧ doc.["approved"] = JBool false).
    { eexists. split; [by vm_compute|]. split; reflexivity. }
    split; [done|]. destruct Hdoc as (doc & Hdoc & Hr & Ha).
    intros Hinv. specialize (Hinv _ _ Hdoc Hr). congruence.
  - assert (Hdoc : ∃ doc, users w2 !! "root" = Some doc
               ∧ doc.["role"] = JStr "admin" ∧ doc.["approved"] = JBool false).
    { eexists. split; [by vm_compute|]. split; reflexivity. }
    split; [done|]. destruct Hdoc as (doc & Hdoc & Hr & Ha).
    intros Hinv. specialize (Hinv _ _ Hdoc Hr). congruence.
Qed.

Lemma stamp_str t v s : Sdk.stamp t v = JStr s → v = JStr s.
Proof. by destruct v. Qed.

Lemma createUserRecord_admin_approved autoId userId userData w r w' :
  createUserRecord autoId userId userData w = (Returned r, w') →
  ∃ doc, collection w' "users" !! ref_id r = Some doc ∧ admin_approved doc.
Proof.
  intros [Hc ->]%createUserRecord_returned.
  exists (stamped w (user_record userData)). split.
  { rewrite collection_doc_written, decide_True by done. by rewrite lookup_insert_eq. }
  unfold admin_approved, prop. rewrite !stamped_lookup. unfold user_record.
  rewrite !lookup_insert_ne by done. rewrite !lookup_insert_eq. simpl.
  intros Hr%stamp_str. by rewrite Hr.
Qed.

Lemma onUserCreate_document event w old :
  stored w "users" (JStr (crt_userId event)) = Some old →
  ((crt_data event).["role"] = JStr "admin" → is_Some (identities w !! crt_userId event)) →
  ∃ doc, users (exec (onUserCreate event) w) !! crt_userId event = Some doc
    ∧ doc.["role"] = old.["role"]
    ∧ doc.["approved"] = JBool (strict_eq (crt_data event).["role"] (JStr "admin")).
Proof.
  intros Hold Hid. unfold exec. rewrite onUserCreate_run. simpl.
  unfold after_onUserCreate.
  destruct (strict_eq (crt_data event).["role"] (JStr "admin")) eqn:Hadm.
  - apply strict_eq_str in Hadm. rewrite decide_True by auto.
    rewrite stored_claims_attached, Hold.
    eexists. split; [by rewrite users_doc_updated, lookup_insert_eq|].
    split.
    + apply prop_patch_other. by rewrite create_patch_lookup.
    + apply prop_patch. by rewrite create_patch_lookup.
  - rewrite Hold.
    eexists. split; [by rewrite users_doc_updated, lookup_insert_eq|].
    split.
    + apply prop_patch_other. by rewrite create_patch_lookup.
    + apply prop_patch. by rewrite create_patch_lookup.
Qed.

Lemma approveUser_document data context w d old :
  admin_caller context →
  data = Some d →
  stored_user w d.["userId"] = Some old →
  d.["approved"] ≠ JUndefined →
  ∃ s doc, d.["userId"] = JStr s
    ∧ users (exec (approveUser data context) w) !! s = Some doc
    ∧ doc.["approved"] = Sdk.stamp (clock w) d.["approved"]
    ∧ ∀ k, k ≠ "approved" → k ≠ "updatedAt" → doc !! k = old !! k.
Proof.
  intros Hadmin Hdata Hold Hdef.
  destruct (approveUser_run data context w d old) as (s & Hs & Hne & Hrun);
    try done.
  exists s, (stamped w (approve_patch d.["approved"]) ∪ old).
  split; [done|]. split.
  { unfold exec. simpl in Hrun. rewrite Hrun.
    destruct (truthy d.["approved"]); [case_decide|]; simpl;
      rewrite ?users_claims_attached, users_doc_updated;
      by rewrite lookup_insert_eq. }
  split.
  - apply prop_patch. by rewrite approve_patch_lookup.
  - intros k H1 H2. rewrite lookup_union_r; [done|].
    rewrite approve_patch_lookup. by rewrite !decide_False.
Qed.

Lemma updateUserRole_document data context w d old :
  admin_caller context →
  data = Some d →
  stored_user w d.["userId"] = Some old →
  includes validRoles d.["role"] = true →
  ∃ s doc, d.["userId"] = JStr s
    ∧ users (exec (updateUserRole data context) w) !! s = Some doc
    ∧ doc.["role"] = d.["role"]
    ∧ ∀ k, k ≠ "role" → k ≠ "updatedAt" → doc !! k = old !! k.
Proof.
  intros Hadmin Hdata Hold Hrole.
  destruct (updateUserRole_run data context w d old) as (s & Hs & Hne & Hrun);
    try done.
  exists s, (stamped w (role_patch d.["role"]) ∪ old).
  split; [done|]. split.
  { unfold exec. simpl in Hrun. rewrite Hrun.
    case_decide; simpl;
      rewrite ?users_claims_attached, users_doc_updated;
      by rewrite lookup_insert_eq. }
  split.
  - apply includes_true in Hrole as (r & Hr & _).
    apply prop_patch. rewrite role_patch_lookup. simpl. by rewrite Hr.
  - intros k H1 H2. rewrite lookup_union_r; [done|].
    rewrite role_patch_lookup. by rewrite !decide_False.
Qed.

(** C1, as the code has it.  The operations that create a user document
    write it with [approved: true] whenever its role is ["admin"]:
    registration ([createUserRecord]), the user-create reaction (run on the
    stored document, the identity being known when the role is admin) and
    the first-admin bootstrap.  The two admin actions each write one of
    the two fields and keep the other: after [approveUser] the role is the
    stored one and [approved] is the value given, after [updateUserRole]
    the role is the one given and [approved] is the stored one.  So an
    admin stays approved after [approveUser] when the value given is
    [true] or the user is no admin, and after [updateUserRole] when the
    new role is not ["admin"] or the user was approved. *)
Theorem admin_approved_by_design :
  (∀ autoId userId userData w r w',
     createUserRecord autoId userId userData w = (Returned r, w') →
     ∃ doc, collection w' "users" !! ref_id r = Some doc ∧ admin_approved doc)
  ∧ (∀ event w old,
       stored w "users" (JStr (crt_userId event)) = Some old →
       old.["role"] = (crt_data event).["role"] →
       ((crt_data event).["role"] = JStr "admin" →
        is_Some (identities w !! crt_userId event)) →
       ∃ doc, users (exec (onUserCreate event) w) !! crt_userId event = Some doc
         ∧ admin_approved doc)
  ∧ (∀ newUid data context w d,
       data = Some d → complete d → ¬ admin_exists w → acceptable newUid d w →
       ∃ doc, users (exec (createFirstAdmin newUid data context) w) !! newUid = Some doc
         ∧ doc.["role"] = JStr "admin" ∧ admin_approved doc)
  ∧ (∀ data context w d old,
       admin_caller context → data = Some d →
       stored_user w d.["userId"] = Some old →
       d.["approved"] ≠ JUndefined →
       ∃ s doc, d.["userId"] = JStr s
         ∧ users (exec (approveUser data context) w) !! s = Some doc
         ∧ doc.["role"] = old.["role"]
         ∧ doc.["approved"] = Sdk.stamp (clock w) d.["approved"]
         ∧ (d.["approved"] = JBool true ∨ old.["role"] ≠ JStr "admin" →
            admin_approved doc))
  ∧ (∀ data context w d old,
       admin_caller context → data = Some d →
       stored_user w d.["userId"] = Some old →
       includes validRoles d.["role"] = true →
       ∃ s doc, d.["userId"] = JStr s
         ∧ users (exec (updateUserRole data context) w) !! s = Some doc
         ∧ doc.["role"] = d.["role"]
         ∧ doc.["approved"] = old.["approved"]
         ∧ (d.["role"] ≠ JStr "admin" ∨ old.["approved"] = JBool true →
            admin_approved doc)).
Proof.
  split_and!.
  - apply createUserRecord_admin_approved.
  - intros event w old Hold Hsame Hid.
    destruct (onUserCreate_document event w old Hold Hid) as (doc & Hdoc & Hr & Ha).
    exists doc. split; [done|]. intros Hadm. rewrite Ha.
    rewrite Hr, Hsame in Hadm. by rewrite Hadm.
  - intros newUid data context w d Hd Hc Hno Hacc.
    destruct (createFirstAdmin_creates newUid data context w d Hd Hc Hno Hacc)
      as (_ & _ & doc & Hdoc & Hr & Ha & _).
    exists doc. split_and!; try done. by intros _.
  - intros data context w d old Hadmin Hd Hold Hdef.
    destruct (approveUser_document data context w d old) as (s & doc & Hs & Hdoc & Ha & Hframe);
      try done.
    assert (Hr : doc.["role"] = old.["role"]).
    { unfold prop. by rewrite Hframe. }
    exists s, doc. split_and!; try done.
    intros [Htrue | Hnot] Hadm.
    + by rewrite Ha, Htrue.
    + by rewrite Hr in Hadm.
  - intros data context w d old Hadmin Hd Hold Hrole.
    destruct (updateUserRole_document data context w d old) as (s & doc & Hs & Hdoc & Hr & Hframe);
      try done.
    assert (Ha : doc.["approved"] = old.["approved"]).
    { unfold prop. by rewrite Hframe. }
    exists s, doc. split_and!; try done.
    intros [Hnot | Happ] Hadm.
    + by rewrite Hr in Hadm.
    + by rewrite Ha.
Qed.

(** The five operations on the demo deployments: an admin registers, the
    reaction runs on the document of a new admin, the first admin is
    created, the waiting lecturer is approved, the approved lecturer is
    made an admin. *)
Lemma admin_approved_by_design_witness :
  let ann : obj := {[ "displayName" := JStr "Ann"; "email" := JStr "ann@campus.example";
                      "role" := JStr "admin" ]} in
  let w_ann := exec (createUserRecord "auto" (JStr "ann") ann) Demo.campus in
  let w_ann_known :=
    {| firestore := firestore w_ann;
       identities := <["ann" := Demo.account "ann" None]> (identities w_ann);
       clock := clock w_ann; effects := effects w_ann |} in
  let eve := Some ({[ "email" := JStr "eve@campus.example";
                      "password" := JStr "correct horse";
                      "displayName" := JStr "Eve" ]} : obj) in
  let approve := Some ({[ "userId" := JStr "luc"; "approved" := JBool true ]} : obj) in
  let promote := Some ({[ "userId" := JStr "lee"; "role" := JStr "admin" ]} : obj) in
  (∃ doc, users w_ann !! "ann" = Some doc ∧ admin_approved doc)
  ∧ (∃ doc, users (exec (onUserCreate (CreateEvent "ann" ann)) w_ann_known) !! "ann" = Some doc
       ∧ admin_approved doc)
  ∧ (∃ doc, users (exec (createFirstAdmin "eve" eve (Context None)) Demo.fresh_campus) !! "eve"
            = Some doc ∧ doc.["role"] = JStr "admin" ∧ admin_approved doc)
  ∧ (∃ doc, users (exec (approveUser approve Demo.as_root) Demo.campus) !! "luc" = Some doc
       ∧ admin_approved doc)
  ∧ (∃ doc, users (exec (updateUserRole promote Demo.as_root) Demo.campus) !! "lee" = Some doc
       ∧ doc.["role"] = JStr "admin" ∧ admin_approved doc).
Proof.
  intros ann w_ann w_ann_known eve approve promote.
  destruct admin_approved_by_design as (Hreg & Hcreate & Hfirst & Happrove & Hrole).
  split_and!.
  - apply (Hreg "auto" (JStr "ann") ann Demo.campus (DocRef "users" "ann") w_ann).
    vm_compute. reflexivity.
  - apply (Hcreate (CreateEvent "ann" ann) w_ann_known
             (stamped Demo.campus (user_record ann))).
    + vm_compute. reflexivity.
    + vm_compute. reflexivity.
    + intros _. vm_compute. eauto.
  - apply (Hfirst "eve" eve (Context None) Demo.fresh_campus
             {[ "email" := JStr "eve@campus.example";
                "password" := JStr "correct horse";
                "displayName" := JStr "Eve" ]}).
    + reflexivity.
    + repeat split.
    + intros (id & doc & Hdoc & Hr). revert Hdoc Hr.
      unfold users, collection, Demo.fresh_campus. simpl.
      rewrite lookup_singleton_eq. simpl.
      intros [<- <-]%lookup_singleton_Some. vm_compute. discriminate.
    + split_and!; try reflexivity; try discriminate.
      apply (bool_decide_unpack _). vm_compute. exact I.
  - destruct (Happrove approve Demo.as_root Demo.campus
                {[ "userId" := JStr "luc"; "approved" := JBool true ]}
                (Demo.user_doc "luc" "lecturer" false))
      as (s & doc & Hs & Hdoc & _ & _ & Hinv).
    + exists (AuthInfo "root" {[ "admin" := JBool true ]}). split; reflexivity.
    + reflexivity.
    + vm_compute. reflexivity.
    + discriminate.
    + injection Hs as <-. exists doc. split; [exact Hdoc|]. apply Hinv. left. reflexivity.
  - destruct (Hrole promote Demo.as_root Demo.campus
                {[ "userId" := JStr "lee"; "role" := JStr "admin" ]}
                (Demo.user_doc "lee" "lecturer" true))
      as (s & doc & Hs & Hdoc & Hr & _ & Hinv).
    + exists (AuthInfo "root" {[ "admin" := JBool true ]}). split; reflexivity.
    + reflexivity.
    + vm_compute. reflexivity.
    + reflexivity.
    + injection Hs as <-. exists doc. split; [exact Hdoc|]. split; [exact Hr|].
      apply Hinv. right. reflexivity.
Defined.

(* ===================================================================== *)
(** ** The claims records *)
(* ===================================================================== *)

(** A record with one flag per valid role, set for [role] only. *)
Definition one_role_flag (c : claims) (role : string) : Prop :=
  ∀ r, r ∈ validRoles → c !! r = Some (bool_decide (r = role)).

Lemma strict_eq_names (r role : string) :
  strict_eq (JStr r) (JStr role) = bool_decide (r = role).
Proof.
  simpl. destruct (String.eqb_spec r role).
  - by rewrite bool_decide_eq_true_2.
  - by rewrite bool_decide_eq_false_2.
Qed.

Lemma role_flags_one_role role : one_role_flag (role_flags (JStr role)) role.
Proof.
  intros r Hr. rewrite role_flags_lookup, bool_decide_eq_true_2 by done.
  by rewrite strict_eq_names.
Qed.

(** The record [approveUser] attaches has one role flag and
    [approved: true]. *)
Lemma approval_claims_flags role :
  role ∈ validRoles →
  one_role_flag (approval_claims (JStr role)) role
  ∧ approval_claims (JStr role) !! "approved" = Some true.
Proof.
  intros Hrole.
  assert (Hor : or_else (JStr role) (JStr "lecturer") = JStr role).
  { unfold or_else. rewrite truthy_nonempty; [done|].
    intros ->. by apply validRoles_nonempty. }
  unfold approval_claims. rewrite Hor. split.
  - intros r. unfold validRoles. rewrite !elem_of_cons, elem_of_nil.
    intros [-> | [-> | [-> | []]]]; rewrite <- strict_eq_names.
    + rewrite lookup_insert_eq. simpl. by rewrite String.eqb_sym.
    + rewrite lookup_insert_ne, lookup_insert_eq by done.
      simpl. by rewrite String.eqb_sym.
    + rewrite !lookup_insert_ne, lookup_insert_eq by done.
      simpl. by rewrite String.eqb_sym.
  - by rewrite !lookup_insert_ne, lookup_singleton_eq.
Qed.

(** So has the record attached when an admin document is created. *)
Lemma admin_creation_claims_flags :
  one_role_flag (admin_creation_claims (JStr "admin")) "admin"
  ∧ admin_creation_claims (JStr "admin") !! "approved" = Some true.
Proof.
  unfold admin_creation_claims. split.
  - intros r Hr. rewrite lookup_insert_ne.
    + by apply role_flags_one_role.
    + intros <-. revert Hr. unfold validRoles.
      rewrite !elem_of_cons, elem_of_nil. naive_solver.
  - by rewrite lookup_insert_eq.
Qed.

(** The records of both role-change paths are the bare role flags. *)
Lemma updateUserRole_claims data context w d old :
  admin_caller context →
  data = Some d →
  stored_user w d.["userId"] = Some old →
  includes validRoles d.["role"] = true →
  ∀ s, d.["userId"] = JStr s → is_Some (identities w !! s) →
  claims_of (exec (updateUserRole data context) w) s = Some (role_flags d.["role"]).
Proof.
  intros Hadmin Hd Hold Hrole s Hs Hid.
  destruct (updateUserRole_run data context w d old) as (s' & Hs' & Hne & Hrun);
    try done.
  assert (s' = s) as -> by congruence.
  unfold exec. simpl in Hrun. rewrite Hrun, decide_True by done. simpl.
  by apply claims_of_attached.
Qed.

Lemma onUserUpdate_claims event w :
  strict_neq (upd_before event).["role"] (upd_after event).["role"] = true →
  is_Some (identities w !! upd_userId event) →
  claims_of (exec (onUserUpdate event) w) (upd_userId event)
  = Some (role_flags (upd_after event).["role"]).
Proof.
  intros Hchanged Hid. unfold exec. rewrite onUserUpdate_run. simpl.
  unfold after_onUserUpdate. rewrite Hchanged, decide_True by done.
  destruct (stored _ _ _); [|by apply claims_of_attached].
  unfold claims_of, doc_updated. rewrite identities_doc_written.
  by apply claims_of_attached.
Qed.

(** C3. An approved lecturer, with the claims attached on approval, is
    made a moderator.  [updateUserRole] replaces the claims by the record
    [{admin: false, moderator: true, lecturer: false}]: the role flag is
    right, but the record has no [approved] flag, although the user
    document still says [approved: true]; the user-update reaction then
    attaches and mirrors the same record.  [approveUser], the creation of
    an admin and the first-admin bootstrap do put [approved: true] in the
    record. *)
Theorem role_change_drops_approved_claim :
  let data := Some ({[ "userId" := JStr "lee"; "role" := JStr "moderator" ]} : obj) in
  let before := Demo.user_doc "lee" "lecturer" true in
  let after := <["role" := JStr "moderator"]> (<["updatedAt" := JTime 100]> before) in
  let flags : claims := {[ "admin" := false; "moderator" := true; "lecturer" := false ]} in
  let w1 := exec (updateUserRole data Demo.as_root) Demo.campus in
  let w2 := exec (onUserUpdate (UpdateEvent "lee" before after)) w1 in
  claims_of Demo.campus "lee"
    = Some {[ "admin" := false; "moderator" := false; "lecturer" := true; "approved" := true ]}
  ∧ result (updateUserRole data Demo.as_root) Demo.campus
    = Returned (role_response (JStr "moderator"))
  ∧ claims_of w1 "lee" = Some flags
  ∧ flags !! "approved" = None
  ∧ users w1 !! "lee" = Some after
  ∧ after.["approved"] = JBool true
  ∧ claims_of w2 "lee" = Some flags
  ∧ users w2 !! "lee"
    = Some (<["customClaims" := JClaims flags]> (<["updatedAt" := JTime 101]> after)).
Proof.
  intros data before after flags w1 w2.
  split_and!; vm_compute; reflexivity.
Qed.

(* ===================================================================== *)
(** ** The order of the two writes *)
(* ===================================================================== *)

(** A deployment where identity ["zoe"] exists but her user document does
    not. *)
Definition orphaned : World :=
  {| firestore := firestore Demo.campus;
     identities := <["zoe" := Demo.account "zoe" None]> (identities Demo.campus);
     clock := clock Demo.campus;
     effects := [] |}.

(** [approveUser] commits the document write first and attaches the
    claims after it; when the document write fails, nothing is attached. *)
Lemma approveUser_writes_document_first :
  let approve_luc := Some ({[ "userId" := JStr "luc"; "approved" := JBool true ]} : obj) in
  let approve_zoe := Some ({[ "userId" := JStr "zoe"; "approved" := JBool true ]} : obj) in
  effects (exec (approveUser approve_luc Demo.as_root) Demo.campus)
  = [ DocUpdate (DocRef "users" "luc") {[ "approved" := JBool true; "updatedAt" := JTime 100 ]};
      ClaimsSet "luc" {[ "admin" := false; "moderator" := false;
                         "lecturer" := true; "approved" := true ]} ]
  ∧ approveUser approve_zoe Demo.as_root orphaned
    = (Thrown (HttpsError Internal "Document not found in users with ID: zoe"), orphaned)
  ∧ is_Some (identities orphaned !! "zoe")
  ∧ claims_of (exec (approveUser approve_zoe Demo.as_root) orphaned) "zoe" = None.
Proof.
  intros approve_luc approve_zoe.
  split_and!; try (vm_compute; reflexivity).
  vm_compute. eauto.
Qed.

Lemma onUserUpdate_order event w :
  strict_neq (upd_before event).["role"] (upd_after event).["role"] = true →
  is_Some (identities w !! upd_userId event) →
  let userId := upd_userId event in
  let c := role_flags (upd_after event).["role"] in
  let w' := exec (onUserUpdate event) w in
  claims_of w' userId = Some c
  ∧ match stored w "users" (JStr userId) with
    | Some _ =>
        ∃ patch, patch !! "customClaims" = Some (JClaims c)
          ∧ effects w' = effects w ++ [ClaimsSet userId c;
                                       DocUpdate (DocRef "users" userId) patch]
    | None => effects w' = effects w ++ [ClaimsSet userId c]
    end.
Proof.
  intros Hchanged Hid userId c w'.
  split; [by apply onUserUpdate_claims|].
  unfold w', exec. rewrite onUserUpdate_run. cbn [snd].
  unfold after_onUserUpdate. rewrite Hchanged, decide_True by done.
  fold userId c. rewrite stored_claims_attached.
  destruct (stored w "users" (JStr userId)) as [old|].
  - eexists. split; [|unfold doc_updated; rewrite effects_doc_written,
                        effects_claims_attached, <- app_assoc by done; done].
    by rewrite mirror_patch_lookup.
  - by apply effects_claims_attached.
Qed.

Lemma onUserCreate_order event w :
  (crt_data event).["role"] = JStr "admin" →
  is_Some (identities w !! crt_userId event) →
  let userId := crt_userId event in
  let c := admin_creation_claims (JStr "admin") in
  let w' := exec (onUserCreate event) w in
  claims_of w' userId = Some c
  ∧ match stored w "users" (JStr userId) with
    | Some _ =>
        ∃ patch, patch !! "customClaims" = Some (JClaims c)
          ∧ effects w' = effects w ++ [ClaimsSet userId c;
                                       DocUpdate (DocRef "users" userId) patch]
    | None => effects w' = effects w ++ [ClaimsSet userId c]
    end.
Proof.
  intros Hrole Hid userId c w'.
  unfold w', exec. rewrite onUserCreate_run. cbn [snd].
  unfold after_onUserCreate. rewrite Hrole.
  change (strict_eq (JStr "admin") (JStr "admin")) with true. cbv iota.
  rewrite decide_True by done.
  fold userId c. rewrite stored_claims_attached.
  destruct (stored w "users" (JStr userId)) as [old|].
  - split.
    { unfold claims_of, doc_updated. rewrite identities_doc_written.
      by apply claims_of_attached. }
    eexists. split; [|unfold doc_updated; rewrite effects_doc_written,
                        effects_claims_attached, <- app_assoc by done; done].
    by rewrite create_patch_lookup.
  - split; [by apply claims_of_attached | by apply effects_claims_attached].
Qed.

Lemma createFirstAdmin_order newUid data context w d :
  data = Some d → complete d → ¬ admin_exists w → acceptable newUid d w →
  ∃ doc, doc !! "customClaims" = Some (JClaims first_admin_claims)
    ∧ effects (exec (createFirstAdmin newUid data context) w)
      = effects w ++ [UserCreated newUid;
                      ClaimsSet newUid first_admin_claims;
                      DocSet (DocRef "users" newUid) doc].
Proof.
  intros Hd Hc Hno Hacc. unfold exec.
  rewrite (createFirstAdmin_run newUid data context w d Hd Hc Hno Hacc). simpl.
  eexists. split; [by apply first_admin_doc_lookup|].
  rewrite effects_claims_attached.
  - simpl. by rewrite <- !app_assoc.
  - simpl. rewrite lookup_insert_eq. eauto.
Qed.

Lemma approveUser_order data context w d old :
  admin_caller context →
  data = Some d →
  stored_user w d.["userId"] = Some old →
  truthy d.["approved"] = true →
  ∀ s, d.["userId"] = JStr s → is_Some (identities w !! s) →
  ∃ patch, patch !! "customClaims" = None
    ∧ effects (exec (approveUser data context) w)
      = effects w ++ [DocUpdate (DocRef "users" s) patch;
                      ClaimsSet s (approval_claims old.["role"])].
Proof.
  intros Hadmin Hd Hold Htr s Hs Hid.
  destruct (approveUser_run data context w d old) as (s' & Hs' & Hne & Hrun);
    try done.
  { intros Hu. by rewrite Hu in Htr. }
  assert (s' = s) as -> by congruence.
  unfold exec. simpl in Hrun. rewrite Hrun, Htr, decide_True by done. simpl.
  eexists. split; [|rewrite effects_claims_attached by done; unfold doc_updated;
                    rewrite effects_doc_written, <- app_assoc; done].
  rewrite approve_patch_lookup. by rewrite !decide_False.
Qed.

Lemma approveUser_no_document data context w d :
  data = Some d → stored_user w d.["userId"] = None →
  exec (approveUser data context) w = w.
Proof.
  intros Hd Hnone.
  destruct (approveUser_cases data context w)
    as [(_ & d' & old & Hd' & Hold & _) | [msg Hthrown]].
  - congruence.
  - unfold exec. by rewrite Hthrown.
Qed.

(** C4, as the code has it.  The role-change reaction, the user-create
    reaction for an admin and the first-admin bootstrap attach the claims
    record first and write the mirror field [customClaims] after it, with
    the same record; when the reaction's document write fails because the
    document is gone, the claims stay attached.  [approveUser] goes the
    other way round: it writes the document first, without a mirror field,
    and attaches the claims after; when the document is missing it
    attaches nothing. *)
Theorem claims_then_mirror :
  (∀ event w,
     strict_neq (upd_before event).["role"] (upd_after event).["role"] = true →
     is_Some (identities w !! upd_userId event) →
     let c := role_flags (upd_after event).["role"] in
     let w' := exec (onUserUpdate event) w in
     claims_of w' (upd_userId event) = Some c
     ∧ match stored w "users" (JStr (upd_userId event)) with
       | Some _ =>
           ∃ patch, patch !! "customClaims" = Some (JClaims c)
             ∧ effects w' = effects w ++ [ClaimsSet (upd_userId event) c;
                                          DocUpdate (DocRef "users" (upd_userId event)) patch]
       | None => effects w' = effects w ++ [ClaimsSet (upd_userId event) c]
       end)
  ∧ (∀ event w,
       (crt_data event).["role"] = JStr "admin" →
       is_Some (identities w !! crt_userId event) →
       let c := admin_creation_claims (JStr "admin") in
       let w' := exec (onUserCreate event) w in
       claims_of w' (crt_userId event) = Some c
       ∧ match stored w "users" (JStr (crt_userId event)) with
         | Some _ =>
             ∃ patch, patch !! "customClaims" = Some (JClaims c)
               ∧ effects w' = effects w ++ [ClaimsSet (crt_userId event) c;
                                            DocUpdate (DocRef "users" (crt_userId event)) patch]
         | None => effects w' = effects w ++ [ClaimsSet (crt_userId event) c]
         end)
  ∧ (∀ newUid data context w d,
       data = Some d → complete d → ¬ admin_exists w → acceptable newUid d w →
       ∃ doc, doc !! "customClaims" = Some (JClaims first_admin_claims)
         ∧ effects (exec (createFirstAdmin newUid data context) w)
           = effects w ++ [UserCreated newUid;
                           ClaimsSet newUid first_admin_claims;
                           DocSet (DocRef "users" newUid) doc])
  ∧ (∀ data context w d old s,
       admin_caller context → data = Some d →
       stored_user w d.["userId"] = Some old →
       truthy d.["approved"] = true →
       d.["userId"] = JStr s → is_Some (identities w !! s) →
       ∃ patch, patch !! "customClaims" = None
         ∧ effects (exec (approveUser data context) w)
           = effects w ++ [DocUpdate (DocRef "users" s) patch;
                           ClaimsSet s (approval_claims old.["role"])])
  ∧ (∀ data context w d,
       data = Some d → stored_user w d.["userId"] = None →
       exec (approveUser data context) w = w).
Proof.
  split_and!.
  - apply onUserUpdate_order.
  - apply onUserCreate_order.
  - apply createFirstAdmin_order.
  - intros data context w d old s Hadmin Hd Hold Htr Hs Hid.
    by apply (approveUser_order data context w d old).
  - apply approveUser_no_document.
Qed.

(** The four operations on the demo deployments, with the document in
    place and with the document gone. *)
Lemma claims_then_mirror_witness :
  let before := Demo.user_doc "lee" "lecturer" true in
  let after := <["role" := JStr "moderator"]> before in
  let flags := role_flags (JStr "moderator") in
  let boss : obj := {[ "role" := JStr "admin" ]} in
  let eve : obj := {[ "email" := JStr "eve@campus.example";
                      "password" := JStr "correct horse";
                      "displayName" := JStr "Eve" ]} in
  let approve_luc : obj := {[ "userId" := JStr "luc"; "approved" := JBool true ]} in
  let approve_zoe : obj := {[ "userId" := JStr "zoe"; "approved" := JBool true ]} in
  (∃ patch, patch !! "customClaims" = Some (JClaims flags)
     ∧ effects (exec (onUserUpdate (UpdateEvent "lee" before after)) Demo.campus)
       = [ClaimsSet "lee" flags; DocUpdate (DocRef "users" "lee") patch])
  ∧ (claims_of (exec (onUserUpdate (UpdateEvent "zoe" before after)) orphaned) "zoe"
       = Some flags
     ∧ effects (exec (onUserUpdate (UpdateEvent "zoe" before after)) orphaned)
       = [ClaimsSet "zoe" flags])
  ∧ (claims_of (exec (onUserCreate (CreateEvent "zoe" boss)) orphaned) "zoe"
       = Some (admin_creation_claims (JStr "admin"))
     ∧ effects (exec (onUserCreate (CreateEvent "zoe" boss)) orphaned)
       = [ClaimsSet "zoe" (admin_creation_claims (JStr "admin"))])
  ∧ (∃ doc, doc !! "customClaims" = Some (JClaims first_admin_claims)
       ∧ effects (exec (createFirstAdmin "eve" (Some eve) (Context None)) Demo.fresh_campus)
         = [UserCreated "eve"; ClaimsSet "eve" first_admin_claims;
            DocSet (DocRef "users" "eve") doc])
  ∧ (∃ patch, patch !! "customClaims" = None
       ∧ effects (exec (approveUser (Some approve_luc) Demo.as_root) Demo.campus)
         = [DocUpdate (DocRef "users" "luc") patch;
            ClaimsSet "luc" (approval_claims (JStr "lecturer"))])
  ∧ exec (approveUser (Some approve_zoe) Demo.as_root) orphaned = orphaned.
Proof.
  intros before after flags boss eve approve_luc approve_zoe.
  destruct claims_then_mirror as (Hupdate & Hcreate & Hfirst & Happrove & Hmissing).
  assert (Hroot : admin_caller Demo.as_root).
  { exists (AuthInfo "root" {[ "admin" := JBool true ]}). split; reflexivity. }
  split.
  { destruct (Hupdate (UpdateEvent "lee" before after) Demo.campus) as [_ Hlog].
    - reflexivity.
    - vm_compute. eauto.
    - cbn [upd_userId upd_after] in Hlog.
      replace (stored Demo.campus "users" (JStr "lee")) with (Some before) in Hlog
        by (vm_compute; reflexivity).
      exact Hlog. }
  split.
  { destruct (Hupdate (UpdateEvent "zoe" before after) orphaned) as [Hclaims Hlog].
    - reflexivity.
    - vm_compute. eauto.
    - cbn [upd_userId upd_after] in Hlog, Hclaims.
      replace (stored orphaned "users" (JStr "zoe")) with (@None obj) in Hlog
        by (vm_compute; reflexivity).
      split; [exact Hclaims | exact Hlog]. }
  split.
  { destruct (Hcreate (CreateEvent "zoe" boss) orphaned) as [Hclaims Hlog].
    - reflexivity.
    - vm_compute. eauto.
    - cbn [crt_userId] in Hlog, Hclaims.
      replace (stored orphaned "users" (JStr "zoe")) with (@None obj) in Hlog
        by (vm_compute; reflexivity).
      split; [exact Hclaims | exact Hlog]. }
  split.
  { apply (Hfirst "eve" (Some eve) (Context None) Demo.fresh_campus eve).
    - reflexivity.
    - repeat split.
    - intros (id & doc & Hdoc & Hr). revert Hdoc Hr.
      unfold users, collection, Demo.fresh_campus. simpl.
      rewrite lookup_singleton_eq. simpl.
      intros [<- <-]%lookup_singleton_Some. vm_compute. discriminate.
    - split; [reflexivity|]. split; [reflexivity|]. split; [reflexivity|].
      split; [|split; [discriminate | reflexivity]].
      apply (bool_decide_unpack _). vm_compute. exact I. }
  split.
  { apply (Happrove (Some approve_luc) Demo.as_root Demo.campus approve_luc
             (Demo.user_doc "luc" "lecturer" false) "luc").
    - exact Hroot.
    - reflexivity.
    - vm_compute. reflexivity.
    - reflexivity.
    - reflexivity.
    - vm_compute. eauto. }
  apply (Hmissing (Some approve_zoe) Demo.as_root orphaned approve_zoe).
  - reflexivity.
  - vm_compute. reflexivity.
Defined.

(* ===================================================================== *)
(** ** assessments/api.js: how the callables run *)
(* ===================================================================== *)

Definition assessment_doc (d : obj) (userId : string) : obj :=
  {[ "title" := d.["title"];
     "description" := or_else d.["description"] (JStr EmptyString);
     "content" := d.["content"];
     "type" := d.["type"];
     "status" := JStr "draft";
     "lecturerId" := JStr userId;
     "moderatorId" := JNull;
     "feedback" := JNull;
     "createdAt" := JServerTimestamp;
     "updatedAt" := JServerTimestamp ]}.

Definition created_response (autoId : string) : obj :=
  {[ "success" := JBool true;
     "message" := JStr "Assessment created successfully";
     "assessmentId" := JStr autoId ]}.

Lemma truthy_defined v : truthy v = true → v ≠ JUndefined.
Proof. by intros Ht ->. Qed.

Lemma or_else_defined v s : or_else v (JStr s) ≠ JUndefined.
Proof. unfold or_else. destruct (truthy v) eqn:E; [by apply truthy_defined | done]. Qed.

Lemma createDoc_added autoId c data id w :
  truthy id = false → Sdk.storable data →
  autoId ≠ EmptyString → collection w c !! autoId = None →
  createDoc autoId c data id w
  = (Returned (DocRef c autoId),
     doc_written (DocRef c autoId) (stamped w data)
       (DocSet (DocRef c autoId) (stamped w data)) w).
Proof.
  intros Hid Hst Hne Hfresh. unfold createDoc. rewrite try_rethrow, Hid.
  unfold bind, Sdk.add. rewrite decide_True by done. by rewrite decide_True.
Qed.

(** A caller the role check turns down gets the message of the
    ['permission-denied'] error under the code ['internal']. *)
Lemma createAssessment_turned_down autoId data context w caller :
  auth context = Some caller →
  verifyUserRole (JStr (uid caller)) (RoleArray ["lecturer"; "admin"]) w = (Returned false, w) →
  createAssessment autoId data context w
  = (Thrown (HttpsError Internal "Only lecturers can create assessments."), w).
Proof.
  intros Hauth Hverify. unfold createAssessment, try_catch. rewrite Hauth.
  by rewrite (bind_returned _ _ _ _ _ Hverify).
Qed.

Lemma createAssessment_unapproved autoId data context w caller user :
  auth context = Some caller →
  stored_user w (JStr (uid caller)) = Some user →
  user.["role"] = JStr "lecturer" →
  user.["approved"] ≠ JBool true →
  createAssessment autoId data context w
  = (Thrown (HttpsError Internal "Only lecturers can create assessments."), w).
Proof.
  intros Hauth Huser Hrole Happ.
  apply (createAssessment_turned_down _ _ _ _ caller Hauth).
  rewrite (verifyUserRole_found _ _ _ _ Huser). f_equal. f_equal.
  rewrite Hrole. simpl.
  destruct (strict_eq user.["approved"] (JBool true)) eqn:E; [|done].
  by apply strict_eq_bool_true in E.
Qed.


Lemma createAssessment_run autoId data context w caller user d :
  auth context = Some caller →
  stored_user w (JStr (uid caller)) = Some user →
  access_granted user (RoleArray ["lecturer"; "admin"]) →
  data = Some d →
  truthy d.["title"] = true → truthy d.["content"] = true → truthy d.["type"] = true →
  autoId ≠ EmptyString → collection w "assessments" !! autoId = None →
  let doc := stamped w (assessment_doc d (uid caller)) in
  createAssessment autoId data context w
  = (Returned (created_response autoId),
     doc_written (DocRef "assessments" autoId) doc
       (DocSet (DocRef "assessments" autoId) doc) w).
Proof.
  intros Hauth Huser Hacc -> Ht Hc Hty Hne Hfresh. simpl.
  unfold createAssessment, try_catch. rewrite Hauth.
  rewrite (bind_returned _ _ _ _ _ (access_granted_verify _ _ _ _ Huser Hacc)).
  simpl. rewrite !bind_ret. rewrite Ht, Hc, Hty. simpl. rewrite bind_ret.
  fold (assessment_doc d (uid caller)).
  assert (Hst : Sdk.storable (assessment_doc d (uid caller))).
  { unfold assessment_doc. storable; auto using truthy_defined, or_else_defined. }
  by rewrite (bind_returned _ _ _ _ _
                (createDoc_added autoId "assessments" _ JNull w eq_refl Hst Hne Hfresh)).
Qed.

Lemma assessment_doc_fields w d userId :
  let doc := stamped w (assessment_doc d userId) in
  doc.["status"] = JStr "draft"
  ∧ doc.["lecturerId"] = JStr userId
  ∧ doc.["moderatorId"] = JNull
  ∧ doc.["feedback"] = JNull.
Proof.
  simpl. unfold prop. rewrite !stamped_lookup. unfold assessment_doc.
  split_and!.
  - rewrite !lookup_insert_ne by done. by rewrite lookup_insert_eq.
  - rewrite !lookup_insert_ne by done. by rewrite lookup_insert_eq.
  - rewrite !lookup_insert_ne by done. by rewrite lookup_insert_eq.
  - rewrite !lookup_insert_ne by done. by rewrite lookup_insert_eq.
Qed.

(** An approved lecturer's call with title, content and type creates the
    assessment as a draft owned by the caller. *)
Lemma createAssessment_creates autoId data context w caller user d :
  auth context = Some caller →
  stored_user w (JStr (uid caller)) = Some user →
  user.["role"] = JStr "lecturer" → user.["approved"] = JBool true →
  data = Some d →
  truthy d.["title"] = true → truthy d.["content"] = true → truthy d.["type"] = true →
  autoId ≠ EmptyString → collection w "assessments" !! autoId = None →
  let w' := exec (createAssessment autoId data context) w in
  result (createAssessment autoId data context) w = Returned (created_response autoId)
  ∧ ∃ doc, collection w' "assessments" !! autoId = Some doc
      ∧ doc.["status"] = JStr "draft"
      ∧ doc.["lecturerId"] = JStr (uid caller)
      ∧ doc.["moderatorId"] = JNull
      ∧ doc.["feedback"] = JNull.
Proof.
  intros Hauth Huser Hrole Happ Hd Ht Hc Hty Hne Hfresh.
  assert (Hacc : access_granted user (RoleArray ["lecturer"; "admin"])).
  { split; [|by left]. exists "lecturer". split; [done|]. simpl. apply list_elem_of_here. }
  unfold exec, result.
  rewrite (createAssessment_run autoId data context w caller user d) by done.
  simpl. split; [done|].
  eexists. split.
  { rewrite collection_doc_written. cbn [ref_collection ref_id].
    rewrite decide_True by done. by rewrite lookup_insert_eq. }
  apply assessment_doc_fields.
Qed.

(** C6. On the demo deployment the lecturer who is not approved calls
    [createAssessment]: the function raises ['permission-denied'] inside
    its [try] block and its own [catch] turns it into ['internal'], so
    the caller receives [Internal], not [PermissionDenied]; no assessment
    is created.  The approved lecturer's call creates the draft. *)
Theorem createAssessment_denial_becomes_internal :
  let data := Some ({[ "title" := JStr "Logic quiz"; "content" := JStr "Q1 ...";
                       "type" := JStr "quiz" ]} : obj) in
  let luc := Demo.as_user "luc" ∅ in
  let lee := Demo.as_user "lee" {[ "lecturer" := JBool true; "approved" := JBool true ]} in
  createAssessment "x2" data luc Demo.campus
  = (Thrown (HttpsError Internal "Only lecturers can create assessments."), Demo.campus)
  ∧ (∀ msg, result (createAssessment "x2" data luc) Demo.campus
            ≠ Thrown (HttpsError PermissionDenied msg))
  ∧ result (createAssessment "x2" data lee) Demo.campus = Returned (created_response "x2")
  ∧ ∃ doc, collection (exec (createAssessment "x2" data lee) Demo.campus) "assessments" !! "x2"
           = Some doc
      ∧ doc.["status"] = JStr "draft" ∧ doc.["lecturerId"] = JStr "lee"
      ∧ doc.["moderatorId"] = JNull ∧ doc.["feedback"] = JNull.
Proof.
  intros data luc lee.
  assert (Hdenied := createAssessment_unapproved "x2" data luc Demo.campus
                       (AuthInfo "luc" ∅) (Demo.user_doc "luc" "lecturer" false)
                       eq_refl eq_refl eq_refl ltac:(discriminate)).
  split; [exact Hdenied|]. split.
  { intros msg. unfold result. rewrite Hdenied. discriminate. }
  apply (createAssessment_creates "x2" data lee Demo.campus
           (AuthInfo "lee" {[ "lecturer" := JBool true; "approved" := JBool true ]})
           (Demo.user_doc "lee" "lecturer" true)
           {[ "title" := JStr "Logic quiz"; "content" := JStr "Q1 ...";
              "type" := JStr "quiz" ]});
    try reflexivity.
  discriminate.
Qed.

Definition validStatuses : list string := ["approved"; "rejected"; "pending_changes"].

(** The patch of a moderation without feedback. *)
Definition moderation_patch (status : jsval) (userId : string) : obj :=
  {[ "status" := status;
     "moderatorId" := JStr userId;
     "updatedAt" := JServerTimestamp ]}.

Definition moderated_response (status : jsval) : obj :=
  {[ "success" := JBool true;
     "message" := JStr ("Assessment " +:+ to_string status +:+ " successfully") ]}.

Lemma moderation_patch_lookup w status userId k :
  status ≠ JServerTimestamp →
  stamped w (moderation_patch status userId) !! k =
    if decide (k = "status") then Some status
    else if decide (k = "moderatorId") then Some (JStr userId)
    else if decide (k = "updatedAt") then Some (JTime (clock w))
    else None.
Proof.
  intros Hs. rewrite stamped_lookup. unfold moderation_patch.
  destruct (decide (k = "status")) as [->|H1].
  { rewrite lookup_insert_eq. by destruct status. }
  rewrite lookup_insert_ne by done.
  destruct (decide (k = "moderatorId")) as [->|H2].
  { by rewrite lookup_insert_eq. }
  rewrite lookup_insert_ne by done.
  destruct (decide (k = "updatedAt")) as [->|H3].
  { by rewrite lookup_singleton_eq. }
  by rewrite lookup_singleton_ne.
Qed.

(** A status outside the three valid ones: the ['invalid-argument'] error
    reaches the caller as ['internal'], and nothing is written. *)
Lemma moderateAssessment_invalid_status data context w caller user d :
  auth context = Some caller →
  stored_user w (JStr (uid caller)) = Some user →
  access_granted user (RoleArray ["moderator"; "admin"]) →
  data = Some d →
  truthy d.["assessmentId"] = true → truthy d.["status"] = true →
  includes validStatuses d.["status"] = false →
  moderateAssessment data context w
  = (Thrown (HttpsError Internal
               "Status must be one of: approved, rejected, pending_changes"), w).
Proof.
  intros Hauth Huser Hacc -> Hid Hst Hinvalid.
  unfold moderateAssessment, try_catch. rewrite Hauth.
  rewrite (bind_returned _ _ _ _ _ (access_granted_verify _ _ _ _ Huser Hacc)).
  simpl. rewrite !bind_ret. rewrite Hid, Hst. simpl. rewrite bind_ret.
  fold validStatuses. by rewrite Hinvalid.
Qed.

Lemma moderateAssessment_run data context w caller user d old :
  auth context = Some caller →
  stored_user w (JStr (uid caller)) = Some user →
  access_granted user (RoleArray ["moderator"; "admin"]) →
  data = Some d →
  includes validStatuses d.["status"] = true →
  truthy d.["feedback"] = false →
  stored w "assessments" d.["assessmentId"] = Some old →
  ∃ s, d.["assessmentId"] = JStr s ∧
    moderateAssessment data context w
    = (Returned (moderated_response d.["status"]),
       doc_updated (DocRef "assessments" s)
         (moderation_patch d.["status"] (uid caller)) old w).
Proof.
  intros Hauth Huser Hacc -> Hvalid Hfb Hold.
  assert (Hne : EmptyString ∉ validStatuses).
  { unfold validStatuses.
    by repeat (apply not_elem_of_cons; split; [done|]); apply not_elem_of_nil. }
  destruct (includes_truthy _ _ Hne Hvalid) as [Htr Hdef].
  destruct (updateDoc_returned "assessments" d.["assessmentId"]
              (moderation_patch d.["status"] (uid caller)) old w)
    as (s & Hs & Hsne & Hupd); [by unfold moderation_patch; storable | done |].
  exists s. split; [done|].
  unfold moderateAssessment, try_catch. rewrite Hauth.
  rewrite (bind_returned _ _ _ _ _ (access_granted_verify _ _ _ _ Huser Hacc)).
  simpl. rewrite !bind_ret. rewrite Hs at 1. rewrite (truthy_nonempty s Hsne), Htr.
  simpl. rewrite bind_ret. fold validStatuses. rewrite Hvalid. simpl. rewrite bind_ret.
  rewrite Hfb. fold (moderation_patch d.["status"] (uid caller)).
  by rewrite (bind_returned _ _ _ _ _ Hupd).
Qed.

(** A valid moderation without feedback writes the status, the moderator
    and [updatedAt], and leaves every other field, [feedback] included,
    as it was. *)
Lemma moderateAssessment_writes data context w caller user d old :
  auth context = Some caller →
  stored_user w (JStr (uid caller)) = Some user →
  access_granted user (RoleArray ["moderator"; "admin"]) →
  data = Some d →
  includes validStatuses d.["status"] = true →
  truthy d.["feedback"] = false →
  stored w "assessments" d.["assessmentId"] = Some old →
  let w' := exec (moderateAssessment data context) w in
  result (moderateAssessment data context) w = Returned (moderated_response d.["status"])
  ∧ ∃ doc, stored w' "assessments" d.["assessmentId"] = Some doc
      ∧ doc.["status"] = d.["status"]
      ∧ doc.["moderatorId"] = JStr (uid caller)
      ∧ doc.["updatedAt"] = JTime (clock w)
      ∧ ∀ k, k ≠ "status" → k ≠ "moderatorId" → k ≠ "updatedAt" → doc !! k = old !! k.
Proof.
  intros Hauth Huser Hacc Hd Hvalid Hfb Hold.
  destruct (moderateAssessment_run data context w caller user d old)
    as (s & Hs & Hrun); try done.
  assert (Hnts : d.["status"] ≠ JServerTimestamp).
  { apply includes_true in Hvalid as (? & -> & _). done. }
  apply stored_Some in Hold as (s' & Hs' & Hne & _ & _).
  assert (s' = s) as -> by congruence.
  unfold exec, result. rewrite Hrun. simpl. split; [done|].
  eexists. split.
  { rewrite Hs. unfold doc_updated. by apply stored_doc_written. }
  split_and!.
  - apply prop_patch. by rewrite moderation_patch_lookup.
  - apply prop_patch. by rewrite moderation_patch_lookup.
  - apply prop_patch. by rewrite moderation_patch_lookup.
  - intros k H1 H2 H3. rewrite lookup_union_r; [done|].
    rewrite moderation_patch_lookup by done. by rewrite !decide_False.
Qed.

(** C7. On the demo deployment the approved moderator calls
    [moderateAssessment] with status ["shipped"]: the function raises
    ['invalid-argument'] inside its [try] block and its own [catch] turns
    it into ['internal'], so the caller receives [Internal], not
    [InvalidArgument]; the assessment stays as it was.  With status
    ["approved"] and no feedback the call writes the status, the caller
    as moderator and [updatedAt], and leaves [feedback] as it was. *)
Theorem moderateAssessment_invalid_becomes_internal :
  let mo := Demo.as_user "mo" {[ "moderator" := JBool true; "approved" := JBool true ]} in
  let ship := Some ({[ "assessmentId" := JStr "x1"; "status" := JStr "shipped" ]} : obj) in
  let approve := Some ({[ "assessmentId" := JStr "x1"; "status" := JStr "approved" ]} : obj) in
  moderateAssessment ship mo Demo.campus
  = (Thrown (HttpsError Internal
               "Status must be one of: approved, rejected, pending_changes"), Demo.campus)
  ∧ (∀ msg, result (moderateAssessment ship mo) Demo.campus
            ≠ Thrown (HttpsError InvalidArgument msg))
  ∧ result (moderateAssessment approve mo) Demo.campus
    = Returned (moderated_response (JStr "approved"))
  ∧ collection (exec (moderateAssessment approve mo) Demo.campus) "assessments" !! "x1"
    = Some (<["status" := JStr "approved"]>
              (<["moderatorId" := JStr "mo"]>
                 (<["updatedAt" := JTime 100]> Demo.draft)))
  ∧ (<["status" := JStr "approved"]>
       (<["moderatorId" := JStr "mo"]>
          (<["updatedAt" := JTime 100]> Demo.draft))).["feedback"] = Demo.draft.["feedback"].
Proof.
  intros mo ship approve.
  assert (Hacc : access_granted (Demo.user_doc "mo" "moderator" true)
                   (RoleArray ["moderator"; "admin"])).
  { split; [|by left]. exists "moderator". split; [done|]. simpl. apply list_elem_of_here. }
  assert (Hrefused := moderateAssessment_invalid_status ship mo Demo.campus
                        (AuthInfo "mo" {[ "moderator" := JBool true; "approved" := JBool true ]})
                        (Demo.user_doc "mo" "moderator" true)
                        {[ "assessmentId" := JStr "x1"; "status" := JStr "shipped" ]}
                        eq_refl eq_refl Hacc eq_refl eq_refl eq_refl eq_refl).
  split; [exact Hrefused|]. split.
  { intros msg. unfold result. rewrite Hrefused. discriminate. }
  split_and!; vm_compute; reflexivity.
Qed.

(* ===================================================================== *)
(** ** The read endpoints and the remaining helpers *)
(* ===================================================================== *)

(** The answer [{ success: true, <name>: item }] of an endpoint that
    returns one document. *)
Record one_answer := OneAnswer { one_success : bool; one_item : obj }.

(** The answer [{ success: true, <name>: items }] of an endpoint that
    returns an array of documents. *)
Record many_answer := ManyAnswer { many_success : bool; many_items : list obj }.

(** [if (c) conditions.push(x)] *)
Definition push_if {A} (c : bool) (x : A) (l : list A) : list A :=
  if c then l ++ [x] else l.

(** users/api.js *)

Definition getUserProfile (data : option obj) (context : context) : M one_answer :=
  try_catch
    (match auth context with
     | None =>
         throw (HttpsError Unauthenticated "You must be logged in to get a user profile.")
     | Some caller =>
         let* d := properties data in
         let userId := or_else d.["userId"] (JStr (uid caller)) in
         let* user := getDocById "users" userId in
         let user := delete "password" user in
         ret (OneAnswer true user)
     end)
    (λ error, throw (HttpsError Internal (message error))).

Definition getUsers (data : option obj) (context : context) : M many_answer :=
  try_catch
    (match auth context with
     | None =>
         throw (HttpsError Unauthenticated "You must be logged in to get users.")
     | Some caller =>
         let isAdmin := (token caller).["admin"] in
         throw_if (negb (truthy isAdmin))
           (HttpsError PermissionDenied "Only admins can view all users.") ;;;
         let* d := properties data in
         let conditions := [] in
         let conditions :=
           push_if (truthy d.["role"])
             (Sdk.Condition "role" Sdk.OpEq d.["role"]) conditions in
         let conditions :=
           push_if (strict_neq d.["approved"] JUndefined)
             (Sdk.Condition "approved" Sdk.OpEq d.["approved"]) conditions in
         let* users := queryDocs "users" conditions in
         let users := (λ user, delete "password" user) <$> users in
         ret (ManyAnswer true users)
     end)
    (λ error, throw (HttpsError Internal (message error))).

(** assessments/api.js *)

Definition getAssessments (data : option obj) (context : context) : M many_answer :=
  try_catch
    (match auth context with
     | None =>
         throw (HttpsError Unauthenticated "You must be logged in to get assessments.")
     | Some caller =>
         let* d := properties data in
         let conditions := [] in
         let conditions :=
           push_if (truthy d.["status"])
             (Sdk.Condition "status" Sdk.OpEq d.["status"]) conditions in
         let conditions :=
           push_if (truthy d.["lecturerId"])
             (Sdk.Condition "lecturerId" Sdk.OpEq d.["lecturerId"]) conditions in
         let conditions :=
           push_if (truthy d.["moderatorId"])
             (Sdk.Condition "moderatorId" Sdk.OpEq d.["moderatorId"]) conditions in
         let* assessments := queryDocs "assessments" conditions in
         ret (ManyAnswer true assessments)
     end)
    (λ error, throw (HttpsError Internal (message error))).

Definition getAssessmentById (data : option obj) (context : context) : M one_answer :=
  try_catch
    (match auth context with
     | None =>
         throw (HttpsError Unauthenticated "You must be logged in to get an assessment.")
     | Some caller =>
         let* d := properties data in
         let assessmentId := d.["assessmentId"] in
         throw_if (negb (truthy assessmentId))
           (HttpsError InvalidArgument "Assessment ID is required.") ;;;
         let* assessment := getDocById "assessments" assessmentId in
         ret (OneAnswer true assessment)
     end)
    (λ error, throw (HttpsError Internal (message error))).

(** assessments/onCreate.js and assessments/onUpdate.js.  Both reactions
    only look users up to log their names. *)

Record assessment_created := AssessmentCreated {
  acr_assessmentId : string; acr_data : obj
}.

Record assessment_updated := AssessmentUpdated {
  aup_assessmentId : string; aup_before : obj; aup_after : obj
}.

Definition onNewAssessment (event : assessment_created) : M unit :=
  try_catch
    (let assessmentData := acr_data event in
     (if truthy assessmentData.["lecturerId"] then
        try_catch
          (let* lecturer := getDocById "users" assessmentData.["lecturerId"] in
           ret tt)
          (λ error, ret tt)
      else ret tt) ;;;
     ret tt)
    (λ error, ret tt).

Definition onAssessmentUpdated (event : assessment_updated) : M unit :=
  try_catch
    (let beforeData := aup_before event in
     let afterData := aup_after event in
     (if strict_neq beforeData.["status"] afterData.["status"] then
        (if truthy afterData.["lecturerId"] then
           try_catch
             (let* lecturer := getDocById "users" afterData.["lecturerId"] in
              ret tt)
             (λ error, ret tt)
         else ret tt) ;;;
        (if truthy afterData.["moderatorId"]
            && strict_neq beforeData.["moderatorId"] afterData.["moderatorId"] then
           try_catch
             (let* moderator := getDocById "users" afterData.["moderatorId"] in
              ret tt)
             (λ error, ret tt)
         else ret tt)
      else ret tt) ;;;
     ret tt)
    (λ error, ret tt).

(** utils/auth.js, [getUserByEmail].  The provider's lookup by address:
    the uid of an identity registered under the address, or an error. *)
Definition lookup_by_email (email : jsval) : M string :=
  λ w, match filter (λ ki, id_email ki.2 = email) (map_to_list (identities w)) with
       | ki :: _ => (Returned ki.1, w)
       | [] =>
           (Thrown (JsError "There is no user record corresponding to the provided identifier."), w)
       end.

(** [null] is [None]. *)
Definition getUserByEmail (email : jsval) : M (option obj) :=
  try_catch
    (let* userRecord_uid := lookup_by_email email in
     let* user := getDocById "users" (JStr userRecord_uid) in
     ret (Some user))
    (λ error, ret None).

(* ===================================================================== *)
(** ** Approval on its own *)
(* ===================================================================== *)

(** The approval rule: [approved] is [true], or the role is ["admin"]. *)
Definition counts_as_approved (user : obj) : Prop :=
  user.["approved"] = JBool true ∨ user.["role"] = JStr "admin".

Lemma approval_check_true user :
  strict_eq user.["approved"] (JBool true) || strict_eq user.["role"] (JStr "admin") = true
  ↔ counts_as_approved user.
Proof.
  by rewrite orb_true_iff, strict_eq_bool_true, strict_eq_str.
Qed.

Lemma isUserApproved_found userId w user :
  stored_user w userId = Some user →
  isUserApproved userId w
  = (Returned (strict_eq user.["approved"] (JBool true)
               || strict_eq user.["role"] (JStr "admin")), w).
Proof.
  intros Hu. unfold isUserApproved.
  erewrite try_returned; [done|].
  rewrite (bind_returned _ _ _ _ _ (getDocById_found _ _ _ _ Hu)).
  by rewrite !prop_with_id.
Qed.

Lemma isUserApproved_missing userId w :
  stored_user w userId = None → isUserApproved userId w = (Returned false, w).
Proof.
  intros Hu. unfold isUserApproved.
  destruct (getDocById_missing _ _ _ Hu) as [e He].
  erewrite try_thrown; [done|]. by rewrite (bind_thrown _ _ _ _ _ He).
Qed.

(** X1. [isUserApproved] always returns a boolean and leaves the world as
    it is; the boolean is [true] exactly when the user is stored and its
    [approved] field is [true] or its role is ["admin"]; an id that names
    no stored user gives [false], not an exception. *)
Theorem isUserApproved_iff (userId : jsval) (w : World) :
  ∃ b : bool,
    isUserApproved userId w = (Returned b, w)
    ∧ (b = true ↔ ∃ user, stored_user w userId = Some user ∧ counts_as_approved user)
    ∧ (stored_user w userId = None → b = false).
Proof.
  destruct (stored_user w userId) as [user|] eqn:Hu.
  - eexists. split; [by apply isUserApproved_found|]. split; [|done].
    rewrite approval_check_true. split.
    + eauto.
    + by intros (? & [= <-] & ?).
  - exists false. split; [by apply isUserApproved_missing|].
    split; [|done]. split; [done|]. by intros (? & ? & _).
Qed.

(** X2. The role check is the approval check and a role test: for every
    user id, set of roles and world, [verifyUserRole] answers [true]
    exactly when [isUserApproved] does and the stored role is one of the
    required roles.  In particular nobody passes a role check without
    counting as approved. *)
Theorem verifyUserRole_is_approval_and_role
    (userId : jsval) (requiredRoles : roles_arg) (w : World) :
  ∃ granted approved : bool,
    verifyUserRole userId requiredRoles w = (Returned granted, w)
    ∧ isUserApproved userId w = (Returned approved, w)
    ∧ (granted = true ↔
         approved = true
         ∧ ∃ user r, stored_user w userId = Some user
                     ∧ user.["role"] = JStr r ∧ r ∈ role_names requiredRoles).
Proof.
  destruct (stored_user w userId) as [user|] eqn:Hu.
  - eexists _, _. split; [by apply verifyUserRole_found|].
    split; [by apply isUserApproved_found|].
    rewrite andb_true_iff, includes_true. split.
    + intros [(r & Hr & Hin) Happ]. split; [done|]. by exists user, r.
    + intros [Happ (user' & r & [= <-] & Hr & Hin)]. split; [|done]. by exists r.
  - exists false, false. split; [by apply verifyUserRole_missing|].
    split; [by apply isUserApproved_missing|]. split; [done|]. by intros [? _].
Qed.

(* ===================================================================== *)
(** ** utils/db.js: writing and reading back *)
(* ===================================================================== *)

Lemma set_returned r data w w' :
  Sdk.set r data w = (Returned tt, w') →
  w' = doc_written r (stamped w data) (DocSet r (stamped w data)) w.
Proof. unfold Sdk.set. case_decide; [|done]. by intros [= <-]. Qed.

Lemma createDoc_returned autoId c data id w r w' :
  createDoc autoId c data id w = (Returned r, w') →
  ref_collection r = c ∧ ref_id r ≠ EmptyString
  ∧ (truthy id = true → id = JStr (ref_id r))
  ∧ w' = doc_written r (stamped w data) (DocSet r (stamped w data)) w.
Proof.
  unfold createDoc. rewrite try_rethrow.
  destruct (truthy id) eqn:Hid.
  - destruct (doc_cases c id w) as [(s & -> & E & Hdoc) | [_ [e He]]].
    2:{ by rewrite (bind_thrown _ _ _ _ _ He). }
    rewrite (bind_returned _ _ _ _ _ Hdoc).
    unfold bind. destruct (Sdk.set (DocRef c s) data w) as [[[]|e] w1] eqn:Hset; [|done].
    intros [= <- <-]. apply set_returned in Hset.
    split_and!; try done. simpl. intros ->. by rewrite String.eqb_refl in E.
  - unfold bind, Sdk.add. case_decide; [|done]. case_decide as Hfresh; [|done].
    intros [= <- <-]. by destruct Hfresh.
Qed.

Lemma stored_written r d e w :
  ref_id r ≠ EmptyString →
  stored (doc_written r d e w) (ref_collection r) (JStr (ref_id r)) = Some d.
Proof. intros Hne. destruct r as [c s]. by apply stored_doc_written. Qed.

Lemma lookup_with_id (d : obj) (id : jsval) (k : string) :
  (d ∪ {["id" := id]}) !! k =
    match d !! k with
    | Some v => Some v
    | None => if decide (k = "id") then Some id else None
    end.
Proof.
  rewrite lookup_union. destruct (d !! k) as [v|] eqn:Hd.
  - by destruct ({["id" := id]} !! k).
  - case_decide as Hk.
    + subst. by rewrite lookup_singleton_eq.
    + by rewrite lookup_singleton_ne.
Qed.

(** X3. Reading back what [createDoc] wrote.  When [createDoc] returns a
    reference, under the id given or under a generated one, [getDocById]
    on that reference returns exactly the fields written, the timestamp
    sentinels replaced by the commit time, and nothing of a document
    stored there before; the document id is added as field [id] unless
    the data has a field [id] of its own, which then wins. *)
Theorem createDoc_then_getDocById
    (autoId c : string) (data : obj) (id : jsval) (w w' : World) (r : docref) :
  createDoc autoId c data id w = (Returned r, w') →
  ∃ got, getDocById c (JStr (ref_id r)) w' = (Returned got, w')
    ∧ (∀ k, k ≠ "id" → got !! k = Sdk.stamp (clock w) <$> data !! k)
    ∧ got !! "id" = match data !! "id" with
                    | Some v => Some (Sdk.stamp (clock w) v)
                    | None => Some (JStr (ref_id r))
                    end.
Proof.
  intros (Hc & Hne & _ & ->)%createDoc_returned. subst c.
  eexists. split.
  { apply getDocById_found. by apply stored_written. }
  split.
  - intros k Hk. rewrite lookup_with_id, stamped_lookup, decide_False by done.
    by destruct (data !! k).
  - rewrite lookup_with_id, stamped_lookup. by destruct (data !! "id").
Qed.

Lemma createDoc_then_getDocById_witness :
  let data : obj := {[ "title" := JStr "t"; "createdAt" := JServerTimestamp ]} in
  let w : World := mkWorld ∅ ∅ 7 [] in
  let w' := exec (createDoc "a1" "notes" data JNull) w in
  ∃ got, getDocById "notes" (JStr "a1") w' = (Returned got, w')
    ∧ got !! "title" = Some (JStr "t")
    ∧ got !! "createdAt" = Some (JTime 7)
    ∧ got !! "id" = Some (JStr "a1").
Proof.
  intros data w w'.
  destruct (createDoc_then_getDocById "a1" "notes" data JNull w w' (DocRef "notes" "a1"))
    as (got & Hget & Hfields & Hid).
  { vm_compute. reflexivity. }
  exists got. split; [exact Hget|].
  split; [|split].
  - rewrite Hfields by discriminate. vm_compute. reflexivity.
  - rewrite Hfields by discriminate. vm_compute. reflexivity.
  - rewrite Hid. vm_compute. reflexivity.
Defined.

Lemma update_unstorable r patch w :
  ¬ Sdk.storable patch → ∃ e, Sdk.update r patch w = (Thrown e, w).
Proof. intros Hn. unfold Sdk.update. rewrite decide_False by done. eauto. Qed.

Lemma updateDoc_inv c id patch w r w' :
  updateDoc c id patch w = (Returned r, w') →
  ∃ old, stored w c id = Some old ∧ id = JStr (ref_id r) ∧ ref_collection r = c
    ∧ ref_id r ≠ EmptyString
    ∧ w' = doc_updated r patch old w.
Proof.
  intros Hrun. destruct (stored w c id) as [old|] eqn:Hold.
  2:{ destruct (updateDoc_thrown c id patch w Hold) as [e He]. congruence. }
  destruct (decide (Sdk.storable patch)) as [Hp|Hp].
  - destruct (updateDoc_returned c id patch old w Hp Hold) as (s & -> & Hne & Heq).
    rewrite Heq in Hrun. injection Hrun as <- <-. by exists old.
  - exfalso. apply stored_Some in Hold as (s & -> & Hne & E & Hold).
    revert Hrun. unfold updateDoc. rewrite try_rethrow.
    rewrite (bind_returned _ _ _ _ _ (doc_returned c s w E)).
    unfold bind at 1. unfold Sdk.get at 1. simpl. rewrite Hold.
    rewrite bool_decide_eq_true_2 by eauto. simpl. rewrite bind_ret.
    destruct (update_unstorable (DocRef c s) patch w Hp) as [e He].
    by rewrite (bind_thrown _ _ _ _ _ He).
Qed.

(** X4. Reading back after [updateDoc].  When [updateDoc] returns, the
    document existed before, and [getDocById] now returns it with the
    fields of the patch written over it (timestamp sentinels replaced by
    the commit time) and every field the patch does not name as it was. *)
Theorem updateDoc_then_getDocById
    (c : string) (id : jsval) (patch : obj) (w w' : World) (r : docref) :
  updateDoc c id patch w = (Returned r, w') →
  ∃ before after,
    getDocById c id w = (Returned before, w)
    ∧ getDocById c id w' = (Returned after, w')
    ∧ (∀ k v, patch !! k = Some v → after !! k = Some (Sdk.stamp (clock w) v))
    ∧ (∀ k, patch !! k = None → after !! k = before !! k).
Proof.
  intros (old & Hold & -> & <- & Hne & ->)%updateDoc_inv.
  exists (old ∪ {["id" := JStr (ref_id r)]}),
         ((stamped w patch ∪ old) ∪ {["id" := JStr (ref_id r)]}).
  split; [by apply getDocById_found|].
  split.
  { apply getDocById_found. unfold doc_updated. by apply stored_written. }
  split.
  - intros k v Hk. rewrite lookup_with_id.
    by rewrite (lookup_union_Some_l _ _ _ (Sdk.stamp (clock w) v))
      by (by rewrite stamped_lookup, Hk).
  - intros k Hk. rewrite !lookup_with_id.
    rewrite lookup_union_r; [done|]. by rewrite stamped_lookup, Hk.
Qed.

Lemma updateDoc_then_getDocById_witness :
  let w : World :=
    mkWorld {[ "notes" := {[ "n1" := {[ "title" := JStr "t"; "body" := JStr "b" ]} ]} ]}
            ∅ 7 [] in
  let patch : obj := {[ "title" := JStr "T"; "updatedAt" := JServerTimestamp ]} in
  let w' := exec (updateDoc "notes" (JStr "n1") patch) w in
  ∃ after, getDocById "notes" (JStr "n1") w' = (Returned after, w')
    ∧ after !! "title" = Some (JStr "T")
    ∧ after !! "updatedAt" = Some (JTime 7)
    ∧ after !! "body" = Some (JStr "b").
Proof.
  intros w patch w'.
  destruct (updateDoc_then_getDocById "notes" (JStr "n1") patch w w' (DocRef "notes" "n1"))
    as (before & after & Hbefore & Hafter & Hpatch & Hkept).
  { vm_compute. reflexivity. }
  exists after. split; [exact Hafter|].
  split; [|split].
  - apply (Hpatch "title" (JStr "T")). vm_compute. reflexivity.
  - apply (Hpatch "updatedAt" JServerTimestamp). vm_compute. reflexivity.
  - rewrite (Hkept "body") by (vm_compute; reflexivity).
    revert Hbefore. rewrite (getDocById_found "notes" (JStr "n1") w
                               {[ "title" := JStr "t"; "body" := JStr "b" ]})
      by (vm_compute; reflexivity).
    intros [= <-]. vm_compute. reflexivity.
Defined.

(** X5. A missing document.  For a non-empty id under which the
    collection stores nothing, [getDocById] and [updateDoc] both throw
    [Error("Document not found in <collection> with ID: <id>")] and
    leave the world as it is: [updateDoc] never creates a document. *)
Theorem missing_document_error (c s : string) (patch : obj) (w : World) :
  s ≠ EmptyString →
  collection w c !! s = None →
  let e := JsError ("Document not found in " +:+ c +:+ " with ID: " +:+ s) in
  getDocById c (JStr s) w = (Thrown e, w)
  ∧ updateDoc c (JStr s) patch w = (Thrown e, w).
Proof.
  intros Hne Hnone. simpl.
  assert (E : String.eqb s EmptyString = false) by by apply String.eqb_neq.
  split.
  - unfold getDocById. rewrite try_rethrow.
    rewrite (bind_returned _ _ _ _ _ (doc_returned c s w E)).
    unfold bind, Sdk.get. simpl. by rewrite Hnone.
  - unfold updateDoc. rewrite try_rethrow.
    rewrite (bind_returned _ _ _ _ _ (doc_returned c s w E)).
    unfold bind at 1. unfold Sdk.get at 1. simpl. rewrite Hnone.
    rewrite bool_decide_eq_false_2 by (by intros [? ?]). simpl.
    by rewrite bind_throw.
Qed.

Lemma missing_document_error_witness :
  getDocById "users" (JStr "nobody") (mkWorld ∅ ∅ 0 [])
  = (Thrown (JsError "Document not found in users with ID: nobody"), mkWorld ∅ ∅ 0 [])
  ∧ updateDoc "users" (JStr "nobody") {[ "role" := JStr "admin" ]} (mkWorld ∅ ∅ 0 [])
    = (Thrown (JsError "Document not found in users with ID: nobody"), mkWorld ∅ ∅ 0 []).
Proof.
  apply (missing_document_error "users" "nobody" {[ "role" := JStr "admin" ]}
           (mkWorld ∅ ∅ 0 [])).
  - discriminate.
  - reflexivity.
Defined.

(* ===================================================================== *)
(** ** Queries *)
(* ===================================================================== *)

(** Every condition carries a value. *)
Definition all_defined (conds : list Sdk.condition) : Prop :=
  Forall (λ cd, Sdk.value cd ≠ JUndefined) conds.

(** [{ id: doc.id, ...doc.data() }] for a stored pair. *)
Definition with_id (kd : string * obj) : obj := kd.2 ∪ {["id" := JStr kd.1]}.

Lemma chain_thrown (q0 : M Sdk.query) conds e w :
  q0 w = (Thrown e, w) →
  foldl (λ q condition, let* q' := q in Sdk.where_ q' condition) q0 conds w
  = (Thrown e, w).
Proof.
  revert q0. induction conds as [|cd conds IH]; intros q0 Hq; simpl; [done|].
  apply IH. by rewrite (bind_thrown _ _ _ _ _ Hq).
Qed.

Lemma chain_returned (q0 : M Sdk.query) c fs conds w :
  q0 w = (Returned (Sdk.Query c fs), w) →
  all_defined conds →
  foldl (λ q condition, let* q' := q in Sdk.where_ q' condition) q0 conds w
  = (Returned (Sdk.Query c (fs ++ conds)), w).
Proof.
  revert q0 fs. induction conds as [|cd conds IH]; intros q0 fs Hq Hdef; simpl.
  { by rewrite app_nil_r. }
  unfold all_defined in Hdef. inversion_clear Hdef as [|? ? Hcd Hrest].
  rewrite (IH _ (fs ++ [cd])); [by rewrite <- app_assoc | | done].
  rewrite (bind_returned _ _ _ _ _ Hq). unfold Sdk.where_.
  by rewrite decide_False.
Qed.

Lemma chain_undefined (q0 : M Sdk.query) c fs conds w :
  q0 w = (Returned (Sdk.Query c fs), w) →
  ¬ all_defined conds →
  foldl (λ q condition, let* q' := q in Sdk.where_ q' condition) q0 conds w
  = (Thrown (JsError "Cannot use undefined as a Firestore value."), w).
Proof.
  revert q0 fs. induction conds as [|cd conds IH]; intros q0 fs Hq Hdef; simpl.
  { destruct Hdef. constructor. }
  destruct (decide (Sdk.value cd = JUndefined)) as [Hu|Hu].
  - apply chain_thrown. rewrite (bind_returned _ _ _ _ _ Hq). unfold Sdk.where_.
    by rewrite decide_True.
  - apply (IH _ (fs ++ [cd])).
    + rewrite (bind_returned _ _ _ _ _ Hq). unfold Sdk.where_.
      by rewrite decide_False.
    + intros Hall. apply Hdef. by constructor.
Qed.

Lemma queryDocs_defined c conds w :
  all_defined conds →
  queryDocs c conds w = (Returned (with_id <$> matching w c conds), w).
Proof.
  intros Hdef. unfold queryDocs. rewrite try_rethrow.
  by rewrite (bind_returned _ _ _ _ _
                (chain_returned (ret (Sdk.Query c [])) c [] conds w eq_refl Hdef)).
Qed.

Lemma queryDocs_undefined c conds w :
  ¬ all_defined conds →
  queryDocs c conds w
  = (Thrown (JsError "Cannot use undefined as a Firestore value."), w).
Proof.
  intros Hdef. unfold queryDocs. rewrite try_rethrow.
  by rewrite (bind_thrown _ _ _ _ _
                (chain_undefined (ret (Sdk.Query c [])) c [] conds w eq_refl Hdef)).
Qed.

(** The document meets every condition: each named field is stored with
    the value asked for. *)
Definition meets (d : obj) (conds : list Sdk.condition) : Prop :=
  Forall (λ cd, d !! Sdk.field cd = Some (Sdk.value cd)) conds.

#[global] Instance meets_dec d conds : Decision (meets d conds).
Proof. unfold meets. apply _. Defined.

Lemma forallb_satisfies d conds :
  forallb (Sdk.satisfies d) conds = true ↔ meets d conds.
Proof.
  unfold meets. induction conds as [|cd conds IH]; simpl.
  { split; [constructor | done]. }
  rewrite andb_true_iff, IH. unfold Sdk.satisfies.
  destruct (Sdk.op cd). rewrite bool_decide_eq_true. split.
  - intros [? ?]. by constructor.
  - by inversion_clear 1.
Qed.

Lemma elem_of_matching w c conds id d :
  (id, d) ∈ matching w c conds ↔ collection w c !! id = Some d ∧ meets d conds.
Proof.
  unfold matching. rewrite list_elem_of_filter, elem_of_map_to_list. simpl.
  rewrite forallb_satisfies. naive_solver.
Qed.

(** X6. [queryDocs] combines its conditions with AND and never writes.
    When every condition carries a value, it returns exactly the documents
    of the collection that store, for each condition, the value asked for
    under the field named, each once and with its id added; with no
    condition that is every document of the collection. *)
Theorem queryDocs_exactly_the_matching
    (c : string) (conds : list Sdk.condition) (w : World) :
  all_defined conds →
  ∃ docs, queryDocs c conds w = (Returned docs, w)
    ∧ (∀ doc, doc ∈ docs ↔
         ∃ id d, collection w c !! id = Some d ∧ meets d conds
                 ∧ doc = d ∪ {["id" := JStr id]})
    ∧ length docs = size (filter (λ kd, meets kd.2 conds) (collection w c))
    ∧ (conds = [] → length docs = size (collection w c)).
Proof.
  intros Hdef. exists (with_id <$> matching w c conds).
  split; [by apply queryDocs_defined|].
  assert (Hlen : length (with_id <$> matching w c conds)
                 = size (filter (λ kd, meets kd.2 conds) (collection w c))).
  { rewrite length_fmap, <- length_map_to_list.
    apply Permutation_length, NoDup_Permutation.
    - unfold matching; apply list.NoDup_filter, NoDup_map_to_list.
    - apply NoDup_map_to_list.
    - intros [id d]. rewrite elem_of_matching, elem_of_map_to_list.
      by rewrite map_lookup_filter_Some. }
  split; [|split; [done|]].
  - intros doc. rewrite list_elem_of_fmap. split.
    + intros ([id d] & -> & Hin). apply elem_of_matching in Hin as [Hd Hm].
      by exists id, d.
    + intros (id & d & Hd & Hm & ->). exists (id, d). split; [done|].
      by apply elem_of_matching.
  - intros ->. rewrite Hlen. f_equal. apply map_filter_id.
    intros id d _. constructor.
Qed.

Lemma queryDocs_exactly_the_matching_witness :
  let w : World :=
    mkWorld {[ "users" := {[ "a" := {[ "role" := JStr "admin" ]};
                             "b" := {[ "role" := JStr "lecturer" ]} ]} ]} ∅ 0 [] in
  ∃ docs, queryDocs "users" [Sdk.Condition "role" Sdk.OpEq (JStr "admin")] w
          = (Returned docs, w)
    ∧ ({[ "role" := JStr "admin"; "id" := JStr "a" ]} : obj) ∈ docs.
Proof.
  intros w.
  destruct (queryDocs_exactly_the_matching "users"
              [Sdk.Condition "role" Sdk.OpEq (JStr "admin")] w)
    as (docs & Hrun & Hin & _).
  { constructor; [discriminate | constructor]. }
  exists docs. split; [exact Hrun|].
  apply Hin. exists "a", {[ "role" := JStr "admin" ]}. split; [|split].
  - vm_compute. reflexivity.
  - constructor; [vm_compute; reflexivity | constructor].
  - vm_compute. reflexivity.
Defined.


Lemma queryDocs_pure c conds w : (queryDocs c conds w).2 = w.
Proof.
  destruct (decide (all_defined conds)) as [Hd|Hd].
  - by rewrite queryDocs_defined.
  - by rewrite queryDocs_undefined.
Qed.

(* ===================================================================== *)
(** ** The read endpoints *)
(* ===================================================================== *)

(** The conditions [getUsers] builds from its payload. *)
Definition users_filter (d : obj) : list Sdk.condition :=
  push_if (strict_neq d.["approved"] JUndefined)
    (Sdk.Condition "approved" Sdk.OpEq d.["approved"])
    (push_if (truthy d.["role"]) (Sdk.Condition "role" Sdk.OpEq d.["role"]) []).

Lemma strict_neq_undefined v : strict_neq v JUndefined = true ↔ v ≠ JUndefined.
Proof.
  unfold strict_neq. rewrite negb_true_iff. split.
  - intros Hf ->. done.
  - apply strict_eq_undefined_false.
Qed.

Lemma users_filter_defined d : all_defined (users_filter d).
Proof.
  unfold users_filter, push_if, all_defined.
  destruct (strict_neq d.["approved"] JUndefined) eqn:Ha,
           (truthy d.["role"]) eqn:Hr; simpl;
    repeat constructor; simpl;
    try (by apply truthy_defined); by apply strict_neq_undefined.
Qed.

Lemma users_filter_meets d u :
  meets u (users_filter d)
  ↔ (truthy d.["role"] = true → u !! "role" = Some d.["role"])
    ∧ (d.["approved"] ≠ JUndefined → u !! "approved" = Some d.["approved"]).
Proof.
  unfold users_filter, push_if, meets.
  rewrite <- (strict_neq_undefined d.["approved"]).
  destruct (strict_neq d.["approved"] JUndefined), (truthy d.["role"]); simpl.
  - split.
    + intros H. inversion_clear H as [|? ? H1 H2]. inversion_clear H2 as [|? ? H3 _].
      by split.
    + intros [H1 H2]. repeat constructor; simpl; auto.
  - split.
    + intros H. inversion_clear H as [|? ? H1 _]. by split.
    + intros [_ H2]. repeat constructor; simpl; auto.
  - split.
    + intros H. inversion_clear H as [|? ? H1 _]. by split.
    + intros [H1 _]. repeat constructor; simpl; auto.
  - split; [by split | constructor].
Qed.

Lemma getUsers_run data context w d :
  admin_caller context → data = Some d →
  getUsers data context w
  = (Returned (ManyAnswer true
       ((λ user, delete "password" user) <$> (with_id <$> matching w "users" (users_filter d)))),
     w).
Proof.
  intros (caller & Hauth & Hadmin) ->.
  unfold getUsers, try_catch. rewrite Hauth, Hadmin. simpl. rewrite !bind_ret.
  fold (users_filter d).
  by rewrite (bind_returned _ _ _ _ _
                (queryDocs_defined "users" _ w (users_filter_defined d))).
Qed.

(** X7. [getUsers], called by an admin, returns exactly the stored users
    that pass the filters of the payload, each with its id and without a
    [password] field, and writes nothing.  The role filter applies only
    when [role] is truthy; the approval filter applies whenever
    [approved] is given, so [approved: false] does select the users still
    waiting. *)
Theorem getUsers_exactly_the_filtered
    (data : option obj) (context : context) (w : World) (d : obj) :
  admin_caller context →
  data = Some d →
  ∃ listed,
    getUsers data context w = (Returned (ManyAnswer true listed), w)
    ∧ (∀ user, user ∈ listed → user !! "password" = None)
    ∧ (∀ user, user ∈ listed ↔
         ∃ id doc, users w !! id = Some doc
           ∧ (truthy d.["role"] = true → doc !! "role" = Some d.["role"])
           ∧ (d.["approved"] ≠ JUndefined → doc !! "approved" = Some d.["approved"])
           ∧ user = delete "password" (doc ∪ {["id" := JStr id]})).
Proof.
  intros Hadmin Hd. eexists. split; [by apply getUsers_run|].
  split.
  - intros user (u & -> & _)%list_elem_of_fmap. apply lookup_delete_eq.
  - intros user. rewrite <- list_fmap_compose, list_elem_of_fmap. split.
    + intros ([id doc] & -> & Hin). apply elem_of_matching in Hin as [Hdoc Hm].
      apply users_filter_meets in Hm as [Hr Ha]. by exists id, doc.
    + intros (id & doc & Hdoc & Hr & Ha & ->). exists (id, doc). split; [done|].
      apply elem_of_matching. split; [done|]. by apply users_filter_meets.
Qed.

Lemma getUsers_exactly_the_filtered_witness :
  let w : World :=
    mkWorld {[ "users" := {[ "a" := {[ "approved" := JBool true; "password" := JStr "p" ]};
                             "b" := {[ "approved" := JBool false; "password" := JStr "q" ]} ]} ]}
            ∅ 0 [] in
  let context := Context (Some (AuthInfo "a" {[ "admin" := JBool true ]})) in
  ∃ listed,
    getUsers (Some {[ "approved" := JBool false ]}) context w
    = (Returned (ManyAnswer true listed), w)
    ∧ ({[ "approved" := JBool false; "id" := JStr "b" ]} : obj) ∈ listed
    ∧ ∀ user, user ∈ listed → user !! "approved" = Some (JBool false).
Proof.
  intros w context.
  destruct (getUsers_exactly_the_filtered (Some {[ "approved" := JBool false ]}) context w
              {[ "approved" := JBool false ]})
    as (listed & Hrun & _ & Hin).
  - exists (AuthInfo "a" {[ "admin" := JBool true ]}). split; reflexivity.
  - reflexivity.
  - exists listed. split; [exact Hrun|]. split.
    + apply Hin. exists "b", {[ "approved" := JBool false; "password" := JStr "q" ]}.
      split; [vm_compute; reflexivity|].
      split; [discriminate|]. split; [reflexivity|]. vm_compute. reflexivity.
    + intros user (id & doc & _ & _ & Ha & ->)%Hin.
      rewrite lookup_delete_ne by discriminate.
      rewrite lookup_union_l'; [apply Ha; discriminate|].
      rewrite Ha by discriminate. eauto.
Defined.

Lemma getUserProfile_run data context w caller d doc :
  auth context = Some caller → data = Some d →
  stored_user w (or_else d.["userId"] (JStr (uid caller))) = Some doc →
  getUserProfile data context w
  = (Returned (OneAnswer true
       (delete "password" (doc ∪ {["id" := or_else d.["userId"] (JStr (uid caller))]}))), w).
Proof.
  intros Hauth -> Hdoc. unfold getUserProfile, try_catch. rewrite Hauth.
  simpl. rewrite bind_ret.
  by rewrite (bind_returned _ _ _ _ _ (getDocById_found _ _ _ _ Hdoc)).
Qed.

(** X8. [getUserProfile] answers any signed-in caller, about any stored
    user: the only conditions are that the caller is authenticated and
    the user document exists.  The profile is the caller's own when the
    payload names no user.  The answer carries the stored fields, never a
    [password] field, and nothing is written. *)
Theorem getUserProfile_any_user_no_password
    (data : option obj) (context : context) (w : World)
    (caller : auth_info) (d doc : obj) :
  auth context = Some caller →
  data = Some d →
  let target := or_else d.["userId"] (JStr (uid caller)) in
  stored_user w target = Some doc →
  ∃ profile,
    getUserProfile data context w = (Returned (OneAnswer true profile), w)
    ∧ profile !! "password" = None
    ∧ (∀ k, k ≠ "password" → k ≠ "id" → profile !! k = doc !! k)
    ∧ (truthy d.["userId"] = false → target = JStr (uid caller)).
Proof.
  intros Hauth Hd target Hdoc. eexists.
  split; [by apply (getUserProfile_run data context w caller d doc)|].
  split; [apply lookup_delete_eq|]. split.
  - intros k H1 H2. rewrite lookup_delete_ne by done.
    rewrite lookup_with_id, decide_False by done. by destruct (doc !! k).
  - intros Hf. unfold target, or_else. by rewrite Hf.
Qed.

Lemma getUserProfile_any_user_no_password_witness :
  let w : World :=
    mkWorld {[ "users" := {[ "a" := {[ "role" := JStr "admin"; "password" := JStr "p" ]} ]} ]}
            ∅ 0 [] in
  let stranger := Context (Some (AuthInfo "z" ∅)) in
  ∃ profile,
    getUserProfile (Some {[ "userId" := JStr "a" ]}) stranger w
    = (Returned (OneAnswer true profile), w)
    ∧ profile !! "password" = None
    ∧ profile !! "role" = Some (JStr "admin").
Proof.
  intros w stranger.
  destruct (getUserProfile_any_user_no_password (Some {[ "userId" := JStr "a" ]}) stranger w
              (AuthInfo "z" ∅) {[ "userId" := JStr "a" ]}
              {[ "role" := JStr "admin"; "password" := JStr "p" ]})
    as (profile & Hrun & Hpw & Hkept & _).
  - reflexivity.
  - reflexivity.
  - vm_compute. reflexivity.
  - exists profile. split; [exact Hrun|]. split; [exact Hpw|].
    rewrite Hkept by discriminate. vm_compute. reflexivity.
Defined.

(** The conditions [getAssessments] builds from its payload. *)
Definition assessments_filter (d : obj) : list Sdk.condition :=
  push_if (truthy d.["moderatorId"])
    (Sdk.Condition "moderatorId" Sdk.OpEq d.["moderatorId"])
    (push_if (truthy d.["lecturerId"])
       (Sdk.Condition "lecturerId" Sdk.OpEq d.["lecturerId"])
       (push_if (truthy d.["status"])
          (Sdk.Condition "status" Sdk.OpEq d.["status"]) [])).

Lemma push_if_defined c cd l :
  (c = true → Sdk.value cd ≠ JUndefined) → all_defined l → all_defined (push_if c cd l).
Proof.
  intros Hc Hl. unfold push_if, all_defined. destruct c; [|done].
  apply Forall_app. split; [done|]. constructor; [by apply Hc | constructor].
Qed.

Lemma push_if_meets u c cd l :
  meets u (push_if c cd l)
  ↔ meets u l ∧ (c = true → u !! Sdk.field cd = Some (Sdk.value cd)).
Proof.
  unfold push_if, meets. destruct c.
  - rewrite Forall_app. split.
    + intros [Hl H]. inversion_clear H. by split.
    + intros [Hl H]. split; [done|]. constructor; [by apply H | constructor].
  - naive_solver.
Qed.

Lemma assessments_filter_defined d : all_defined (assessments_filter d).
Proof.
  unfold assessments_filter.
  repeat (apply push_if_defined; [by apply truthy_defined|]). constructor.
Qed.

Lemma getAssessments_run data context w caller d :
  auth context = Some caller → data = Some d →
  getAssessments data context w
  = (Returned (ManyAnswer true (with_id <$> matching w "assessments" (assessments_filter d))),
     w).
Proof.
  intros Hauth ->. unfold getAssessments, try_catch. rewrite Hauth.
  simpl. rewrite bind_ret. fold (assessments_filter d).
  by rewrite (bind_returned _ _ _ _ _
                (queryDocs_defined "assessments" _ w (assessments_filter_defined d))).
Qed.

(** X9. [getAssessments] answers any signed-in caller, whatever its role
    or approval, with exactly the stored assessments that pass the
    filters of the payload, each with its id: [status], [lecturerId] and
    [moderatorId] must each equal the value given, when a truthy value is
    given.  Nothing is written. *)
Theorem getAssessments_exactly_the_filtered
    (data : option obj) (context : context) (w : World) (caller : auth_info) (d : obj) :
  auth context = Some caller →
  data = Some d →
  ∃ listed,
    getAssessments data context w = (Returned (ManyAnswer true listed), w)
    ∧ (∀ a, a ∈ listed ↔
         ∃ id doc, collection w "assessments" !! id = Some doc
           ∧ (truthy d.["status"] = true → doc !! "status" = Some d.["status"])
           ∧ (truthy d.["lecturerId"] = true → doc !! "lecturerId" = Some d.["lecturerId"])
           ∧ (truthy d.["moderatorId"] = true → doc !! "moderatorId" = Some d.["moderatorId"])
           ∧ a = doc ∪ {["id" := JStr id]}).
Proof.
  intros Hauth Hd. eexists.
  split; [by apply (getAssessments_run data context w caller d)|].
  intros a. rewrite list_elem_of_fmap. split.
  - intros ([id doc] & -> & Hin). apply elem_of_matching in Hin as [Hdoc Hm].
    unfold assessments_filter in Hm. rewrite !push_if_meets in Hm. simpl in Hm.
    destruct Hm as [[[_ H1] H2] H3]. by exists id, doc.
  - intros (id & doc & Hdoc & H1 & H2 & H3 & ->). exists (id, doc). split; [done|].
    apply elem_of_matching. split; [done|].
    unfold assessments_filter. rewrite !push_if_meets. simpl.
    split_and!; try done. constructor.
Qed.

Lemma getAssessments_exactly_the_filtered_witness :
  let w : World :=
    mkWorld {[ "assessments" := {[ "x" := {[ "status" := JStr "draft" ]};
                                   "y" := {[ "status" := JStr "approved" ]} ]} ]}
            ∅ 0 [] in
  let anyone := Context (Some (AuthInfo "z" ∅)) in
  ∃ listed,
    getAssessments (Some {[ "status" := JStr "draft" ]}) anyone w
    = (Returned (ManyAnswer true listed), w)
    ∧ ({[ "status" := JStr "draft"; "id" := JStr "x" ]} : obj) ∈ listed.
Proof.
  intros w anyone.
  destruct (getAssessments_exactly_the_filtered (Some {[ "status" := JStr "draft" ]}) anyone w
              (AuthInfo "z" ∅) {[ "status" := JStr "draft" ]})
    as (listed & Hrun & Hin).
  - reflexivity.
  - reflexivity.
  - exists listed. split; [exact Hrun|].
    apply Hin. exists "x", {[ "status" := JStr "draft" ]}.
    split; [vm_compute; reflexivity|].
    split; [reflexivity|]. split; [discriminate|]. split; [discriminate|].
    vm_compute. reflexivity.
Defined.

(** X10. The id [createAssessment] answers with leads back to the draft.
    When [createAssessment] returns for a signed-in caller, the
    [assessmentId] of its answer is a string, and [getAssessmentById]
    with that id, by any signed-in caller, returns a document whose
    status is ["draft"], whose [lecturerId] is the creator's uid and
    whose [moderatorId] and [feedback] are [null]. *)
Theorem createAssessment_then_getAssessmentById
    (autoId : string) (data : option obj) (context reader : context)
    (w w' : World) (creator peer : auth_info) (answer : obj) :
  auth context = Some creator →
  auth reader = Some peer →
  createAssessment autoId data context w = (Returned answer, w') →
  ∃ id got,
    answer.["assessmentId"] = JStr id
    ∧ getAssessmentById (Some {[ "assessmentId" := JStr id ]}) reader w'
      = (Returned (OneAnswer true got), w')
    ∧ got.["status"] = JStr "draft"
    ∧ got.["lecturerId"] = JStr (uid creator)
    ∧ got.["moderatorId"] = JNull
    ∧ got.["feedback"] = JNull
    ∧ got.["id"] = JStr id.
Proof.
  intros Hauth Hreader. unfold createAssessment, try_catch. rewrite Hauth.
  destruct (bind _ _ w) as [[r|e] w1] eqn:Hbody; [|done]. intros [= <- <-].
  revert Hbody. unfold bind at 1.
  destruct (verifyUserRole _ _ w) as [[[]|e] w2] eqn:Hverify; [|done|done].
  simpl. rewrite bind_ret. unfold bind at 1.
  destruct (properties data w2) as [[d|e] w3] eqn:Hprops; [|done].
  unfold bind at 1.
  destruct (throw_if _ _ w3) as [[[]|e] w4] eqn:Hargs; [|done].
  unfold bind at 1.
  destruct (createDoc _ _ _ _ w4) as [[docRef|e] w5] eqn:Hcreate; [|done].
  intros [= <- <-].
  apply createDoc_returned in Hcreate as (Hc & Hne & _ & ->).
  exists (ref_id docRef). eexists. split; [reflexivity|].
  assert (Hst : stored (doc_written docRef
                          (stamped w4 (assessment_doc d (uid creator)))
                          (DocSet docRef (stamped w4 (assessment_doc d (uid creator)))) w4)
                  "assessments" (JStr (ref_id docRef))
                = Some (stamped w4 (assessment_doc d (uid creator)))).
  { rewrite <- Hc. by apply stored_written. }
  split.
  { unfold getAssessmentById, try_catch. rewrite Hreader. simpl. rewrite bind_ret.
    change (({[ "assessmentId" := JStr (ref_id docRef) ]} : obj).["assessmentId"])
      with (JStr (ref_id docRef)).
    rewrite (truthy_nonempty _ Hne). simpl. rewrite bind_ret.
    by rewrite (bind_returned _ _ _ _ _ (getDocById_found _ _ _ _ Hst)). }
  destruct (assessment_doc_fields w4 d (uid creator)) as (H1 & H2 & H3 & H4).
  rewrite !prop_with_id by done. split_and!; try done.
Qed.

Lemma createAssessment_then_getAssessmentById_witness :
  let w : World :=
    mkWorld {[ "users" := {[ "l" := {[ "role" := JStr "lecturer"; "approved" := JBool true ]} ]} ]}
            ∅ 5 [] in
  let lecturer := Context (Some (AuthInfo "l" ∅)) in
  let reader := Context (Some (AuthInfo "z" ∅)) in
  let data := Some ({[ "title" := JStr "t"; "content" := JStr "c"; "type" := JStr "quiz" ]} : obj) in
  let w' := exec (createAssessment "x" data lecturer) w in
  ∃ got, getAssessmentById (Some {[ "assessmentId" := JStr "x" ]}) reader w'
         = (Returned (OneAnswer true got), w')
    ∧ got.["status"] = JStr "draft" ∧ got.["lecturerId"] = JStr "l".
Proof.
  intros w lecturer reader data w'.
  destruct (createAssessment_then_getAssessmentById "x" data lecturer reader w w'
              (AuthInfo "l" ∅) (AuthInfo "z" ∅) (created_response "x"))
    as (id & got & Hid & Hget & Hstatus & Hlecturer & _).
  - reflexivity.
  - reflexivity.
  - vm_compute. reflexivity.
  - assert (id = "x") as -> by (vm_compute in Hid; congruence).
    exists got. split; [exact Hget|]. split; [exact Hstatus | exact Hlecturer].
Defined.

(* ===================================================================== *)
(** ** Looking a user up by address *)
(* ===================================================================== *)

Lemma lookup_by_email_cases email w :
  (∃ uid i, identities w !! uid = Some i ∧ id_email i = email
            ∧ lookup_by_email email w = (Returned uid, w))
  ∨ ((∀ uid i, identities w !! uid = Some i → id_email i ≠ email)
     ∧ ∃ e, lookup_by_email email w = (Thrown e, w)).
Proof.
  unfold lookup_by_email.
  destruct (filter _ (map_to_list (identities w))) as [|[uid i] l] eqn:Hf.
  - right. split; [|by eauto]. intros uid i Hi Heq.
    assert (Hin : (uid, i) ∈ filter (λ ki, id_email ki.2 = email) (map_to_list (identities w))).
    { apply list_elem_of_filter. split; [done|]. by apply elem_of_map_to_list. }
    rewrite Hf in Hin. by apply elem_of_nil in Hin.
  - left. exists uid, i.
    assert (Hin : (uid, i) ∈ filter (λ ki, id_email ki.2 = email) (map_to_list (identities w))).
    { rewrite Hf. apply list_elem_of_here. }
    apply list_elem_of_filter in Hin as [Heq Hin]. apply elem_of_map_to_list in Hin.
    by split_and!.
Qed.

Lemma getUserByEmail_pure email w : (getUserByEmail email w).2 = w.
Proof.
  unfold getUserByEmail, try_catch.
  destruct (lookup_by_email_cases email w)
    as [(uid & i & _ & _ & Hrun) | [_ [e He]]].
  - rewrite (bind_returned _ _ _ _ _ Hrun).
    pose proof (getDocById_pure "users" (JStr uid) w) as Hpure.
    unfold bind. destruct (getDocById "users" (JStr uid) w) as [[a|e] w1];
      simpl in *; by subst.
  - by rewrite (bind_thrown _ _ _ _ _ He).
Qed.


(* ===================================================================== *)
(** ** What only reads *)
(* ===================================================================== *)

Lemma lookup_logged v w :
  try_catch (let* user := getDocById "users" v in ret tt) (λ error, ret tt) w
  = (Returned tt, w).
Proof.
  unfold try_catch, bind.
  pose proof (getDocById_pure "users" v w) as Hpure.
  destruct (getDocById "users" v w) as [[a|e] w1]; simpl in Hpure; by subst.
Qed.

Lemma onNewAssessment_run event w : onNewAssessment event w = (Returned tt, w).
Proof.
  unfold onNewAssessment, try_catch at 1.
  destruct (truthy _); [|done].
  by rewrite (bind_returned _ _ _ _ _ (lookup_logged _ w)).
Qed.

Lemma onAssessmentUpdated_run event w : onAssessmentUpdated event w = (Returned tt, w).
Proof.
  unfold onAssessmentUpdated, try_catch at 1.
  destruct (strict_neq _ _); [|done].
  rewrite bind_assoc.
  destruct (truthy (aup_after event).["lecturerId"]).
  - rewrite (bind_returned _ _ _ _ _ (lookup_logged _ w)).
    destruct (_ && _); [|done].
    by rewrite (bind_returned _ _ _ _ _ (lookup_logged _ w)).
  - rewrite bind_ret.
    destruct (_ && _); [|done].
    by rewrite (bind_returned _ _ _ _ _ (lookup_logged _ w)).
Qed.

Lemma read_endpoint_pure {A} (body : M A) w :
  (body w).2 = w →
  exec (try_catch body (λ error, throw (HttpsError Internal (message error)))) w = w.
Proof.
  intros Hpure. unfold exec, try_catch.
  destruct (body w) as [[a|e] w1]; simpl in *; by subst.
Qed.

Lemma bind_pure {A B} (m : M A) (k : A → M B) w :
  (m w).2 = w → (∀ a, (k a w).2 = w) → (bind m k w).2 = w.
Proof.
  intros Hm Hk. unfold bind. destruct (m w) as [[a|e] w1]; simpl in *; subst; [apply Hk | done].
Qed.

(** X12. Reading changes nothing.  The four read endpoints, the lookup by
    address, the two role checks and the two assessment reactions leave
    the document store, the identities and the write log exactly as they
    were, for every payload, caller, event and world, whether they answer
    or fail; the two assessment reactions moreover always return, also
    when the lecturer or the moderator cannot be found. *)
Theorem reading_changes_nothing
    (data : option obj) (context : context) (v : jsval) (roles : roles_arg)
    (created : assessment_created) (updated : assessment_updated) (w : World) :
  exec (getUserProfile data context) w = w
  ∧ exec (getUsers data context) w = w
  ∧ exec (getAssessments data context) w = w
  ∧ exec (getAssessmentById data context) w = w
  ∧ exec (getUserByEmail v) w = w
  ∧ exec (verifyUserRole v roles) w = w
  ∧ exec (isUserApproved v) w = w
  ∧ onNewAssessment created w = (Returned tt, w)
  ∧ onAssessmentUpdated updated w = (Returned tt, w).
Proof.
  split_and!.
  - apply read_endpoint_pure. destruct (auth context); [|done].
    apply bind_pure; [by destruct data|]. intros d.
    apply bind_pure; [apply getDocById_pure | done].
  - apply read_endpoint_pure. destruct (auth context); [|done].
    apply bind_pure; [by destruct (negb _)|]. intros _.
    apply bind_pure; [by destruct data|]. intros d.
    apply bind_pure; [apply queryDocs_pure | done].
  - apply read_endpoint_pure. destruct (auth context); [|done].
    apply bind_pure; [by destruct data|]. intros d.
    apply bind_pure; [apply queryDocs_pure | done].
  - apply read_endpoint_pure. destruct (auth context); [|done].
    apply bind_pure; [by destruct data|]. intros d.
    apply bind_pure; [by destruct (negb _)|]. intros _.
    apply bind_pure; [apply getDocById_pure | done].
  - apply getUserByEmail_pure.
  - destruct (stored_user w v) as [user|] eqn:Hu; unfold exec.
    + by rewrite (verifyUserRole_found _ _ _ _ Hu).
    + by rewrite (verifyUserRole_missing _ _ _ Hu).
  - destruct (stored_user w v) as [user|] eqn:Hu; unfold exec.
    + by rewrite (isUserApproved_found _ _ _ Hu).
    + by rewrite (isUserApproved_missing _ _ Hu).
  - apply onNewAssessment_run.
  - apply onAssessmentUpdated_run.
Qed.

(* ===================================================================== *)
(** ** Who can change what *)
(* ===================================================================== *)

(** Every call of [updateUserRole] either meets the conditions of
    [updateUserRole_run] or is refused before anything is written. *)
Lemma updateUserRole_cases data context w :
  (admin_caller context
   ∧ ∃ d old, data = Some d ∧ stored_user w d.["userId"] = Some old
              ∧ includes validRoles d.["role"] = true)
  ∨ ∃ msg, updateUserRole data context w = (Thrown (HttpsError Internal msg), w).
Proof.
  unfold updateUserRole, try_catch.
  destruct (auth context) as [caller|] eqn:Hauth; [|by eauto].
  destruct (truthy (token caller).["admin"]) eqn:Hadmin; [|by eauto].
  simpl. rewrite bind_ret.
  destruct data as [d|]; [|by eauto].
  unfold properties. rewrite bind_ret.
  destruct (negb (truthy d.["userId"]) || negb (truthy d.["role"])) eqn:Hargs;
    [by eauto|].
  simpl. rewrite bind_ret. fold validRoles.
  destruct (includes validRoles d.["role"]) eqn:Hrole; [|by eauto].
  simpl. rewrite bind_ret.
  destruct (stored_user w d.["userId"]) as [old|] eqn:Hold.
  - left. split; [by exists caller|]. by exists d, old.
  - destruct (updateDoc_thrown "users" d.["userId"]
                {[ "role" := d.["role"]; "updatedAt" := JServerTimestamp ]} w Hold)
      as [e He].
    rewrite (bind_thrown _ _ _ _ _ He). eauto.
Qed.

(** X13. [approveUser] decides on the caller's token alone and only acts
    on a stored user: when the token carries no truthy [admin] claim (or
    nobody is signed in), or the payload names no stored user, or gives
    no [approved] value, the call fails with code [Internal] and the
    document store, the identities and their claims stay exactly as they
    were. *)
Theorem approveUser_refused_changes_nothing
    (data : option obj) (context : context) (w : World) :
  ¬ admin_caller context
  ∨ (∀ d, data = Some d → stored_user w d.["userId"] = None)
  ∨ (∀ d, data = Some d → d.["approved"] = JUndefined) →
  ∃ msg, approveUser data context w = (Thrown (HttpsError Internal msg), w).
Proof.
  intros Hwhy.
  destruct (approveUser_cases data context w)
    as [(Hadmin & d & old & Hd & Hold & Hdef) | Hthrown]; [|done].
  destruct Hwhy as [Hno | [Hno | Hno]].
  - done.
  - rewrite (Hno d Hd) in Hold. done.
  - by destruct (Hdef (Hno d Hd)).
Qed.

Lemma approveUser_refused_changes_nothing_witness :
  let w : World :=
    mkWorld {[ "users" := {[ "u" := {[ "role" := JStr "lecturer" ]} ]} ]}
            {[ "u" := Identity (JStr "u@x") (JStr "U") None ]} 0 [] in
  let self := Context (Some (AuthInfo "u" {[ "lecturer" := JBool true ]})) in
  ∃ msg, approveUser (Some {[ "userId" := JStr "u"; "approved" := JBool true ]}) self w
         = (Thrown (HttpsError Internal msg), w).
Proof.
  intros w self.
  apply (approveUser_refused_changes_nothing
           (Some {[ "userId" := JStr "u"; "approved" := JBool true ]}) self w).
  left. intros (caller & [= <-] & Hadmin). vm_compute in Hadmin. discriminate.
Defined.

(** X14. [updateUserRole] only acts for an admin token, a stored user and
    one of the three roles: when the token carries no truthy [admin]
    claim, or the payload names no stored user, or the role is not
    ["admin"], ["moderator"] or ["lecturer"], the call fails with code
    [Internal] and nothing is written or attached. *)
Theorem updateUserRole_refused_changes_nothing
    (data : option obj) (context : context) (w : World) :
  ¬ admin_caller context
  ∨ (∀ d, data = Some d → stored_user w d.["userId"] = None)
  ∨ (∀ d, data = Some d → includes validRoles d.["role"] = false) →
  ∃ msg, updateUserRole data context w = (Thrown (HttpsError Internal msg), w).
Proof.
  intros Hwhy.
  destruct (updateUserRole_cases data context w)
    as [(Hadmin & d & old & Hd & Hold & Hrole) | Hthrown]; [|done].
  destruct Hwhy as [Hno | [Hno | Hno]].
  - done.
  - rewrite (Hno d Hd) in Hold. done.
  - rewrite (Hno d Hd) in Hrole. done.
Qed.

Lemma updateUserRole_refused_changes_nothing_witness :
  let w : World :=
    mkWorld {[ "users" := {[ "u" := {[ "role" := JStr "lecturer" ]} ]} ]}
            {[ "u" := Identity (JStr "u@x") (JStr "U") None ]} 0 [] in
  let root := Context (Some (AuthInfo "r" {[ "admin" := JBool true ]})) in
  ∃ msg, updateUserRole (Some {[ "userId" := JStr "u"; "role" := JStr "owner" ]}) root w
         = (Thrown (HttpsError Internal msg), w).
Proof.
  intros w root.
  apply (updateUserRole_refused_changes_nothing
           (Some {[ "userId" := JStr "u"; "role" := JStr "owner" ]}) root w).
  right. right. intros d [= <-]. vm_compute. reflexivity.
Defined.

Lemma verifyUserRole_refuses userId requiredRoles w :
  ¬ (∃ user, stored_user w userId = Some user ∧ access_granted user requiredRoles) →
  verifyUserRole userId requiredRoles w = (Returned false, w).
Proof.
  intros Hno. destruct (stored_user w userId) as [user|] eqn:Hu.
  - rewrite (verifyUserRole_found _ _ _ _ Hu). f_equal. f_equal.
    apply not_true_is_false. intros Hacc%access_check_true. apply Hno. eauto.
  - by apply verifyUserRole_missing.
Qed.

Lemma moderateAssessment_turned_down data context w caller :
  auth context = Some caller →
  verifyUserRole (JStr (uid caller)) (RoleArray ["moderator"; "admin"]) w = (Returned false, w) →
  moderateAssessment data context w
  = (Thrown (HttpsError Internal "Only moderators can moderate assessments."), w).
Proof.
  intros Hauth Hverify. unfold moderateAssessment, try_catch. rewrite Hauth.
  by rewrite (bind_returned _ _ _ _ _ Hverify).
Qed.

(** X15. The role gate of the assessment endpoints fails closed and reads
    the user document, not the token.  A signed-in caller whose user
    document is missing, or has a role outside the required ones, or is
    a non-admin not approved, gets [Internal] from [createAssessment]
    (required: lecturer or admin) and from [moderateAssessment]
    (required: moderator or admin), whatever the payload and whatever
    claims the token carries, and nothing is written. *)
Theorem assessment_gate_fails_closed
    (autoId : string) (data : option obj) (context : context) (w : World)
    (caller : auth_info) :
  auth context = Some caller →
  (¬ (∃ user, stored_user w (JStr (uid caller)) = Some user
              ∧ access_granted user (RoleArray ["lecturer"; "admin"])) →
   createAssessment autoId data context w
   = (Thrown (HttpsError Internal "Only lecturers can create assessments."), w))
  ∧ (¬ (∃ user, stored_user w (JStr (uid caller)) = Some user
                ∧ access_granted user (RoleArray ["moderator"; "admin"])) →
     moderateAssessment data context w
     = (Thrown (HttpsError Internal "Only moderators can moderate assessments."), w)).
Proof.
  intros Hauth. split; intros Hno.
  - apply (createAssessment_turned_down _ _ _ _ caller Hauth).
    by apply verifyUserRole_refuses.
  - apply (moderateAssessment_turned_down _ _ _ caller Hauth).
    by apply verifyUserRole_refuses.
Qed.

Lemma assessment_gate_fails_closed_witness :
  let w : World :=
    mkWorld {[ "users" := {[ "l" := {[ "role" := JStr "lecturer"; "approved" := JBool true ]} ]};
               "assessments" := {[ "x" := {[ "status" := JStr "draft" ]} ]} ]}
            ∅ 0 [] in
  let lecturer :=
    Context (Some (AuthInfo "l" {[ "moderator" := JBool true; "admin" := JBool true ]})) in
  moderateAssessment (Some {[ "assessmentId" := JStr "x"; "status" := JStr "approved" ]})
    lecturer w
  = (Thrown (HttpsError Internal "Only moderators can moderate assessments."), w).
Proof.
  intros w lecturer.
  apply (assessment_gate_fails_closed "a" _ lecturer w
           (AuthInfo "l" {[ "moderator" := JBool true; "admin" := JBool true ]}) eq_refl).
  intros (user & Hu & (r & Hr & Hin) & _).
  assert (Hst : stored_user w (JStr "l")
                = Some {[ "role" := JStr "lecturer"; "approved" := JBool true ]})
    by (vm_compute; reflexivity).
  cbn [uid] in Hu. rewrite Hst in Hu. injection Hu as <-.
  assert (r = "lecturer") as -> by (vm_compute in Hr; congruence).
  revert Hin. simpl. rewrite !elem_of_cons, elem_of_nil. intros [?|[?|[]]]; discriminate.
Defined.

(* ===================================================================== *)
(** ** Admin actions and the role check that follows *)
(* ===================================================================== *)

Lemma strict_eq_stamp_true t v :
  strict_eq (Sdk.stamp t v) (JBool true) = strict_eq v (JBool true).
Proof. by destruct v. Qed.



Lemma stored_user_lookup w s doc :
  s ≠ EmptyString → users w !! s = Some doc → stored_user w (JStr s) = Some doc.
Proof.
  intros Hne Hdoc. unfold stored_user. simpl.
  by rewrite (proj2 (String.eqb_neq s EmptyString) Hne).
Qed.

(** X16. What [approveUser] writes is what the role check reads.  After
    [approveUser] by an admin on a stored user, with any value given for
    [approved], [verifyUserRole] for that user answers: the stored role
    is one of the required roles, and the value given is [true] or the
    role is ["admin"].  So approving opens exactly the endpoints of the
    user's role, and revoking closes them, except for an admin, for whom
    revoking changes no answer. *)
Theorem approveUser_then_verifyUserRole
    (data : option obj) (context : context) (w : World) (d old : obj)
    (requiredRoles : roles_arg) :
  admin_caller context →
  data = Some d →
  stored_user w d.["userId"] = Some old →
  d.["approved"] ≠ JUndefined →
  let w' := exec (approveUser data context) w in
  verifyUserRole d.["userId"] requiredRoles w'
  = (Returned (includes (role_names requiredRoles) old.["role"]
               && (strict_eq d.["approved"] (JBool true)
                   || strict_eq old.["role"] (JStr "admin"))), w').
Proof.
  intros Hadmin Hd Hold Hdef w'.
  destruct (approveUser_document data context w d old Hadmin Hd Hold Hdef)
    as (s & doc & Hs & Hdoc & Happ & Hframe).
  assert (Hne : s ≠ EmptyString).
  { unfold stored_user in Hold. apply stored_Some in Hold as (s' & Hs' & Hne & _).
    congruence. }
  rewrite Hs.
  rewrite (verifyUserRole_found _ _ _ doc (stored_user_lookup _ _ _ Hne Hdoc)).
  assert (Hrole : doc.["role"] = old.["role"]) by (unfold prop; by rewrite Hframe).
  by rewrite Hrole, Happ, strict_eq_stamp_true.
Qed.

Lemma approveUser_then_verifyUserRole_witness :
  let w : World :=
    mkWorld {[ "users" := {[ "r" := {[ "role" := JStr "admin"; "approved" := JBool true ]} ]} ]}
            ∅ 0 [] in
  let root := Context (Some (AuthInfo "r" {[ "admin" := JBool true ]})) in
  let revoke := Some ({[ "userId" := JStr "r"; "approved" := JBool false ]} : obj) in
  let w' := exec (approveUser revoke root) w in
  verifyUserRole (JStr "r") (OneRole "admin") w' = (Returned true, w').
Proof.
  intros w root revoke w'.
  assert (Hroot : admin_caller root).
  { exists (AuthInfo "r" {[ "admin" := JBool true ]}). split; reflexivity. }
  assert (Hold : stored_user w (JStr "r")
                 = Some {[ "role" := JStr "admin"; "approved" := JBool true ]})
    by (vm_compute; reflexivity).
  pose proof (approveUser_then_verifyUserRole revoke root w
                {[ "userId" := JStr "r"; "approved" := JBool false ]}
                {[ "role" := JStr "admin"; "approved" := JBool true ]} (OneRole "admin")
                Hroot eq_refl Hold ltac:(discriminate)) as Hverify.
  vm_compute in Hverify. vm_compute. exact Hverify.
Defined.

(** X17. A truthy value that is not [true] approves the identity but not
    the document.  [approveUser] tests [if (approved)] before attaching
    claims, while the role checks test [approved === true].  So with
    [approved] given as a truthy value other than [true] (a string, a
    number), for a user who is no admin and whose identity exists, the
    call succeeds and attaches claims with [approved: true], and yet
    [isUserApproved] and every [verifyUserRole] answer [false]. *)
Theorem approveUser_truthy_is_not_true
    (data : option obj) (context : context) (w : World) (d old : obj) (s : string)
    (requiredRoles : roles_arg) :
  admin_caller context →
  data = Some d →
  stored_user w d.["userId"] = Some old →
  d.["userId"] = JStr s → is_Some (identities w !! s) →
  truthy d.["approved"] = true → d.["approved"] ≠ JBool true →
  old.["role"] ≠ JStr "admin" →
  let w' := exec (approveUser data context) w in
  result (approveUser data context) w = Returned (approve_response d.["approved"])
  ∧ (∃ c, claims_of w' s = Some c ∧ c !! "approved" = Some true)
  ∧ isUserApproved d.["userId"] w' = (Returned false, w')
  ∧ verifyUserRole d.["userId"] requiredRoles w' = (Returned false, w').
Proof.
  intros Hadmin Hd Hold Hs Hid Htruthy Hnot Hrole w'. unfold w'. clear w'.
  assert (Hdef : d.["approved"] ≠ JUndefined) by by apply truthy_defined.
  destruct (approveUser_run data context w d old Hadmin Hd Hold Hdef)
    as (s' & Hs' & Hne & Hrun).
  assert (s' = s) as -> by congruence.
  simpl in Hrun. rewrite Htruthy, decide_True in Hrun by done.
  destruct (approveUser_document data context w d old Hadmin Hd Hold Hdef)
    as (s' & doc & Hs'' & Hdoc & Happ & Hframe).
  assert (s' = s) as -> by congruence.
  assert (Hdrole : doc.["role"] = old.["role"]) by (unfold prop; by rewrite Hframe).
  assert (Hfalse : strict_eq doc.["approved"] (JBool true)
                   || strict_eq doc.["role"] (JStr "admin") = false).
  { rewrite Happ, strict_eq_stamp_true, Hdrole. apply orb_false_intro.
    - apply not_true_is_false. by intros ?%strict_eq_bool_true.
    - apply not_true_is_false. by intros ?%strict_eq_str. }
  split_and!.
  - unfold result. by rewrite Hrun.
  - exists (approval_claims old.["role"]). split.
    + unfold exec. rewrite Hrun. simpl. apply claims_of_attached.
      unfold doc_updated. by rewrite identities_doc_written.
    + unfold approval_claims. by rewrite !lookup_insert_ne, lookup_singleton_eq.
  - rewrite Hs.
    rewrite (isUserApproved_found _ _ doc (stored_user_lookup _ _ _ Hne Hdoc)).
    by rewrite Hfalse.
  - rewrite Hs.
    rewrite (verifyUserRole_found _ _ _ doc (stored_user_lookup _ _ _ Hne Hdoc)).
    by rewrite Hfalse, andb_false_r.
Qed.

Lemma approveUser_truthy_is_not_true_witness :
  let w : World :=
    mkWorld {[ "users" := {[ "u" := {[ "role" := JStr "lecturer" ]} ]} ]}
            {[ "u" := Identity (JStr "u@x") (JStr "U") None ]} 0 [] in
  let root := Context (Some (AuthInfo "r" {[ "admin" := JBool true ]})) in
  let approve := Some ({[ "userId" := JStr "u"; "approved" := JStr "yes" ]} : obj) in
  let w' := exec (approveUser approve root) w in
  (∃ c, claims_of w' "u" = Some c ∧ c !! "approved" = Some true)
  ∧ verifyUserRole (JStr "u") (OneRole "lecturer") w' = (Returned false, w').
Proof.
  intros w root approve w'.
  destruct (approveUser_truthy_is_not_true approve root w
              {[ "userId" := JStr "u"; "approved" := JStr "yes" ]}
              {[ "role" := JStr "lecturer" ]} "u" (OneRole "lecturer"))
    as (_ & Hclaims & _ & Hverify).
  - exists (AuthInfo "r" {[ "admin" := JBool true ]}). split; reflexivity.
  - reflexivity.
  - vm_compute. reflexivity.
  - reflexivity.
  - vm_compute. eauto.
  - reflexivity.
  - discriminate.
  - discriminate.
  - split; [exact Hclaims | exact Hverify].
Defined.

(** X18. A role change takes effect in the role check at once, and a
    promotion to admin needs no approval.  After [updateUserRole] by an
    admin on a stored user with a valid role, [verifyUserRole] for that
    user answers: the new role is one of the required roles, and the
    stored [approved] is [true] or the new role is ["admin"].  This holds
    also when attaching the claims failed. *)
Theorem updateUserRole_then_verifyUserRole
    (data : option obj) (context : context) (w : World) (d old : obj)
    (requiredRoles : roles_arg) :
  admin_caller context →
  data = Some d →
  stored_user w d.["userId"] = Some old →
  includes validRoles d.["role"] = true →
  let w' := exec (updateUserRole data context) w in
  verifyUserRole d.["userId"] requiredRoles w'
  = (Returned (includes (role_names requiredRoles) d.["role"]
               && (strict_eq old.["approved"] (JBool true)
                   || strict_eq d.["role"] (JStr "admin"))), w').
Proof.
  intros Hadmin Hd Hold Hvalid w'.
  destruct (updateUserRole_document data context w d old Hadmin Hd Hold Hvalid)
    as (s & doc & Hs & Hdoc & Hrole & Hframe).
  assert (Hne : s ≠ EmptyString).
  { unfold stored_user in Hold. apply stored_Some in Hold as (s' & Hs' & Hne & _).
    congruence. }
  rewrite Hs.
  rewrite (verifyUserRole_found _ _ _ doc (stored_user_lookup _ _ _ Hne Hdoc)).
  assert (Happ : doc.["approved"] = old.["approved"]) by (unfold prop; by rewrite Hframe).
  by rewrite Hrole, Happ.
Qed.

Lemma updateUserRole_then_verifyUserRole_witness :
  let w : World :=
    mkWorld {[ "users" := {[ "u" := {[ "role" := JStr "lecturer"; "approved" := JBool false ]} ]} ]}
            ∅ 0 [] in
  let root := Context (Some (AuthInfo "r" {[ "admin" := JBool true ]})) in
  let promote := Some ({[ "userId" := JStr "u"; "role" := JStr "admin" ]} : obj) in
  let w' := exec (updateUserRole promote root) w in
  verifyUserRole (JStr "u") (RoleArray ["moderator"; "admin"]) w' = (Returned true, w').
Proof.
  intros w root promote w'.
  assert (Hroot : admin_caller root).
  { exists (AuthInfo "r" {[ "admin" := JBool true ]}). split; reflexivity. }
  assert (Hold : stored_user w (JStr "u")
                 = Some {[ "role" := JStr "lecturer"; "approved" := JBool false ]})
    by (vm_compute; reflexivity).
  pose proof (updateUserRole_then_verifyUserRole promote root w
                {[ "userId" := JStr "u"; "role" := JStr "admin" ]}
                {[ "role" := JStr "lecturer"; "approved" := JBool false ]}
                (RoleArray ["moderator"; "admin"])
                Hroot eq_refl Hold eq_refl) as Hverify.
  vm_compute in Hverify. vm_compute. exact Hverify.
Defined.

(* ===================================================================== *)
(** ** Registration and the bootstrap, followed up *)
(* ===================================================================== *)






(** X20. [updateUserRole] is not atomic.  It writes the role to the
    document before it attaches the claims and does not undo the write:
    when the user document exists but the identity does not, the call
    fails with [Internal], the document already carries the new role,
    and no identity has changed. *)
Theorem updateUserRole_role_written_before_claims
    (data : option obj) (context : context) (w : World) (d old : obj) (s : string) :
  admin_caller context →
  data = Some d →
  stored_user w d.["userId"] = Some old →
  includes validRoles d.["role"] = true →
  d.["userId"] = JStr s →
  identities w !! s = None →
  let w' := exec (updateUserRole data context) w in
  result (updateUserRole data context) w
  = Thrown (HttpsError Internal
              "There is no user record corresponding to the provided identifier.")
  ∧ (∃ doc, users w' !! s = Some doc ∧ doc.["role"] = d.["role"])
  ∧ identities w' = identities w.
Proof.
  intros Hadmin Hd Hold Hvalid Hs Hnone w'. unfold w'. clear w'.
  destruct (updateUserRole_run data context w d old Hadmin Hd Hold Hvalid)
    as (s' & Hs' & Hne & Hrun).
  assert (s' = s) as -> by congruence.
  simpl in Hrun. rewrite decide_False in Hrun by (rewrite Hnone; by intros [? ?]).
  unfold result, exec. rewrite Hrun. simpl. split_and!; try done.
  eexists. split; [by rewrite users_doc_updated, lookup_insert_eq|].
  apply includes_true in Hvalid as (r & Hr & _).
  apply prop_patch. rewrite role_patch_lookup. simpl. by rewrite Hr.
Qed.

Lemma updateUserRole_role_written_before_claims_witness :
  let w : World :=
    mkWorld {[ "users" := {[ "u" := {[ "role" := JStr "lecturer" ]} ]} ]} ∅ 0 [] in
  let root := Context (Some (AuthInfo "r" {[ "admin" := JBool true ]})) in
  let promote := Some ({[ "userId" := JStr "u"; "role" := JStr "admin" ]} : obj) in
  result (updateUserRole promote root) w
  = Thrown (HttpsError Internal
              "There is no user record corresponding to the provided identifier.")
  ∧ ∃ doc, users (exec (updateUserRole promote root) w) !! "u" = Some doc
      ∧ doc.["role"] = JStr "admin".
Proof.
  intros w root promote.
  destruct (updateUserRole_role_written_before_claims promote root w
              {[ "userId" := JStr "u"; "role" := JStr "admin" ]}
              {[ "role" := JStr "lecturer" ]} "u")
    as (Hres & (doc & Hdoc & Hrole) & _).
  - exists (AuthInfo "r" {[ "admin" := JBool true ]}). split; reflexivity.
  - reflexivity.
  - vm_compute. reflexivity.
  - reflexivity.
  - reflexivity.
  - reflexivity.
  - split; [exact Hres|]. exists doc. split; [exact Hdoc|].
    rewrite Hrole. reflexivity.
Defined.

Lemma createFirstAdmin_blocked newUid data context w :
  admin_exists w →
  ∃ msg, createFirstAdmin newUid data context w = (Thrown (HttpsError Internal msg), w).
Proof.
  intros Hadm. destruct data as [d|].
  2:{ rewrite createFirstAdmin_missing_becomes_internal. eauto. }
  destruct (truthy d.["email"]) eqn:He;
    [destruct (truthy d.["password"]) eqn:Hp;
     [destruct (truthy d.["displayName"]) eqn:Hn|]|].
  - rewrite (createFirstAdmin_refused newUid (Some d) context w d eq_refl
               (conj He (conj Hp Hn)) Hadm). eauto.
  - unfold createFirstAdmin, try_catch. simpl. rewrite !bind_ret.
    rewrite He, Hp, Hn. simpl. eauto.
  - unfold createFirstAdmin, try_catch. simpl. rewrite !bind_ret.
    rewrite He, Hp. simpl. eauto.
  - unfold createFirstAdmin, try_catch. simpl. rewrite !bind_ret.
    rewrite He. simpl. eauto.
Qed.

(** X21. The bootstrap works once.  After a call of [createFirstAdmin]
    that succeeded, the users collection holds an admin document, and
    every further call, with any payload, generated uid and caller,
    fails with [Internal] and changes nothing. *)
Theorem createFirstAdmin_at_most_once
    (newUid : string) (data : option obj) (context : context) (w : World) (d : obj) :
  data = Some d → complete d → ¬ admin_exists w → acceptable newUid d w →
  let w' := exec (createFirstAdmin newUid data context) w in
  admin_exists w'
  ∧ ∀ newUid' data' context',
      ∃ msg, createFirstAdmin newUid' data' context' w'
             = (Thrown (HttpsError Internal msg), w').
Proof.
  intros Hd Hc Hno Hacc w'.
  assert (Hadm : admin_exists w').
  { destruct (createFirstAdmin_creates newUid data context w d Hd Hc Hno Hacc)
      as (_ & _ & doc & Hdoc & Hrole & _).
    exists newUid, doc. split; [done|].
    unfold prop in Hrole. by destruct (doc !! "role") as [v|]; simpl in Hrole; subst. }
  split; [done|]. intros newUid' data' context'. by apply createFirstAdmin_blocked.
Qed.

Lemma createFirstAdmin_at_most_once_witness :
  let w : World := mkWorld ∅ ∅ 0 [] in
  let eve : obj := {[ "email" := JStr "e@x"; "password" := JStr "secret1";
                      "displayName" := JStr "E" ]} in
  let w' := exec (createFirstAdmin "e" (Some eve) (Context None)) w in
  ∃ msg, createFirstAdmin "f" (Some {[ "email" := JStr "f@x"; "password" := JStr "secret2";
                                       "displayName" := JStr "F" ]}) (Context None) w'
         = (Thrown (HttpsError Internal msg), w').
Proof.
  intros w eve w'.
  destruct (createFirstAdmin_at_most_once "e" (Some eve) (Context None) w eve)
    as [_ Hblocked].
  - reflexivity.
  - repeat split.
  - intros (id & doc & Hdoc & _). vm_compute in Hdoc. discriminate.
  - split; [reflexivity|]. split; [reflexivity|]. split; [reflexivity|].
    split; [|split; [discriminate | reflexivity]].
    intros (uid & i & Hi & _). vm_compute in Hi. discriminate.
  - apply Hblocked.
Defined.

(* ===================================================================== *)
(** ** Moderation *)
(* ===================================================================== *)

(** The patch [moderateAssessment] builds: feedback is part of it only
    when truthy. *)
Definition moderation_update (status : jsval) (userId : string) (feedback : jsval) : obj :=
  if truthy feedback
  then <["feedback" := feedback]> (moderation_patch status userId)
  else moderation_patch status userId.

Lemma moderation_update_lookup w status userId feedback k :
  status ≠ JServerTimestamp →
  stamped w (moderation_update status userId feedback) !! k =
    if decide (k = "feedback") then
      if truthy feedback then Some (Sdk.stamp (clock w) feedback) else None
    else stamped w (moderation_patch status userId) !! k.
Proof.
  intros Hs. unfold moderation_update.
  destruct (decide (k = "feedback")) as [->|Hk].
  - destruct (truthy feedback).
    + by rewrite stamped_lookup, lookup_insert_eq.
    + rewrite moderation_patch_lookup by done. by rewrite !decide_False.
  - destruct (truthy feedback); [|done].
    by rewrite !stamped_lookup, lookup_insert_ne.
Qed.

Lemma moderateAssessment_run_feedback data context w caller user d old :
  auth context = Some caller →
  stored_user w (JStr (uid caller)) = Some user →
  access_granted user (RoleArray ["moderator"; "admin"]) →
  data = Some d →
  includes validStatuses d.["status"] = true →
  stored w "assessments" d.["assessmentId"] = Some old →
  ∃ s, d.["assessmentId"] = JStr s ∧ s ≠ EmptyString ∧
    moderateAssessment data context w
    = (Returned (moderated_response d.["status"]),
       doc_updated (DocRef "assessments" s)
         (moderation_update d.["status"] (uid caller) d.["feedback"]) old w).
Proof.
  intros Hauth Huser Hacc -> Hvalid Hold.
  assert (Hne : EmptyString ∉ validStatuses).
  { unfold validStatuses.
    by repeat (apply not_elem_of_cons; split; [done|]); apply not_elem_of_nil. }
  destruct (includes_truthy _ _ Hne Hvalid) as [Htr Hdef].
  assert (Hst : Sdk.storable (moderation_update d.["status"] (uid caller) d.["feedback"])).
  { unfold moderation_update, moderation_patch.
    destruct (truthy d.["feedback"]) eqn:Hfb; storable. by apply truthy_defined. }
  destruct (updateDoc_returned "assessments" d.["assessmentId"] _ old w Hst Hold)
    as (s & Hs & Hsne & Hupd).
  exists s. split; [done|]. split; [done|].
  unfold moderateAssessment, try_catch. rewrite Hauth.
  rewrite (bind_returned _ _ _ _ _ (access_granted_verify _ _ _ _ Huser Hacc)).
  simpl. rewrite !bind_ret. rewrite Hs at 1. rewrite (truthy_nonempty s Hsne), Htr.
  simpl. rewrite bind_ret. fold validStatuses. rewrite Hvalid. simpl. rewrite bind_ret.
  fold (moderation_patch d.["status"] (uid caller)).
  fold (moderation_update d.["status"] (uid caller) d.["feedback"]).
  by rewrite (bind_returned _ _ _ _ _ Hupd).
Qed.

(** What a valid moderation leaves in the assessment. *)
Lemma moderateAssessment_document data context w caller user d old :
  auth context = Some caller →
  stored_user w (JStr (uid caller)) = Some user →
  access_granted user (RoleArray ["moderator"; "admin"]) →
  data = Some d →
  includes validStatuses d.["status"] = true →
  stored w "assessments" d.["assessmentId"] = Some old →
  let w' := exec (moderateAssessment data context) w in
  result (moderateAssessment data context) w = Returned (moderated_response d.["status"])
  ∧ collection w' "users" = collection w "users"
  ∧ ∃ doc, stored w' "assessments" d.["assessmentId"] = Some doc
      ∧ doc.["status"] = d.["status"]
      ∧ doc.["moderatorId"] = JStr (uid caller)
      ∧ doc.["feedback"] = (if truthy d.["feedback"]
                            then Sdk.stamp (clock w) d.["feedback"]
                            else old.["feedback"]).
Proof.
  intros Hauth Huser Hacc Hd Hvalid Hold w'. unfold w'. clear w'.
  destruct (moderateAssessment_run_feedback data context w caller user d old)
    as (s & Hs & Hne & Hrun); try done.
  assert (Hnts : d.["status"] ≠ JServerTimestamp).
  { apply includes_true in Hvalid as (? & -> & _). done. }
  unfold exec, result. rewrite Hrun. simpl. split; [done|]. split.
  { unfold doc_updated. by rewrite collection_doc_written, decide_False. }
  eexists. split.
  { rewrite Hs. unfold doc_updated. by apply stored_doc_written. }
  split_and!.
  - apply prop_patch. rewrite moderation_update_lookup, decide_False by done.
    by rewrite moderation_patch_lookup.
  - apply prop_patch. rewrite moderation_update_lookup, decide_False by done.
    by rewrite moderation_patch_lookup.
  - destruct (truthy d.["feedback"]) eqn:Hfb.
    + apply prop_patch. rewrite moderation_update_lookup, decide_True by done.
      by rewrite Hfb.
    + apply prop_patch_other. rewrite moderation_update_lookup, decide_True by done.
      by rewrite Hfb.
Qed.

(** X22. Feedback is written only when truthy.  A valid moderation by an
    approved moderator or admin stores the feedback given when it is
    truthy; with no feedback, [null] or the empty string the stored
    feedback stays what it was, so a moderation cannot clear it. *)
Theorem moderateAssessment_feedback_only_when_truthy
    (data : option obj) (context : context) (w : World)
    (caller : auth_info) (user d old : obj) :
  auth context = Some caller →
  stored_user w (JStr (uid caller)) = Some user →
  access_granted user (RoleArray ["moderator"; "admin"]) →
  data = Some d →
  includes validStatuses d.["status"] = true →
  stored w "assessments" d.["assessmentId"] = Some old →
  let w' := exec (moderateAssessment data context) w in
  ∃ doc, stored w' "assessments" d.["assessmentId"] = Some doc
    ∧ (truthy d.["feedback"] = true → doc.["feedback"] = Sdk.stamp (clock w) d.["feedback"])
    ∧ (truthy d.["feedback"] = false → doc.["feedback"] = old.["feedback"]).
Proof.
  intros Hauth Huser Hacc Hd Hvalid Hold w'.
  destruct (moderateAssessment_document data context w caller user d old)
    as (_ & _ & doc & Hdoc & _ & _ & Hfb); try done.
  exists doc. split; [done|]. split; intros Ht; by rewrite Ht in Hfb.
Qed.

Lemma moderateAssessment_feedback_only_when_truthy_witness :
  let w : World :=
    mkWorld {[ "users" := {[ "m" := {[ "role" := JStr "moderator"; "approved" := JBool true ]} ]};
               "assessments" := {[ "x" := {[ "feedback" := JStr "redo Q2" ]} ]} ]}
            ∅ 0 [] in
  let moderator := Context (Some (AuthInfo "m" ∅)) in
  let data := Some ({[ "assessmentId" := JStr "x"; "status" := JStr "approved";
                       "feedback" := JStr EmptyString ]} : obj) in
  ∃ doc, stored (exec (moderateAssessment data moderator) w) "assessments" (JStr "x") = Some doc
    ∧ doc.["feedback"] = JStr "redo Q2".
Proof.
  intros w moderator data.
  destruct (moderateAssessment_feedback_only_when_truthy data moderator w
              (AuthInfo "m" ∅) {[ "role" := JStr "moderator"; "approved" := JBool true ]}
              {[ "assessmentId" := JStr "x"; "status" := JStr "approved";
                 "feedback" := JStr EmptyString ]}
              {[ "feedback" := JStr "redo Q2" ]})
    as (doc & Hdoc & _ & Hkept).
  - reflexivity.
  - vm_compute. reflexivity.
  - split; [|by left]. exists "moderator". split; [reflexivity|]. apply list_elem_of_here.
  - reflexivity.
  - reflexivity.
  - vm_compute. reflexivity.
  - exists doc. split; [exact Hdoc|]. rewrite Hkept by reflexivity. reflexivity.
Defined.

(** X23. The last moderation wins.  [moderateAssessment] does not look at
    the status or the moderator already stored: when two approved
    moderators (or admins) moderate the same assessment one after the
    other with valid statuses, both calls succeed, and the assessment
    ends with the status given by the second and the second caller as
    moderator. *)
Theorem moderateAssessment_last_write_wins
    (data1 data2 : option obj) (context1 context2 : context) (w : World)
    (caller1 caller2 : auth_info) (user1 user2 d1 d2 old : obj) :
  auth context1 = Some caller1 → auth context2 = Some caller2 →
  stored_user w (JStr (uid caller1)) = Some user1 →
  stored_user w (JStr (uid caller2)) = Some user2 →
  access_granted user1 (RoleArray ["moderator"; "admin"]) →
  access_granted user2 (RoleArray ["moderator"; "admin"]) →
  data1 = Some d1 → data2 = Some d2 →
  includes validStatuses d1.["status"] = true →
  includes validStatuses d2.["status"] = true →
  d1.["assessmentId"] = d2.["assessmentId"] →
  stored w "assessments" d1.["assessmentId"] = Some old →
  let w1 := exec (moderateAssessment data1 context1) w in
  let w2 := exec (moderateAssessment data2 context2) w1 in
  result (moderateAssessment data1 context1) w = Returned (moderated_response d1.["status"])
  ∧ result (moderateAssessment data2 context2) w1 = Returned (moderated_response d2.["status"])
  ∧ ∃ doc, stored w2 "assessments" d2.["assessmentId"] = Some doc
      ∧ doc.["status"] = d2.["status"]
      ∧ doc.["moderatorId"] = JStr (uid caller2).
Proof.
  intros Hauth1 Hauth2 Hu1 Hu2 Hacc1 Hacc2 Hd1 Hd2 Hv1 Hv2 Hsame Hold w1 w2.
  destruct (moderateAssessment_document data1 context1 w caller1 user1 d1 old)
    as (Hres1 & Husers & doc1 & Hdoc1 & _); try done.
  fold w1 in Husers, Hdoc1.
  assert (Hu2' : stored_user w1 (JStr (uid caller2)) = Some user2).
  { revert Hu2. unfold stored_user, stored. by rewrite Husers. }
  rewrite Hsame in Hdoc1.
  destruct (moderateAssessment_document data2 context2 w1 caller2 user2 d2 doc1)
    as (Hres2 & _ & doc2 & Hdoc2 & Hstatus & Hmod & _); try done.
  split; [done|]. split; [done|]. by exists doc2.
Qed.

Lemma moderateAssessment_last_write_wins_witness :
  let w : World :=
    mkWorld {[ "users" := {[ "m" := {[ "role" := JStr "moderator"; "approved" := JBool true ]};
                             "r" := {[ "role" := JStr "admin" ]} ]};
               "assessments" := {[ "x" := {[ "status" := JStr "draft" ]} ]} ]}
            ∅ 0 [] in
  let first := Some ({[ "assessmentId" := JStr "x"; "status" := JStr "approved" ]} : obj) in
  let second := Some ({[ "assessmentId" := JStr "x"; "status" := JStr "rejected" ]} : obj) in
  let w1 := exec (moderateAssessment first (Context (Some (AuthInfo "m" ∅)))) w in
  let w2 := exec (moderateAssessment second (Context (Some (AuthInfo "r" ∅)))) w1 in
  ∃ doc, stored w2 "assessments" (JStr "x") = Some doc
    ∧ doc.["status"] = JStr "rejected" ∧ doc.["moderatorId"] = JStr "r".
Proof.
  intros w first second w1 w2.
  destruct (moderateAssessment_last_write_wins first second
              (Context (Some (AuthInfo "m" ∅))) (Context (Some (AuthInfo "r" ∅))) w
              (AuthInfo "m" ∅) (AuthInfo "r" ∅)
              {[ "role" := JStr "moderator"; "approved" := JBool true ]}
              {[ "role" := JStr "admin" ]}
              {[ "assessmentId" := JStr "x"; "status" := JStr "approved" ]}
              {[ "assessmentId" := JStr "x"; "status" := JStr "rejected" ]}
              {[ "status" := JStr "draft" ]})
    as (_ & _ & doc & Hdoc & Hstatus & Hmod).
  - reflexivity.
  - reflexivity.
  - vm_compute. reflexivity.
  - vm_compute. reflexivity.
  - split; [|by left]. exists "moderator". split; [reflexivity|]. apply list_elem_of_here.
  - split; [|by right]. exists "admin". split; [reflexivity|].
    apply list_elem_of_further, list_elem_of_here.
  - reflexivity.
  - reflexivity.
  - reflexivity.
  - reflexivity.
  - reflexivity.
  - vm_compute. reflexivity.
  - exists doc. split; [exact Hdoc|]. split; [exact Hstatus | exact Hmod].
Defined.

(* ===================================================================== *)
(** ** The user reactions, case by case *)
(* ===================================================================== *)

(** X24. A new user who is no admin is marked unapproved, whatever the
    document said.  When the user-create reaction runs for a stored
    document whose role in the event is not ["admin"], it writes
    [approved: false] and [customClaims: null] over it, also over an
    [approved: true] the creator of the document put there, keeps every
    other field but [updatedAt], and attaches no claims: the identities
    stay as they were. *)
Theorem onUserCreate_marks_unapproved (event : create_event) (w : World) (old : obj) :
  (crt_data event).["role"] ≠ JStr "admin" →
  stored w "users" (JStr (crt_userId event)) = Some old →
  let w' := exec (onUserCreate event) w in
  identities w' = identities w
  ∧ ∃ doc, users w' !! crt_userId event = Some doc
      ∧ doc.["approved"] = JBool false
      ∧ doc.["customClaims"] = JNull
      ∧ ∀ k, k ≠ "approved" → k ≠ "customClaims" → k ≠ "updatedAt" →
             doc !! k = old !! k.
Proof.
  intros Hrole Hold w'. unfold w', exec. clear w'. rewrite onUserCreate_run. cbn [snd].
  unfold after_onUserCreate.
  assert (Hadm : strict_eq (crt_data event).["role"] (JStr "admin") = false).
  { apply not_true_is_false. by intros ?%strict_eq_str. }
  rewrite Hadm, Hold. split; [done|].
  eexists. split; [by rewrite users_doc_updated, lookup_insert_eq|].
  split_and!.
  - apply prop_patch. by rewrite create_patch_lookup.
  - apply prop_patch. by rewrite create_patch_lookup.
  - intros k H1 H2 H3. rewrite lookup_union_r; [done|].
    rewrite create_patch_lookup by done. by rewrite !decide_False.
Qed.

Lemma onUserCreate_marks_unapproved_witness :
  let sneaky : obj := {[ "role" := JStr "lecturer"; "approved" := JBool true ]} in
  let w : World :=
    mkWorld {[ "users" := {[ "u" := sneaky ]} ]}
            {[ "u" := Identity (JStr "u@x") (JStr "U") None ]} 0 [] in
  let w' := exec (onUserCreate (CreateEvent "u" sneaky)) w in
  claims_of w' "u" = None
  ∧ ∃ doc, users w' !! "u" = Some doc ∧ doc.["approved"] = JBool false.
Proof.
  intros sneaky w w'.
  destruct (onUserCreate_marks_unapproved (CreateEvent "u" sneaky) w sneaky)
    as (Hids & doc & Hdoc & Happ & _).
  - discriminate.
  - vm_compute. reflexivity.
  - split.
    + unfold claims_of, w'. rewrite Hids. vm_compute. reflexivity.
    + exists doc. split; [exact Hdoc | exact Happ].
Defined.

(** X25. A new admin is approved and claimed at once.  When the
    user-create reaction runs for a stored document whose role in the
    event is ["admin"] and whose identity exists, it attaches the claims
    [{admin: true, moderator: false, lecturer: false, approved: true}],
    writes [approved: true] and the same record as [customClaims] into
    the document, and keeps every other field but [updatedAt]. *)
Theorem onUserCreate_admin_claims (event : create_event) (w : World) (old : obj) :
  (crt_data event).["role"] = JStr "admin" →
  is_Some (identities w !! crt_userId event) →
  stored w "users" (JStr (crt_userId event)) = Some old →
  let w' := exec (onUserCreate event) w in
  let record : claims :=
    {[ "admin" := true; "moderator" := false; "lecturer" := false; "approved" := true ]} in
  claims_of w' (crt_userId event) = Some record
  ∧ ∃ doc, users w' !! crt_userId event = Some doc
      ∧ doc.["approved"] = JBool true
      ∧ doc.["customClaims"] = JClaims record
      ∧ ∀ k, k ≠ "approved" → k ≠ "customClaims" → k ≠ "updatedAt" →
             doc !! k = old !! k.
Proof.
  intros Hrole Hid Hold w' record. unfold w', exec. clear w'.
  rewrite onUserCreate_run. cbn [snd]. unfold after_onUserCreate. rewrite Hrole.
  change (strict_eq (JStr "admin") (JStr "admin")) with true. cbv iota.
  rewrite decide_True by done. rewrite stored_claims_attached, Hold.
  assert (Hrec : admin_creation_claims (JStr "admin") = record) by (vm_compute; reflexivity).
  rewrite Hrec. split.
  { unfold claims_of, doc_updated. rewrite identities_doc_written.
    by apply claims_of_attached. }
  eexists. split; [by rewrite users_doc_updated, lookup_insert_eq|].
  split_and!.
  - apply prop_patch. by rewrite create_patch_lookup.
  - apply prop_patch. by rewrite create_patch_lookup.
  - intros k H1 H2 H3. rewrite lookup_union_r; [done|].
    rewrite create_patch_lookup by done. by rewrite !decide_False.
Qed.

Lemma onUserCreate_admin_claims_witness :
  let boss : obj := {[ "role" := JStr "admin" ]} in
  let w : World :=
    mkWorld {[ "users" := {[ "b" := boss ]} ]}
            {[ "b" := Identity (JStr "b@x") (JStr "B") None ]} 0 [] in
  let w' := exec (onUserCreate (CreateEvent "b" boss)) w in
  claims_of w' "b"
  = Some {[ "admin" := true; "moderator" := false; "lecturer" := false; "approved" := true ]}.
Proof.
  intros boss w w'.
  destruct (onUserCreate_admin_claims (CreateEvent "b" boss) w boss) as (Hclaims & _).
  - reflexivity.
  - vm_compute. eauto.
  - vm_compute. reflexivity.
  - exact Hclaims.
Defined.

(** The world differs at most in the document and the identity of one
    user, and that user's document is not created. *)
Definition touches_at_most (userId : string) (w w' : World) : Prop :=
  (∀ c, c ≠ "users" → collection w' c = collection w c)
  ∧ (∀ id, id ≠ userId → users w' !! id = users w !! id)
  ∧ (users w !! userId = None → users w' !! userId = None)
  ∧ (∀ s, s ≠ userId → identities w' !! s = identities w !! s)
  ∧ (identities w !! userId = None → identities w' !! userId = None).

Lemma touches_at_most_refl userId w : touches_at_most userId w w.
Proof. by repeat split. Qed.

Lemma touches_at_most_attached userId c w :
  touches_at_most userId w (claims_attached userId c w).
Proof.
  unfold touches_at_most. split_and!.
  - intros k _. apply collection_claims_attached.
  - intros id _. by rewrite users_claims_attached.
  - by rewrite users_claims_attached.
  - intros s Hs. unfold claims_attached.
    destruct (identities w !! userId); [|done]. simpl. by rewrite lookup_insert_ne.
  - intros Hnone. by rewrite identities_claims_skipped.
Qed.

Lemma touches_at_most_updated userId patch old w0 w :
  touches_at_most userId w0 w →
  users w !! userId = Some old →
  touches_at_most userId w0 (doc_updated (DocRef "users" userId) patch old w).
Proof.
  intros (H1 & H2 & H3 & H4 & H5) Hold. unfold touches_at_most, doc_updated.
  split_and!.
  - intros c Hc. rewrite collection_doc_written, decide_False by (simpl; congruence).
    by apply H1.
  - intros id Hid. rewrite users_doc_written, lookup_insert_ne by done. by apply H2.
  - intros Hnone. rewrite (H3 Hnone) in Hold. done.
  - intros s Hs. rewrite identities_doc_written. by apply H4.
  - intros Hnone. rewrite identities_doc_written. by apply H5.
Qed.

Lemma stored_users w userId old :
  stored w "users" (JStr userId) = Some old → users w !! userId = Some old.
Proof. by intros (s & [= <-] & _ & _ & Hold)%stored_Some. Qed.

(** X26. The user reactions stay with their user.  For every event and
    world, [onUserUpdate] and [onUserCreate] never fail, never create a
    user document that is not there, and change no other user's document
    or identity and no other collection. *)
Theorem user_reactions_stay_with_their_user
    (updated : update_event) (created : create_event) (w : World) :
  result (onUserUpdate updated) w = Returned tt
  ∧ touches_at_most (upd_userId updated) w (exec (onUserUpdate updated) w)
  ∧ result (onUserCreate created) w = Returned tt
  ∧ touches_at_most (crt_userId created) w (exec (onUserCreate created) w).
Proof.
  unfold result, exec. rewrite onUserUpdate_run, onUserCreate_run. cbn [fst snd].
  split; [done|]. split; [|split; [done|]].
  - unfold after_onUserUpdate.
    destruct (strict_neq _ _); [|apply touches_at_most_refl].
    case_decide; [|apply touches_at_most_refl].
    destruct (stored _ _ _) as [old|] eqn:Hold; [|apply touches_at_most_attached].
    apply touches_at_most_updated; [apply touches_at_most_attached|].
    by apply stored_users.
  - unfold after_onUserCreate.
    destruct (strict_eq _ _).
    + case_decide; [|apply touches_at_most_refl].
      destruct (stored _ _ _) as [old|] eqn:Hold; [|apply touches_at_most_attached].
      apply touches_at_most_updated; [apply touches_at_most_attached|].
      by apply stored_users.
    + destruct (stored _ _ _) as [old|] eqn:Hold; [|apply touches_at_most_refl].
      apply touches_at_most_updated; [apply touches_at_most_refl|].
      by apply stored_users.
Qed.

(** X27. [createAssessment] creates nothing without a title, a content
    and a type.  For a caller who passes the role check, a payload in
    which one of the three is missing or falsy (the empty string
    included) gets [Internal] with the message of the argument check, and
    no document is written. *)
Theorem createAssessment_needs_title_content_type
    (autoId : string) (data : option obj) (context : context) (w : World)
    (caller : auth_info) (user d : obj) :
  auth context = Some caller →
  stored_user w (JStr (uid caller)) = Some user →
  access_granted user (RoleArray ["lecturer"; "admin"]) →
  data = Some d →
  truthy d.["title"] = false ∨ truthy d.["content"] = false ∨ truthy d.["type"] = false →
  createAssessment autoId data context w
  = (Thrown (HttpsError Internal "Title, content, and type are required."), w).
Proof.
  intros Hauth Huser Hacc -> Hmissing.
  unfold createAssessment, try_catch. rewrite Hauth.
  rewrite (bind_returned _ _ _ _ _ (access_granted_verify _ _ _ _ Huser Hacc)).
  simpl. rewrite !bind_ret.
  assert (Hargs : negb (truthy d.["title"]) || negb (truthy d.["content"])
                  || negb (truthy d.["type"]) = true).
  { destruct Hmissing as [-> | [-> | ->]]; simpl; by rewrite ?orb_true_r. }
  by rewrite Hargs.
Qed.

Lemma createAssessment_needs_title_content_type_witness :
  let w : World :=
    mkWorld {[ "users" := {[ "l" := {[ "role" := JStr "lecturer"; "approved" := JBool true ]} ]} ]}
            ∅ 0 [] in
  createAssessment "x" (Some {[ "title" := JStr EmptyString; "content" := JStr "c";
                                "type" := JStr "quiz" ]})
    (Context (Some (AuthInfo "l" ∅))) w
  = (Thrown (HttpsError Internal "Title, content, and type are required."), w).
Proof.
  intros w.
  apply (createAssessment_needs_title_content_type "x" _ _ w (AuthInfo "l" ∅)
           {[ "role" := JStr "lecturer"; "approved" := JBool true ]}
           {[ "title" := JStr EmptyString; "content" := JStr "c"; "type" := JStr "quiz" ]}).
  - reflexivity.
  - vm_compute. reflexivity.
  - split; [|by left]. exists "lecturer". split; [reflexivity|]. apply list_elem_of_here.
  - reflexivity.
  - left. reflexivity.
Defined.

(* ===================================================================== *)
(** ** create-admin.js *)
(* ===================================================================== *)

(** The details the script is written for. *)
Definition adminUser : obj :=
  {[ "email" := JStr "tjaart717@gmail.com";
     "password" := JStr "admin123";
     "displayName" := JStr "TJ Admin" ]}.

(** [createAdminUser()], up to the [process.exit(0)] that ends the
    script; [newUid] is the uid the identity provider generates. *)
Definition createAdminUser (newUid : string) : M unit :=
  try_catch
    (let* query := Sdk.where_ (Sdk.Query "users" [])
                     (Sdk.Condition "role" Sdk.OpEq (JStr "admin")) in
     let* adminSnapshot := Sdk.run query in
     if negb (bool_decide (adminSnapshot = [])) then ret tt
     else
       let* userRecord_uid :=
         Sdk.createUser newUid adminUser.["email"] adminUser.["password"]
           adminUser.["displayName"] in
       let customClaims : claims :=
         {[ "admin" := true; "moderator" := false; "lecturer" := false; "approved" := true ]} in
       Sdk.setCustomUserClaims (JStr userRecord_uid) customClaims ;;;
       (let* r := Sdk.doc "users" (JStr userRecord_uid) in
        Sdk.set r
          {[ "displayName" := adminUser.["displayName"];
             "email" := adminUser.["email"];
             "role" := JStr "admin";
             "approved" := JBool true;
             "active" := JBool true;
             "customClaims" := JClaims customClaims;
             "createdAt" := JServerTimestamp;
             "updatedAt" := JServerTimestamp ]}) ;;;
       ret tt)
    (λ error, ret tt).

(** X28. The script does what the endpoint does.  For every world and
    generated uid, [createAdminUser] of create-admin.js never throws and
    leaves exactly the world that [createFirstAdmin] leaves when called
    with the script's address, password and display name: nothing when an
    admin document exists or the provider refuses the account, otherwise
    the identity, its admin claims and the admin document. *)
Theorem createAdminUser_like_createFirstAdmin
    (newUid : string) (context : context) (w : World) :
  createAdminUser newUid w
  = (Returned tt, exec (createFirstAdmin newUid (Some adminUser) context) w).
Proof.
  unfold createAdminUser, createFirstAdmin, exec, try_catch.
  (* the endpoint's argument checks pass *)
  rewrite (bool_decide_eq_true_2 (is_Some (Some adminUser))) by eauto.
  rewrite (bind_returned _ _ _ _ _ (throw_if_false _ w)).
  unfold properties. rewrite bind_ret.
  change (negb (truthy adminUser.["email"]) || negb (truthy adminUser.["password"])
          || negb (truthy adminUser.["displayName"])) with false.
  rewrite (bind_returned _ _ _ _ _ (throw_if_false _ w)).
  (* both ask for the admin documents *)
  fold role_is_admin.
  rewrite (bind_returned _ _ _ _ _ (queryDocs_one "users" role_is_admin w ltac:(done))).
  rewrite length_fmap.
  unfold Sdk.where_ at 1. rewrite decide_False by done. rewrite bind_ret.
  unfold bind at 1. unfold Sdk.run at 1. cbn [Sdk.q_collection Sdk.q_filters app].
  change (filter _ (map_to_list (collection w "users")))
    with (matching w "users" [role_is_admin]).
  destruct (matching w "users" [role_is_admin]) as [|kd l].
  2:{ rewrite bool_decide_eq_false_2 by done. done. }
  rewrite bool_decide_eq_true_2 by done.
  change (0 <? Z.of_nat (length (@nil (string * obj)))) with false.
  rewrite (bind_returned _ _ _ _ _ (throw_if_false _ w)).
  change (negb true) with false. cbv iota.
  (* and then take the same steps *)
  unfold bind.
  destruct (Sdk.createUser _ _ _ _ w) as [[uid|e] w1]; [|done].
  destruct (Sdk.setCustomUserClaims _ _ w1) as [[[]|e] w2]; [|done].
  destruct (Sdk.doc "users" (JStr uid) w2) as [[r|e] w3]; [|done].
  by destruct (Sdk.set r _ w3) as [[[]|e] w4].
Qed.
